(** * GGFW: a thin Win32 windowing layer, modelled and verified

    The development follows [src/Framework/Framework.cpp] (namespaces [in]
    and [tsd]) and the two lookups of [src/Framework/Internals.cpp]
    (namespace [i]).  The program state is the global [in::WindowInfo]
    together with the free store of [WindowData] objects; every call into
    the operating system is recorded in a trace, and what the operating
    system answers is an explicit argument of the function that asks. *)

From Stdlib Require Import ZArith String Ascii List Bool Lia DecimalString.
From stdpp Require Import base option list gmap strings.

Local Open Scope Z_scope.

(** ** Win32 constants (winuser.h) *)

Module Win32.

Definition WM_DESTROY : Z := 0x0002.
Definition WM_CLOSE   : Z := 0x0010.

Definition MB_OK                : Z := 0x0000.
Definition MB_OKCANCEL          : Z := 0x0001.
Definition MB_ABORTRETRYIGNORE  : Z := 0x0002.
Definition MB_YESNOCANCEL       : Z := 0x0003.
Definition MB_YESNO             : Z := 0x0004.
Definition MB_RETRYCANCEL       : Z := 0x0005.
Definition MB_CANCELTRYCONTINUE : Z := 0x0006.
Definition MB_ICONERROR         : Z := 0x0010.
Definition MB_ICONQUESTION      : Z := 0x0020.
Definition MB_ICONWARNING       : Z := 0x0030.
Definition MB_ICONINFORMATION   : Z := 0x0040.
Definition MB_TASKMODAL         : Z := 0x2000.

Definition IDOK       : Z := 1.
Definition IDCANCEL   : Z := 2.
Definition IDABORT    : Z := 3.
Definition IDRETRY    : Z := 4.
Definition IDIGNORE   : Z := 5.
Definition IDYES      : Z := 6.
Definition IDNO       : Z := 7.
Definition IDTRYAGAIN : Z := 10.
Definition IDCONTINUE : Z := 11.

End Win32.

(** ** Data model *)

(** A window handle; [0] is the null handle. *)
Abbreviation HWND := Z (only parsing).

(** A [WindowData*]: the position of the object in the free store. *)
Abbreviation ptr := nat (only parsing).

(** A [char*]: [None] is the null pointer. *)
Abbreviation cstr := (option string) (only parsing).

(** Where the thread behind [msgThread] stands in
    [in::WindowData::MessageHandler]: before the message pump (lines
    67-90), inside it (lines 93-98) or past it (lines 100-101). *)
Inductive thread_state := Starting | Pumping | Exited.

#[global] Instance thread_state_eq_dec : EqDecision thread_state.
Proof. solve_decision. Defined.

(** [in::WindowData].  The integer fields are mathematical integers: the
    struct is declared in Internals.hpp, which is not part of the
    sources at hand. *)
Record WindowData := mkWindowData {
  wd_hWnd      : HWND;
  wd_id        : Z;
  wd_name      : cstr;
  wd_isVisible : bool;
  wd_isValid   : bool;
  wd_width     : Z;
  wd_height    : Z;
  wd_xPos      : Z;
  wd_yPos      : Z;
  wd_msgThread : option thread_state
}.

(** The conversion of an integer to [short], the return type of
    [tsd::CreateWindow] and the type in which the interface takes window
    ids: sixteen bits in two's complement. *)
Definition to_short (z : Z) : Z := (z + 32768) mod 65536 - 32768.

(** What the program asks of the operating system and the C++ runtime. *)
Inductive OsCall :=
| OsFormatMessage (code : Z)
| OsMessageBox (owner : HWND) (text caption : string) (uType : Z)
| OsLocalFree
| OsFileOpen (path : string)
| OsFileWrite (path : string) (text : string)
| OsFileClose (path : string)
| OsCreateWindowEx (name : cstr) (w h : Z)
| OsShowWindow (h : HWND) (cmd : Z)
| OsDestroyWindow (h : HWND)
| OsDefWindowProc (h : HWND) (uMsg wParam lParam : Z)
| OsLoadIcon (res : Z)
| OsLoadCursor (res : Z)
| OsRegisterClassEx
| OsThreadStart (obj : ptr).

(** The global [in::WindowInfo], the free store and the trace.  The
    counters are mathematical integers, like the fields of
    [WindowData]. *)
Record State := mkState {
  hInstance        : Z;
  hIcon            : Z;
  hCursor          : Z;
  classAtom        : Z;
  isInitialised    : bool;
  isRunning        : bool;
  lastErrorCode    : Z;
  windowCount      : Z;
  windowsOpened    : Z;
  windowIsFinished : bool;
  windows          : list ptr;
  objects          : list WindowData;
  trace            : list OsCall
}.

(** ** The monad of the framework's functions

    A function runs on a state and returns normally with a value, leaves
    by a thrown [std::exception], stays blocked in a wait, or has no
    defined behaviour (a null or dangling [WindowData*] was
    dereferenced). *)
Inductive outcome (A : Type) :=
| Normal (a : A) (s : State)
| Thrown (s : State)
| Blocked
| Undefined.
Arguments Normal {A} a s.
Arguments Thrown {A} s.
Arguments Blocked {A}.
Arguments Undefined {A}.

Definition M (A : Type) := State -> outcome A.

Definition ret {A} (a : A) : M A := fun s => Normal a s.

Definition bind {A B} (m : M A) (k : A -> M B) : M B :=
  fun s => match m s with
           | Normal a s' => k a s'
           | Thrown s' => Thrown s'
           | Blocked => Blocked
           | Undefined => Undefined
           end.

Definition throw {A} : M A := fun s => Thrown s.
Definition undefined {A} : M A := fun _ => Undefined.
Definition blocked {A} : M A := fun _ => Blocked.
Definition get : M State := fun s => Normal s s.
Definition put (s : State) : M unit := fun _ => Normal tt s.
Definition modify (f : State -> State) : M unit := fun s => Normal tt (f s).

Declare Scope fw_scope.
Delimit Scope fw_scope with fw.
Notation "x ← y ; z" := (bind y (fun x => z))
  (at level 20, y at level 100, z at level 200) : fw_scope.
Notation "y ;; z" := (bind y (fun _ => z))
  (at level 100, z at level 200, right associativity) : fw_scope.
Local Open Scope fw_scope.

(** Field updates of the state. *)
Definition set_hInstance v s := mkState v (hIcon s) (hCursor s) (classAtom s)
  (isInitialised s) (isRunning s) (lastErrorCode s) (windowCount s)
  (windowsOpened s) (windowIsFinished s) (windows s) (objects s) (trace s).
Definition set_hIcon v s := mkState (hInstance s) v (hCursor s) (classAtom s)
  (isInitialised s) (isRunning s) (lastErrorCode s) (windowCount s)
  (windowsOpened s) (windowIsFinished s) (windows s) (objects s) (trace s).
Definition set_hCursor v s := mkState (hInstance s) (hIcon s) v (classAtom s)
  (isInitialised s) (isRunning s) (lastErrorCode s) (windowCount s)
  (windowsOpened s) (windowIsFinished s) (windows s) (objects s) (trace s).
Definition set_classAtom v s := mkState (hInstance s) (hIcon s) (hCursor s) v
  (isInitialised s) (isRunning s) (lastErrorCode s) (windowCount s)
  (windowsOpened s) (windowIsFinished s) (windows s) (objects s) (trace s).
Definition set_isInitialised v s := mkState (hInstance s) (hIcon s) (hCursor s)
  (classAtom s) v (isRunning s) (lastErrorCode s) (windowCount s)
  (windowsOpened s) (windowIsFinished s) (windows s) (objects s) (trace s).
Definition set_isRunning v s := mkState (hInstance s) (hIcon s) (hCursor s)
  (classAtom s) (isInitialised s) v (lastErrorCode s) (windowCount s)
  (windowsOpened s) (windowIsFinished s) (windows s) (objects s) (trace s).
Definition set_lastErrorCode v s := mkState (hInstance s) (hIcon s) (hCursor s)
  (classAtom s) (isInitialised s) (isRunning s) v (windowCount s)
  (windowsOpened s) (windowIsFinished s) (windows s) (objects s) (trace s).
Definition set_windowCount v s := mkState (hInstance s) (hIcon s) (hCursor s)
  (classAtom s) (isInitialised s) (isRunning s) (lastErrorCode s) v
  (windowsOpened s) (windowIsFinished s) (windows s) (objects s) (trace s).
Definition set_windowsOpened v s := mkState (hInstance s) (hIcon s) (hCursor s)
  (classAtom s) (isInitialised s) (isRunning s) (lastErrorCode s) (windowCount s)
  v (windowIsFinished s) (windows s) (objects s) (trace s).
Definition set_windowIsFinished v s := mkState (hInstance s) (hIcon s) (hCursor s)
  (classAtom s) (isInitialised s) (isRunning s) (lastErrorCode s) (windowCount s)
  (windowsOpened s) v (windows s) (objects s) (trace s).
Definition set_windows v s := mkState (hInstance s) (hIcon s) (hCursor s)
  (classAtom s) (isInitialised s) (isRunning s) (lastErrorCode s) (windowCount s)
  (windowsOpened s) (windowIsFinished s) v (objects s) (trace s).
Definition set_objects v s := mkState (hInstance s) (hIcon s) (hCursor s)
  (classAtom s) (isInitialised s) (isRunning s) (lastErrorCode s) (windowCount s)
  (windowsOpened s) (windowIsFinished s) (windows s) v (trace s).
Definition set_trace v s := mkState (hInstance s) (hIcon s) (hCursor s)
  (classAtom s) (isInitialised s) (isRunning s) (lastErrorCode s) (windowCount s)
  (windowsOpened s) (windowIsFinished s) (windows s) (objects s) v.

(** Field updates of a [WindowData]. *)
Definition wd_set_hWnd v d := mkWindowData v (wd_id d) (wd_name d)
  (wd_isVisible d) (wd_isValid d) (wd_width d) (wd_height d) (wd_xPos d)
  (wd_yPos d) (wd_msgThread d).
Definition wd_set_id v d := mkWindowData (wd_hWnd d) v (wd_name d)
  (wd_isVisible d) (wd_isValid d) (wd_width d) (wd_height d) (wd_xPos d)
  (wd_yPos d) (wd_msgThread d).
Definition wd_set_name v d := mkWindowData (wd_hWnd d) (wd_id d) v
  (wd_isVisible d) (wd_isValid d) (wd_width d) (wd_height d) (wd_xPos d)
  (wd_yPos d) (wd_msgThread d).
Definition wd_set_isValid v d := mkWindowData (wd_hWnd d) (wd_id d) (wd_name d)
  (wd_isVisible d) v (wd_width d) (wd_height d) (wd_xPos d)
  (wd_yPos d) (wd_msgThread d).
Definition wd_set_width v d := mkWindowData (wd_hWnd d) (wd_id d) (wd_name d)
  (wd_isVisible d) (wd_isValid d) v (wd_height d) (wd_xPos d)
  (wd_yPos d) (wd_msgThread d).
Definition wd_set_height v d := mkWindowData (wd_hWnd d) (wd_id d) (wd_name d)
  (wd_isVisible d) (wd_isValid d) (wd_width d) v (wd_xPos d)
  (wd_yPos d) (wd_msgThread d).
Definition wd_set_xPos v d := mkWindowData (wd_hWnd d) (wd_id d) (wd_name d)
  (wd_isVisible d) (wd_isValid d) (wd_width d) (wd_height d) v
  (wd_yPos d) (wd_msgThread d).
Definition wd_set_yPos v d := mkWindowData (wd_hWnd d) (wd_id d) (wd_name d)
  (wd_isVisible d) (wd_isValid d) (wd_width d) (wd_height d) (wd_xPos d)
  v (wd_msgThread d).
Definition wd_set_msgThread v d := mkWindowData (wd_hWnd d) (wd_id d) (wd_name d)
  (wd_isVisible d) (wd_isValid d) (wd_width d) (wd_height d) (wd_xPos d)
  (wd_yPos d) v.

(** An operating-system call: it is appended to the trace. *)
Definition os (c : OsCall) : M unit :=
  modify (fun s => set_trace (trace s ++ [c]) s).

(** Reading the object a [WindowData*] points to. *)
Definition deref (p : ptr) : M WindowData :=
  fun s => match objects s !! p with
           | Some d => Normal d s
           | None => Undefined
           end.

(** [p->field = v]: writing through a [WindowData*]. *)
Definition store (p : ptr) (f : WindowData -> WindowData) : M unit :=
  fun s => match objects s !! p with
           | Some d => Normal tt (set_objects (<[p := f d]> (objects s)) s)
           | None => Undefined
           end.

(** [new in::WindowData]: a fresh object at a fresh address.  The struct's
    default member values come with the declaration in Internals.hpp and
    are an argument here. *)
Definition new_WindowData (dflt : WindowData) : M ptr :=
  fun s => Normal (length (objects s)) (set_objects (objects s ++ [dflt]) s).

(** ** Text *)

(** The line feed that a newline escape and [std::endl] write. *)
Definition nl : string := String (ascii_of_nat 10) EmptyString.

(** [stream << n] for an [int]: its decimal digits, with a minus sign
    when negative. *)
Definition show_int (n : Z) : string := NilZero.string_of_int (Z.to_int n).

(** [s] occurs in [t]. *)
Definition contains (s t : string) : Prop :=
  exists pre post, t = pre +:+ s +:+ post.

(** ** Error reporting (Framework.cpp, lines 4-63) *)

(** What the operating system answers when asked about the last error:
    [GetLastError()] and the text [FormatMessage] allocates for it, null
    when it has none. *)
Record LastError := mkLastError {
  le_code : Z;
  le_text : cstr
}.

Definition debug_text (e line : Z) (eMsg : string) : string :=
  "A Win32 API call resulted in a fatal error " +:+ show_int e +:+
  " at line " +:+ show_int line +:+ " in the source of the framework." +:+
  nl +:+ nl +:+ eMsg +:+
  nl +:+ "This is an internal error likely caused by the framework itself, the application must quit now." +:+ nl.

Definition debug_fallback_text : string :=
  "An Error occoured which even the error handler could not handle. This is usually caused by the error" +:+
  " message being to long" +:+ nl +:+ nl +:+
  "I guess I fucked up..." +:+ nl.

Definition in_CreateWin32DebugError (err : LastError) (line : Z) : M unit :=
  let e := le_code err in
  os (OsFormatMessage e);;
  let msg := match le_text err with
             | Some eMsg => debug_text e line eMsg
             | None => debug_fallback_text
             end in
  os (OsMessageBox 0 msg "Internal Error!"
        (Z.lor (Z.lor Win32.MB_ICONERROR Win32.MB_TASKMODAL) Win32.MB_OK));;
  os OsLocalFree;;
  throw.

Definition log_file : string := "Last_Log.txt".

Definition release_log_line1 (timestamp : string) (e line : Z) : string :=
  "[ " +:+ timestamp +:+ " ]: " +:+ "Unhandled Win32 error! " +:+
  show_int e +:+ " at " +:+ show_int line +:+ nl.

Definition release_log_line2 (timestamp : string) : string :=
  "[ " +:+ timestamp +:+ " ]: " +:+ "Fatal Error, application must abort!" +:+ nl.

Definition release_text : string :=
  "A critical error occoured, the application must quit now!" +:+ nl +:+ nl +:+
  "For more information check the logfiles in the application" +:+
  " directory" +:+ nl.

(** [timestamp] is what the compiler puts for [__TIMESTAMP__]. *)
Definition in_CreateWin32ReleaseError (timestamp : string) (err : LastError)
    (line : Z) : M unit :=
  os (OsFileOpen log_file);;
  let e := le_code err in
  os (OsFileWrite log_file (release_log_line1 timestamp e line));;
  os (OsFileWrite log_file (release_log_line2 timestamp));;
  os (OsFileClose log_file);;
  os (OsMessageBox 0 release_text "Critical Error!"
        (Z.lor (Z.lor Win32.MB_TASKMODAL Win32.MB_OK) Win32.MB_ICONERROR));;
  throw.

Definition in_SetLastError (code : Z) : M unit :=
  modify (set_lastErrorCode code).

(** Modelled from the spec: the macro [WIN32_EC_RET(var, call)] of
    Internals.hpp, which is not among the sources.  The layer "translates
    Win32 error codes into human-readable dialogs": the macro keeps the
    result of the call, and a null result goes to the error translator
    with the line of the call. *)
Definition WIN32_EC_RET (line : Z) (err : LastError) (result : Z) : M Z :=
  if result =? 0 then in_CreateWin32DebugError err line;; ret result
  else ret result.

(** ** Reading the state (lines 256-294) *)

Definition tsd_GetLastError : M Z := s ← get; ret (lastErrorCode s).
Definition tsd_GetWindowCount : M Z := s ← get; ret (windowCount s).
Definition tsd_Running : M bool := s ← get; ret (isRunning s).

(** [in::errors] is the string table of Internals.hpp; it is an argument. *)
Definition tsd_GetErrorInformation (errors : gmap Z string) (code : Z) : string :=
  match errors !! code with
  | Some text => text
  | None => "Invalid error Code!"
  end.

(** ** Window lookup (lines 126-148) *)

(** The range-based loop over [WindowInfo.windows]: the first element
    that passes the test is returned, and [nullptr] after the loop. *)
Fixpoint GetWindowData_loop (test : WindowData -> bool) (ws : list ptr)
    : M (option ptr) :=
  match ws with
  | [] => ret None
  | i :: rest =>
      d ← deref i;
      if test d then ret (Some i) else GetWindowData_loop test rest
  end.

Definition in_GetWindowData_HWND (handle : HWND) : M (option ptr) :=
  s ← get;
  GetWindowData_loop (fun i => (wd_hWnd i =? handle) && wd_isValid i) (windows s).

Definition in_GetWindowData_int (id : Z) : M (option ptr) :=
  s ← get;
  GetWindowData_loop (fun i => (wd_id i =? id) && wd_isValid i) (windows s).

(** [p->field] where [p] may be null. *)
Definition arrow {A} (p : option ptr) (field : WindowData -> A) : M A :=
  match p with
  | Some q => d ← deref q; ret (field d)
  | None => undefined
  end.

(** ** Window attributes (lines 266-284) *)

Definition tsd_GetWindowName (id : Z) : M cstr :=
  p ← in_GetWindowData_int id; arrow p wd_name.

Definition tsd_GetWindowVisibility (id : Z) : M bool :=
  p ← in_GetWindowData_int id; arrow p wd_isVisible.

Definition tsd_GetWindowWidth (id : Z) : M Z :=
  p ← in_GetWindowData_int id; arrow p wd_width.

Definition tsd_GetWindowHeight (id : Z) : M Z :=
  p ← in_GetWindowData_int id; arrow p wd_height.

(** ** The window procedure (lines 104-124)

    [def] is what [DefWindowProc] answers. *)
Definition in_WindowProc (def : Z) (hWnd : HWND) (uMsg wParam lParam : Z) : M Z :=
  let DefWindowProc := os (OsDefWindowProc hWnd uMsg wParam lParam);; ret def in
  if uMsg =? Win32.WM_CLOSE then
    os (OsDestroyWindow hWnd);;
    DefWindowProc
  else if uMsg =? Win32.WM_DESTROY then
    n ← tsd_GetWindowCount;
    if n =? 1 then
      modify (set_isRunning false);;
      ret 0
    else DefWindowProc
  else DefWindowProc.

(** ** The window thread (lines 65-102)

    [in::WindowData::MessageHandler] runs on the thread that
    [tsd::CreateWindow] starts.  It has three parts: the creation of the
    window up to the notification of the creator, the message pump, and
    the statements after the pump.  The pump hands every message to
    [in_WindowProc]; the two other parts are the functions below.
    [created] is the handle that [CreateWindowEx] answers, null on
    failure.  The position arguments of [CreateWindowEx] are not recorded:
    they go through the macro [CW_DEFAULT] of the absent header. *)
Definition MessageHandler_create (this : ptr) (err : LastError)
    (created : HWND) : M unit :=
  d ← deref this;
  os (OsCreateWindowEx (wd_name d) (wd_width d) (wd_height d));;
  h ← WIN32_EC_RET 67 err created;
  store this (wd_set_hWnd h);;
  modify (fun s => set_windowCount (windowCount s + 1) s);;
  modify (fun s => set_windowsOpened (windowsOpened s + 1) s);;
  s ← get;
  store this (wd_set_id (windowsOpened s));;
  os (OsShowWindow h 1);;
  modify (set_windowIsFinished true);;
  store this (wd_set_msgThread (Some Pumping)).

(** Lines 100-101, after the pump.  As in [MessageHandler_create], the
    last statement records where the thread now stands. *)
Definition MessageHandler_exit (this : ptr) : M unit :=
  modify (fun s => set_windowCount (windowCount s - 1) s);;
  store this (wd_set_isValid false);;
  store this (wd_set_msgThread (Some Exited)).

(** ** Start-up (lines 150-189)

    [module], [icon], [cursor] and [atom] are the answers of
    [GetModuleHandle], [LoadIcon], [LoadCursor] and [RegisterClassEx]. *)
Definition tsd_Initialise (module icon cursor atom : Z) (err : LastError)
    (iconId cursorId : Z) : M bool :=
  let success := true in
  modify (set_hInstance module);;
  success ← (if iconId =? 0 then ret success
             else os (OsLoadIcon iconId);;
                  modify (set_hIcon icon);;
                  if icon =? 0 then in_SetLastError 5;; ret false
                  else ret success);
  success ← (if cursorId =? 0 then ret success
             else os (OsLoadCursor cursorId);;
                  modify (set_hCursor cursor);;
                  if cursor =? 0 then in_SetLastError 6;; ret false
                  else ret success);
  os OsRegisterClassEx;;
  a ← WIN32_EC_RET 184 err atom;
  modify (set_classAtom a);;
  modify (set_isInitialised true);;
  ret success.

(** ** Window creation (lines 208-233)

    The caller starts the window thread, fills in the object and waits on
    the condition variable until [windowIsFinished] holds.  Nothing in
    the source orders the statements of the two threads before the wait.
    The function below is the call in one of the possible orders: the
    caller reaches the wait before the thread starts its work, and the
    thread is in its pump when the caller returns.  Module [Handshake]
    takes the two threads in every order, and module [Threads] follows
    all the threads of the program.  An exception that leaves the thread
    function ends the program, which is the outcome [Thrown] here.
    [dflt] is the default-constructed [WindowData].  The value returned
    is the field [id] converted to [short], the return type. *)
Definition cv_wait : M unit :=
  s ← get; if windowIsFinished s then ret tt else blocked.

Definition tsd_CreateWindow (dflt : WindowData) (err : LastError)
    (created : HWND) (name : cstr) (width height xPos yPos : Z) : M Z :=
  s ← get;
  if negb (isInitialised s) then in_SetLastError 2;; ret 0 else
  if bool_decide (name = None) then in_SetLastError 3;; ret 0 else
  if (height <=? 0) || (width <=? 0) then in_SetLastError 3;; ret 0 else
  wndData ← new_WindowData dflt;
  os (OsThreadStart wndData);;
  store wndData (wd_set_msgThread (Some Starting));;
  store wndData (wd_set_name name);;
  store wndData (wd_set_width width);;
  store wndData (wd_set_height height);;
  store wndData (wd_set_xPos xPos);;
  store wndData (wd_set_yPos yPos);;
  store wndData (wd_set_isValid true);;
  MessageHandler_create wndData err created;;
  cv_wait;;
  modify (fun s => set_windows (windows s ++ [wndData]) s);;
  modify (set_windowIsFinished false);;
  d ← deref wndData;
  ret (to_short (wd_id d)).

(** ** Automatic error dialogs (lines 235-254) *)

Definition auto_debug_text (errors : gmap Z string) (e line : Z) (quit : bool)
    : string :=
  "Error " +:+ show_int e +:+ " has occoured at line " +:+ show_int line +:+
  "." +:+ nl +:+ nl +:+
  tsd_GetErrorInformation errors e +:+ nl +:+ nl +:+
  (if quit then "The application must quit now." else "").

Definition tsd_CreateAutoDebugError (errors : gmap Z string) (line : Z)
    (quit : bool) : M unit :=
  e ← tsd_GetLastError;
  os (OsMessageBox 0 (auto_debug_text errors e line quit) "Error!"
        (Z.lor (Z.lor Win32.MB_TASKMODAL Win32.MB_OK) Win32.MB_ICONERROR));;
  if quit then throw else ret tt.

(** The body of this function is a comment. *)
Definition tsd_CreateAutoReleaseError (line : Z) (quit : bool) : M unit :=
  ret tt.

(** ** Message boxes (lines 303-362) *)

(** The results [MBR::...] of a message box. *)
Module MBR.
Inductive t :=
| ABORT | CANCEL | CONTINUE | IGNORE | NO | OK | RETRY | TRYAGAIN | YES.
End MBR.

(** The flags [MBF::...].  The enumeration is declared in Framework.hpp,
    which is not among the sources, so the values of its members are a
    record that the functions take. *)
Module MBF.
Record values := mk {
  TASKMODAL : Z;
  ICON_WARNING : Z;
  ICON_ERROR : Z;
  ICON_INFO : Z;
  ICON_QUESTION : Z;
  BUTTON_OK : Z;
  BUTTON_OK_CANCEL : Z;
  BUTTON_YES_NO : Z;
  BUTTON_RETRY_CANEL : Z;
  BUTTON_YES_NO_CANCEL : Z;
  BUTTON_ABORT_RETRY_IGNORE : Z;
  BUTTON_CANCEL_RETRY_CONTINUE : Z
}.
End MBF.

(** [if (flags & f)] *)
Definition flag_set (flags f : Z) : bool := negb (Z.land flags f =? 0).

Definition raw_flags (mbf : MBF.values) (flags : Z) : Z :=
  let rawFlags := 0 in
  let rawFlags := if flag_set flags (MBF.TASKMODAL mbf)
                  then Z.lor rawFlags Win32.MB_TASKMODAL else rawFlags in
  let rawFlags := if flag_set flags (MBF.ICON_WARNING mbf)
                  then Z.lor rawFlags Win32.MB_ICONWARNING else rawFlags in
  let rawFlags := if flag_set flags (MBF.ICON_ERROR mbf)
                  then Z.lor rawFlags Win32.MB_ICONERROR else rawFlags in
  let rawFlags := if flag_set flags (MBF.ICON_INFO mbf)
                  then Z.lor rawFlags Win32.MB_ICONINFORMATION else rawFlags in
  let rawFlags := if flag_set flags (MBF.ICON_QUESTION mbf)
                  then Z.lor rawFlags Win32.MB_ICONQUESTION else rawFlags in
  let rawFlags := if flag_set flags (MBF.BUTTON_OK mbf)
                  then Z.lor rawFlags Win32.MB_OK else rawFlags in
  let rawFlags := if flag_set flags (MBF.BUTTON_OK_CANCEL mbf)
                  then Z.lor rawFlags Win32.MB_OKCANCEL else rawFlags in
  let rawFlags := if flag_set flags (MBF.BUTTON_YES_NO mbf)
                  then Z.lor rawFlags Win32.MB_YESNO else rawFlags in
  let rawFlags := if flag_set flags (MBF.BUTTON_RETRY_CANEL mbf)
                  then Z.lor rawFlags Win32.MB_RETRYCANCEL else rawFlags in
  let rawFlags := if flag_set flags (MBF.BUTTON_YES_NO_CANCEL mbf)
                  then Z.lor rawFlags Win32.MB_YESNOCANCEL else rawFlags in
  let rawFlags := if flag_set flags (MBF.BUTTON_ABORT_RETRY_IGNORE mbf)
                  then Z.lor rawFlags Win32.MB_ABORTRETRYIGNORE else rawFlags in
  let rawFlags := if flag_set flags (MBF.BUTTON_CANCEL_RETRY_CONTINUE mbf)
                  then Z.lor rawFlags Win32.MB_CANCELTRYCONTINUE else rawFlags in
  rawFlags.

(** The [switch (result)] and the [return] after it. *)
Definition result_MBR (result : Z) : MBR.t :=
  if result =? Win32.IDABORT then MBR.ABORT
  else if result =? Win32.IDCANCEL then MBR.CANCEL
  else if result =? Win32.IDCONTINUE then MBR.CONTINUE
  else if result =? Win32.IDIGNORE then MBR.IGNORE
  else if result =? Win32.IDNO then MBR.NO
  else if result =? Win32.IDOK then MBR.OK
  else if result =? Win32.IDRETRY then MBR.RETRY
  else if result =? Win32.IDTRYAGAIN then MBR.TRYAGAIN
  else if result =? Win32.IDYES then MBR.YES
  else MBR.CANCEL.

(** [result] is what the operating system's [MessageBox] answers. *)
Definition tsd_MessageBox (mbf : MBF.values) (result : Z)
    (owner : Z) (title msg : string) (flags : Z) : M MBR.t :=
  ownerData ← in_GetWindowData_int owner;
  let rawFlags := raw_flags mbf flags in
  hWnd ← match ownerData with
         | Some p => arrow (Some p) wd_hWnd
         | None => ret 0
         end;
  os (OsMessageBox hWnd msg title rawFlags);;
  ret (result_MBR result).

(** ** The life of the program, call by call

    Between start-up and [tsd::Uninitialise] the state changes by the
    calls of the client that return, by the messages that the pump of a
    window hands to the window procedure, and by a window thread that
    leaves its pump.  In this relation a creation is one step, in the
    order of [tsd_CreateWindow], and so are the two statements after the
    pump: it is the program as seen between the calls when every
    creation takes that order.  Module [Threads] below follows the
    program line by line, in every order. *)
Definition in_pump (s : State) (p : ptr) : Prop :=
  exists d, objects s !! p = Some d /\ wd_msgThread d = Some Pumping.

Inductive step (s s' : State) : Prop :=
| step_Initialise module icon cursor atom err iconId cursorId r :
    tsd_Initialise module icon cursor atom err iconId cursorId s = Normal r s' ->
    step s s'
| step_CreateWindow dflt err created name width height xPos yPos r :
    tsd_CreateWindow dflt err created name width height xPos yPos s = Normal r s' ->
    step s s'
| step_SetLastError code :
    in_SetLastError code s = Normal tt s' ->
    step s s'
| step_CreateAutoDebugError errors line quit :
    tsd_CreateAutoDebugError errors line quit s = Normal tt s' ->
    step s s'
| step_CreateAutoReleaseError line quit :
    tsd_CreateAutoReleaseError line quit s = Normal tt s' ->
    step s s'
| step_MessageBox mbf result owner title msg flags r :
    tsd_MessageBox mbf result owner title msg flags s = Normal r s' ->
    step s s'
| step_WindowProc p d def uMsg wParam lParam r :
    objects s !! p = Some d -> wd_msgThread d = Some Pumping ->
    in_WindowProc def (wd_hWnd d) uMsg wParam lParam s = Normal r s' ->
    step s s'
| step_pump_exit p :
    in_pump s p ->
    MessageHandler_exit p s = Normal tt s' ->
    step s s'.

(** The state before the first call: [in::WindowInfo] is a global whose
    counters are zero and whose window list is empty, and no
    [WindowData] has been allocated. *)
Definition startup (s : State) : Prop :=
  isInitialised s = false /\ windowCount s = 0 /\ windowsOpened s = 0 /\
  windowIsFinished s = false /\ windows s = [] /\ objects s = [].

(** The windows whose thread is inside the message pump. *)
Definition pumping (d : WindowData) : bool :=
  bool_decide (wd_msgThread d = Some Pumping).

(** The ids of the windows in the window list, in order. *)
Definition window_ids (s : State) : list Z :=
  omap (fun p => wd_id <$> objects s !! p) (windows s).

(** ** The lookups of Internals.cpp (lines 70-104)

    The later version of the framework keeps its windows in two
    [std::map]s of shared pointers, one keyed by the native handle and one
    by the window handle [f::WndH] of the framework, which
    [i::EraseWindowData] reads from the field [id] of the record. *)
Record i_WindowData := mk_i_WindowData {
  i_hWnd : HWND;
  i_id   : Z
}.

Record i_ProgramState := mk_i_ProgramState {
  nativeHandleMap : gmap Z ptr;
  handleMap       : gmap Z ptr;
  i_objects       : gmap nat i_WindowData
}.

(** [find] and the comparison with [end()]; the state is returned as it
    was. *)
Definition i_GetWindowData_HWND (handle : HWND) (st : i_ProgramState)
    : option ptr * i_ProgramState :=
  match nativeHandleMap st !! handle with
  | Some found => (Some found, st)
  | None => (None, st)
  end.

Definition i_GetWindowData_WndH (handle : Z) (st : i_ProgramState)
    : option ptr * i_ProgramState :=
  match handleMap st !! handle with
  | Some found => (Some found, st)
  | None => (None, st)
  end.

(** [i::EraseWindowData]; [None] when [find] returns [end()], which the
    function dereferences. *)
Definition i_EraseWindowData (hWnd : HWND) (st : i_ProgramState)
    : option i_ProgramState :=
  match nativeHandleMap st !! hWnd with
  | Some res =>
      match i_objects st !! res with
      | Some d =>
          Some (mk_i_ProgramState (delete hWnd (nativeHandleMap st))
                  (delete (i_id d) (handleMap st))
                  (delete res (i_objects st)))
      | None => None
      end
  | None => None
  end.

(** Every entry of the two maps is filed under the handle, respectively
    the id, of the record it points to. *)
Definition i_keyed (st : i_ProgramState) : Prop :=
  (forall h p, nativeHandleMap st !! h = Some p ->
     exists d, i_objects st !! p = Some d /\ i_hWnd d = h) /\
  (forall n p, handleMap st !! n = Some p ->
     exists d, i_objects st !! p = Some d /\ i_id d = n).

(** ** The two threads of a window creation, statement by statement

    [tsd::CreateWindow] from line 214 on runs on the calling thread while
    [in::WindowData::MessageHandler] runs on the thread it starts.  Each
    statement is one atomic step on the shared state; a scheduler picks
    which thread moves.  The mutex [in::WindowInfo.mtx] is free or owned;
    a thread that asks for an owned mutex cannot move.  A wait on the
    condition variable releases the mutex and may end at any time, with or
    without a notification, once the mutex can be taken again. *)
Module Handshake.

(** The calling thread: the line of [tsd::CreateWindow] it executes
    next. *)
Inductive caller_pc :=
| C214 | C215 | C217 | C218 | C219 | C220 | C221 | C222
| C225 | C226 | C226_waiting | C228 | C230 | C232
| Returned (value : Z).

(** The window thread: the line of [MessageHandler] it executes next. *)
Inductive window_pc :=
| NotStarted
| W67 | W79 | W80 | W82 | W84 | W87 | W88 | W89 | W90
| W94 | W100 | W101
| Finished
| Failed.

Inductive owner := ByCaller | ByWindow.

Record config := mkConfig {
  shared  : State;
  mtx     : option owner;
  wndData : ptr;
  cpc     : caller_pc;
  wpc     : window_pc
}.

(** What the scheduler and the operating system decide at a step. *)
Inductive action :=
| Caller
| Window
| WindowMessage (def uMsg wParam lParam : Z)
| OtherMessage (p : ptr) (def uMsg wParam lParam : Z)
| OtherExit (p : ptr).

(** A statement run on the shared state; no step if it does not return. *)
Definition exec (m : M unit) (c : config) (k : State -> config)
    : option config :=
  match m (shared c) with
  | Normal _ s' => Some (k s')
  | _ => None
  end.

Definition at_pcs (c : config) (s : State) (m : option owner)
    (cp : caller_pc) (wp : window_pc) : config :=
  mkConfig s m (wndData c) cp wp.

Section Call.

(** The arguments of the call, the default-constructed object, and
    what [CreateWindowEx] and the error queries answer. *)
Variables (dflt : WindowData) (err : LastError) (created : HWND).
Variables (name : cstr) (width height xPos yPos : Z).

Definition caller_step (c : config) : option config :=
  let s := shared c in
  let p := wndData c in
  let next cp m := exec m c (fun s' => at_pcs c s' (mtx c) cp (wpc c)) in
  match cpc c with
  | C214 =>
      match new_WindowData dflt s with
      | Normal q s' => Some (mkConfig s' (mtx c) q C215 (wpc c))
      | _ => None
      end
  | C215 =>
      exec (os (OsThreadStart p);;
            store p (wd_set_msgThread (Some Starting))) c
           (fun s' => at_pcs c s' (mtx c) C217 W67)
  | C217 => next C218 (store p (wd_set_name name))
  | C218 => next C219 (store p (wd_set_width width))
  | C219 => next C220 (store p (wd_set_height height))
  | C220 => next C221 (store p (wd_set_xPos xPos))
  | C221 => next C222 (store p (wd_set_yPos yPos))
  | C222 => next C225 (store p (wd_set_isValid true))
  | C225 =>
      match mtx c with
      | None => Some (at_pcs c s (Some ByCaller) C226 (wpc c))
      | Some _ => None
      end
  | C226 =>
      if windowIsFinished s
      then Some (at_pcs c s (mtx c) C228 (wpc c))
      else Some (at_pcs c s None C226_waiting (wpc c))
  | C226_waiting =>
      match mtx c with
      | None => Some (at_pcs c s (Some ByCaller) C226 (wpc c))
      | Some _ => None
      end
  | C228 => next C230 (modify (fun s => set_windows (windows s ++ [p]) s))
  | C230 => next C232 (modify (set_windowIsFinished false))
  | C232 =>
      match deref p s with
      | Normal d s' =>
          Some (at_pcs c s' None (Returned (to_short (wd_id d))) (wpc c))
      | _ => None
      end
  | Returned _ => None
  end.

Definition window_step (c : config) : option config :=
  let s := shared c in
  let this := wndData c in
  let next wp m := exec m c (fun s' => at_pcs c s' (mtx c) (cpc c) wp) in
  match wpc c with
  | NotStarted => None
  | W67 =>
      match (d ← deref this;
             os (OsCreateWindowEx (wd_name d) (wd_width d) (wd_height d));;
             h ← WIN32_EC_RET 67 err created;
             store this (wd_set_hWnd h)) s with
      | Normal _ s' => Some (at_pcs c s' (mtx c) (cpc c) W79)
      | Thrown s' => Some (at_pcs c s' (mtx c) (cpc c) Failed)
      | _ => None
      end
  | W79 => next W80 (modify (fun s => set_windowCount (windowCount s + 1) s))
  | W80 => next W82 (modify (fun s => set_windowsOpened (windowsOpened s + 1) s))
  | W82 => next W84 (store this (wd_set_id (windowsOpened s)))
  | W84 => next W87 (d ← deref this; os (OsShowWindow (wd_hWnd d) 1))
  | W87 =>
      match mtx c with
      | None => Some (at_pcs c s (Some ByWindow) (cpc c) W88)
      | Some _ => None
      end
  | W88 => next W89 (modify (set_windowIsFinished true))
  | W89 => Some (at_pcs c s None (cpc c) W90)
  | W90 => next W94 (store this (wd_set_msgThread (Some Pumping)))
  | W94 => Some (at_pcs c s (mtx c) (cpc c) W100)
  | W100 => next W101 (modify (fun s => set_windowCount (windowCount s - 1) s))
  | W101 => next Finished (store this (wd_set_isValid false);;
                           store this (wd_set_msgThread (Some Exited)))
  | Finished => None
  | Failed => None
  end.

(** The pump of the new window hands a message to the window
    procedure. *)
Definition window_message (def uMsg wParam lParam : Z) (c : config)
    : option config :=
  match wpc c with
  | W94 =>
      match (d ← deref (wndData c);
             in_WindowProc def (wd_hWnd d) uMsg wParam lParam) (shared c) with
      | Normal _ s' => Some (at_pcs c s' (mtx c) (cpc c) W94)
      | _ => None
      end
  | _ => None
  end.

(** The threads of the windows that exist already are in their pumps
    or past them. *)
Definition other_pumping (c : config) (p : ptr) : bool :=
  negb (p =? wndData c)%nat &&
  match objects (shared c) !! p with
  | Some d => pumping d
  | None => false
  end.

Definition other_message (p : ptr) (def uMsg wParam lParam : Z)
    (c : config) : option config :=
  if other_pumping c p then
    match (d ← deref p;
           in_WindowProc def (wd_hWnd d) uMsg wParam lParam) (shared c) with
    | Normal _ s' => Some (at_pcs c s' (mtx c) (cpc c) (wpc c))
    | _ => None
    end
  else None.

Definition other_exit (p : ptr) (c : config) : option config :=
  if other_pumping c p then
    exec (MessageHandler_exit p) c
         (fun s' => at_pcs c s' (mtx c) (cpc c) (wpc c))
  else None.

(** An exception that leaves the window thread ends the program: no
    thread moves any more. *)
Definition hstep (a : action) (c : config) : option config :=
  match wpc c with
  | Failed => None
  | _ =>
      match a with
      | Caller => caller_step c
      | Window => window_step c
      | WindowMessage def uMsg wParam lParam =>
          window_message def uMsg wParam lParam c
      | OtherMessage p def uMsg wParam lParam =>
          other_message p def uMsg wParam lParam c
      | OtherExit p => other_exit p c
      end
  end.

Fixpoint run (sched : list action) (c : config) : option config :=
  match sched with
  | [] => Some c
  | a :: rest =>
      match hstep a c with
      | Some c' => run rest c'
      | None => None
      end
  end.

End Call.

(** The call has passed its argument checks on state [s]; no thread of
    it exists yet and the mutex is free.  [wndData] is the address that
    line 214 will obtain. *)
Definition start (s : State) : config :=
  mkConfig s None (length (objects s)) C214 NotStarted.

(** The window thread has executed line 88. *)
Definition signalled (w : window_pc) : bool :=
  match w with
  | W89 | W90 | W94 | W100 | W101 | Finished => true
  | _ => false
  end.

(** The window thread has reached its message pump. *)
Definition reached_pump (w : window_pc) : bool :=
  match w with
  | W94 | W100 | W101 | Finished => true
  | _ => false
  end.

(** The calling thread has left the wait of line 226. *)
Definition past_wait (cp : caller_pc) : bool :=
  match cp with
  | C228 | C230 | C232 | Returned _ => true
  | _ => false
  end.

(** The calling thread owns the mutex: between the lock of line 225 and the
    return, except while it waits. *)
Definition caller_holds (cp : caller_pc) : bool :=
  match cp with
  | C226 | C228 | C230 | C232 => true
  | _ => false
  end.

(** The window thread owns the mutex: lines 88 and 89. *)
Definition window_holds (w : window_pc) : bool :=
  match w with
  | W88 | W89 => true
  | _ => false
  end.

(** The calling thread has executed line 214, line 215, line 228, line 230. *)
Definition allocated (cp : caller_pc) : bool :=
  match cp with
  | C214 => false
  | _ => true
  end.

Definition thread_started (cp : caller_pc) : bool :=
  match cp with
  | C214 | C215 => false
  | _ => true
  end.

Definition pushed (cp : caller_pc) : bool :=
  match cp with
  | C230 | C232 | Returned _ => true
  | _ => false
  end.

Definition flag_reset (cp : caller_pc) : bool :=
  match cp with
  | C232 | Returned _ => true
  | _ => false
  end.

(** The window thread runs. *)
Definition running (w : window_pc) : bool :=
  match w with
  | NotStarted => false
  | _ => true
  end.

(** The window thread has executed line 67 with success, line 80,
    line 82. *)
Definition window_created (w : window_pc) : bool :=
  match w with
  | NotStarted | W67 | Failed => false
  | _ => true
  end.

Definition counted_opened (w : window_pc) : bool :=
  match w with
  | NotStarted | W67 | W79 | W80 | Failed => false
  | _ => true
  end.

Definition id_assigned (w : window_pc) : bool :=
  match w with
  | NotStarted | W67 | W79 | W80 | W82 | Failed => false
  | _ => true
  end.

(** The schedule in which the caller runs up to its wait, the window
    thread runs up to its pump, and the caller wakes up and returns. *)
Definition fair_schedule : list action :=
  replicate 10 Caller ++ replicate 9 Window ++ replicate 5 Caller.

(** What holds at every point of a run that starts with the call on state
    [s0]: where the object of the new window is and which of its fields
    the window thread has filled in, that the window thread runs exactly
    when line 215 has been executed, who owns the mutex, when the flag of
    the condition variable is set, and that the caller is past its wait
    only if the window thread is past line 88. *)
Record HInv (created : Z) (s0 : State) (c : config) : Prop := mkHInv {
  h_ptr : wndData c = length (objects s0);
  h_fresh : allocated (cpc c) = false -> length (objects (shared c)) = length (objects s0);
  h_object : allocated (cpc c) = true ->
     exists d, objects (shared c) !! length (objects s0) = Some d /\
       (window_created (wpc c) = true -> wd_hWnd d = created /\ created <> 0) /\
       (id_assigned (wpc c) = true -> wd_id d = windowsOpened s0 + 1);
  h_started : running (wpc c) = thread_started (cpc c);
  h_mutex : mtx c = if caller_holds (cpc c) then Some ByCaller
                    else if window_holds (wpc c) then Some ByWindow else None;
  h_exclusive : caller_holds (cpc c) && window_holds (wpc c) = false;
  h_flag : windowIsFinished (shared c) = signalled (wpc c) && negb (flag_reset (cpc c));
  h_waited : past_wait (cpc c) = true -> signalled (wpc c) = true;
  h_opened : windowsOpened (shared c) =
             windowsOpened s0 + (if counted_opened (wpc c) then 1 else 0);
  h_pushed : pushed (cpc c) = true -> length (objects s0) ∈ windows (shared c);
  h_returned : forall v, cpc c = Returned v -> v = to_short (windowsOpened s0 + 1)
}.

End Handshake.

(** The correspondence between the members of [MBF] and the constants of
    the operating system, in the words of the specification: each flag
    has its [MB_] constant. *)
Definition flag_table (mbf : MBF.values) : list (Z * Z) :=
  [ (MBF.TASKMODAL mbf, Win32.MB_TASKMODAL);
    (MBF.ICON_WARNING mbf, Win32.MB_ICONWARNING);
    (MBF.ICON_ERROR mbf, Win32.MB_ICONERROR);
    (MBF.ICON_INFO mbf, Win32.MB_ICONINFORMATION);
    (MBF.ICON_QUESTION mbf, Win32.MB_ICONQUESTION);
    (MBF.BUTTON_OK mbf, Win32.MB_OK);
    (MBF.BUTTON_OK_CANCEL mbf, Win32.MB_OKCANCEL);
    (MBF.BUTTON_YES_NO mbf, Win32.MB_YESNO);
    (MBF.BUTTON_RETRY_CANEL mbf, Win32.MB_RETRYCANCEL);
    (MBF.BUTTON_YES_NO_CANCEL mbf, Win32.MB_YESNOCANCEL);
    (MBF.BUTTON_ABORT_RETRY_IGNORE mbf, Win32.MB_ABORTRETRYIGNORE);
    (MBF.BUTTON_CANCEL_RETRY_CONTINUE mbf, Win32.MB_CANCELTRYCONTINUE) ].

(** The correspondence between the answers of the operating system and
    the members of [MBR]. *)
Definition result_table : list (Z * MBR.t) :=
  [ (Win32.IDABORT, MBR.ABORT); (Win32.IDCANCEL, MBR.CANCEL);
    (Win32.IDCONTINUE, MBR.CONTINUE); (Win32.IDIGNORE, MBR.IGNORE);
    (Win32.IDNO, MBR.NO); (Win32.IDOK, MBR.OK); (Win32.IDRETRY, MBR.RETRY);
    (Win32.IDTRYAGAIN, MBR.TRYAGAIN); (Win32.IDYES, MBR.YES) ].

(** A valid window with the given id is in the window list. *)
Definition valid_window (s : State) (id : Z) (p : ptr) (d : WindowData) : Prop :=
  p ∈ windows s /\ objects s !! p = Some d /\ wd_id d = id /\ wd_isValid d = true.

(** ** The vocabulary of the properties *)

(** Every pointer of the window list points to an object of the free
    store. *)
Definition live (s : State) : Prop :=
  forall p, p ∈ windows s -> is_Some (objects s !! p).

(** A window of the list that passes the test. *)
Definition passes (test : WindowData -> bool) (s : State) (ws : list ptr)
    (p : ptr) : Prop :=
  p ∈ ws /\ exists d, objects s !! p = Some d /\ test d = true.

(** One [if (flags & f) rawFlags = rawFlags | c;] *)
Definition add_flag (flags : Z) (rawFlags : Z) (fc : Z * Z) : Z :=
  if flag_set flags fc.1 then Z.lor rawFlags fc.2 else rawFlags.

(** The operating-system calls of the debug translator. *)
Definition debug_calls (e : Z) (text : string) : list OsCall :=
  [OsFormatMessage e;
   OsMessageBox 0 text "Internal Error!"
     (Z.lor (Z.lor Win32.MB_ICONERROR Win32.MB_TASKMODAL) Win32.MB_OK);
   OsLocalFree].

(** The operating-system calls of the release translator. *)
Definition release_calls (line1 line2 : string) : list OsCall :=
  [OsFileOpen "Last_Log.txt";
   OsFileWrite "Last_Log.txt" line1;
   OsFileWrite "Last_Log.txt" line2;
   OsFileClose "Last_Log.txt";
   OsMessageBox 0 release_text "Critical Error!"
     (Z.lor (Z.lor Win32.MB_TASKMODAL Win32.MB_OK) Win32.MB_ICONERROR)].

(** The window list, the free store, the two counters and the flag of the
    condition variable are the same in both states. *)
Definition same_windows (s s' : State) : Prop :=
  windows s' = windows s /\ objects s' = objects s /\
  windowCount s' = windowCount s /\ windowsOpened s' = windowsOpened s /\
  windowIsFinished s' = windowIsFinished s.

(** The state after a window creation that passed the checks. *)
Definition created_state (dflt : WindowData) (created : HWND) (name : cstr)
    (width height xPos yPos : Z) (s : State) : State :=
  mkState (hInstance s) (hIcon s) (hCursor s) (classAtom s) (isInitialised s)
    (isRunning s) (lastErrorCode s) (windowCount s + 1) (windowsOpened s + 1)
    false (windows s ++ [length (objects s)])
    (objects s ++
       [mkWindowData created (windowsOpened s + 1) name (wd_isVisible dflt) true
          width height xPos yPos (Some Pumping)])
    (trace s ++ [OsThreadStart (length (objects s));
                 OsCreateWindowEx name width height;
                 OsShowWindow created 1]).

(** The checks of lines 210-212 pass. *)
Definition checks_pass (s : State) (name : cstr) (width height : Z) : Prop :=
  isInitialised s = true /\ name <> None /\ 0 < width /\ 0 < height.

(** The state after a window thread has left its pump. *)
Definition exited_state (p : ptr) (d : WindowData) (s : State) : State :=
  set_objects
    (<[p := wd_set_msgThread (Some Exited) (wd_set_isValid false d)]> (objects s))
    (set_windowCount (windowCount s - 1) s).

(** ** Sample states *)

Definition sample_dflt : WindowData :=
  mkWindowData 0 0 None false false 0 0 0 0 None.

Definition sample_err : LastError := mkLastError 5 (Some "Access is denied.").

(** The state before the first call. *)
Definition sample_startup : State :=
  mkState 0 0 0 0 false true 0 0 0 false [] [] [].

(** Two windows have been created, and the first one has been closed. *)
Definition sample_state : State :=
  mkState 1 0 0 4 true true 0 1 2 false [0%nat; 1%nat]
    [mkWindowData 77 1 (Some "first") false false 640 480 0 0 (Some Exited);
     mkWindowData 78 2 (Some "second") true true 800 600 10 20 (Some Pumping)]
    [].

Definition sample_i_state : i_ProgramState :=
  mk_i_ProgramState {[ 78 := 0%nat ]} {[ 2 := 0%nat ]}
    {[ 0%nat := mk_i_WindowData 78 2 ]}.

Definition sample_mbf : MBF.values :=
  MBF.mk 1 2 4 8 16 32 64 128 256 512 1024 2048.

(** The state of a run: start-up, [tsd::Initialise], two windows created,
    and the thread of the first window out of its pump. *)
Definition state_of {A} (o : outcome A) : State :=
  match o with
  | Normal _ s => s
  | _ => sample_startup
  end.

Definition sample_run_1 : State :=
  Eval vm_compute in
    state_of (tsd_Initialise 1 0 0 4 sample_err 0 0 sample_startup).

Definition sample_run_2 : State :=
  Eval vm_compute in
    state_of (tsd_CreateWindow sample_dflt sample_err 77 (Some "first")
                640 480 0 0 sample_run_1).

Definition sample_run_3 : State :=
  Eval vm_compute in
    state_of (tsd_CreateWindow sample_dflt sample_err 78 (Some "second")
                800 600 10 20 sample_run_2).

Definition sample_run_4 : State :=
  Eval vm_compute in state_of (MessageHandler_exit 0 sample_run_3).

(** ** Further vocabulary: start-up, lookups, message boxes, logging, schedules *)

(** [LoadIcon] was asked for an icon and answered null; likewise for the
    cursor. *)
Definition icon_failed (iconId icon : Z) : bool :=
  negb (iconId =? 0) && (icon =? 0).

Definition cursor_failed (cursorId cursor : Z) : bool :=
  negb (cursorId =? 0) && (cursor =? 0).

(** The number of valid windows. *)
Definition valid_count (l : list WindowData) : nat :=
  length (filter (fun d => wd_isValid d = true) l).

(** What a window keeps for life. *)
Definition same_window (d d' : WindowData) : Prop :=
  wd_id d' = wd_id d /\ wd_hWnd d' = wd_hWnd d /\ wd_name d' = wd_name d /\
  wd_width d' = wd_width d /\ wd_height d' = wd_height d /\
  wd_xPos d' = wd_xPos d /\ wd_yPos d' = wd_yPos d /\
  wd_isVisible d' = wd_isVisible d.

(** The bits of a [uType] that select the buttons and the icon
    (winuser.h: [MB_TYPEMASK], [MB_ICONMASK]). *)
Definition MB_TYPEMASK : Z := 0x000F.
Definition MB_ICONMASK : Z := 0x00F0.

(** The flags [mbf] without the member [BUTTON_OK]. *)
Definition without_BUTTON_OK (mbf : MBF.values) : MBF.values :=
  MBF.mk (MBF.TASKMODAL mbf) (MBF.ICON_WARNING mbf) (MBF.ICON_ERROR mbf)
    (MBF.ICON_INFO mbf) (MBF.ICON_QUESTION mbf) 0 (MBF.BUTTON_OK_CANCEL mbf)
    (MBF.BUTTON_YES_NO mbf) (MBF.BUTTON_RETRY_CANEL mbf)
    (MBF.BUTTON_YES_NO_CANCEL mbf) (MBF.BUTTON_ABORT_RETRY_IGNORE mbf)
    (MBF.BUTTON_CANCEL_RETRY_CONTINUE mbf).

(** ** Logging (Internals.cpp, lines 106-199) *)

(** The log levels that the two [switch] statements name. *)
Inductive LogLvl := LlInfo | LlDebug | LlWarning | LlError | LlValidation | LlBench.

#[global] Instance LogLvl_eq_dec : EqDecision LogLvl.
Proof. solve_decision. Defined.

(** What a call of [i::Log] does, in order: it takes and gives back the
    logger mutex and writes to the two standard streams. *)
Inductive LogEvent :=
| LogLock
| LogCout (text : string)
| LogWcout (text : string)
| LogFlush
| LogUnlock.

(** A [case] of a [switch]: its label, what it writes, and whether it
    ends with [break]. *)
Record switch_case := mkCase {
  case_label : LogLvl;
  case_text  : string;
  case_break : bool
}.

(** Control enters at a [case] and runs on through the following ones
    until a [break]. *)
Fixpoint run_cases (cases : list switch_case) : list string :=
  match cases with
  | [] => []
  | c :: rest => case_text c :: (if case_break c then [] else run_cases rest)
  end.

Fixpoint switch (cases : list switch_case) (lvl : LogLvl) : list string :=
  match cases with
  | [] => []
  | c :: rest =>
      if bool_decide (case_label c = lvl) then run_cases cases
      else switch rest lvl
  end.

(** The [switch] of the [wchar_t] overload (lines 115-147). *)
Definition wide_cases : list switch_case :=
  [ mkCase LlInfo "[Info]: " true;
    mkCase LlDebug "[Debug]: " true;
    mkCase LlWarning "[Warning]: " true;
    mkCase LlError "[Error]: " true;
    mkCase LlValidation "[Valid]: " true;
    mkCase LlBench "[Bench]: " true ].

(** The [switch] of the [char] overload (lines 163-194): the case of
    [LlValidation] has no [break]. *)
Definition narrow_cases : list switch_case :=
  [ mkCase LlInfo "[Info]: " true;
    mkCase LlDebug "[Debug]: " true;
    mkCase LlWarning "[Warning]: " true;
    mkCase LlError "[Error]: " true;
    mkCase LlValidation "[Valid]: " false;
    mkCase LlBench "[Bench]: " true ].

(** [i::Log(const wchar_t*, LogLvl)].  [debug] says whether [_DEBUG] is
    defined, and [stamp] is what [std::put_time] writes for the current
    time. *)
Definition i_Log_wchar (debug : bool) (stamp : string) (msg : string)
    (logLvl : LogLvl) : list LogEvent :=
  if debug then
    [LogLock; LogCout "["; LogCout stamp; LogCout "]"] ++
    (LogCout <$> switch wide_cases logLvl) ++
    [LogWcout msg; LogWcout nl; LogFlush; LogUnlock]
  else [].

(** [i::Log(const char*, LogLvl)]. *)
Definition i_Log_char (debug : bool) (stamp : string) (msg : string)
    (logLvl : LogLvl) : list LogEvent :=
  if debug then
    [LogLock; LogCout "["; LogCout stamp; LogCout "]"] ++
    (LogCout <$> switch narrow_cases logLvl) ++
    [LogCout msg; LogCout nl; LogFlush; LogUnlock]
  else [].

(** What has been written to [std::cout]. *)
Fixpoint cout_text (events : list LogEvent) : string :=
  match events with
  | [] => ""
  | LogCout text :: rest => text +:+ cout_text rest
  | _ :: rest => cout_text rest
  end.

(** The tag of a level. *)
Definition level_tag (lvl : LogLvl) : string :=
  match lvl with
  | LlInfo => "[Info]: "
  | LlDebug => "[Debug]: "
  | LlWarning => "[Warning]: "
  | LlError => "[Error]: "
  | LlValidation => "[Valid]: "
  | LlBench => "[Bench]: "
  end.

(** The schedule in which the window thread runs up to its pump as soon
    as it is started, before the caller fills in the object. *)
Definition eager_schedule : list Handshake.action :=
  replicate 2 Handshake.Caller ++ replicate 9 Handshake.Window ++ replicate 11 Handshake.Caller.

(** The schedule in which the window thread runs to its end as soon as it
    is started: its window is destroyed before the caller goes on. *)
Definition short_lived_schedule : list Handshake.action :=
  replicate 2 Handshake.Caller ++ replicate 12 Handshake.Window ++ replicate 11 Handshake.Caller.

(** The object of the new window at the end of these two schedules. *)
Definition eager_window (dflt : WindowData) (created : Z) (name : option string)
    (width height xPos yPos : Z) (s0 : State) (thread : thread_state)
    : WindowData :=
  mkWindowData created (windowsOpened s0 + 1) name (wd_isVisible dflt) true
    width height xPos yPos (Some thread).

(** The operating-system calls of these two schedules. *)
Definition eager_calls (dflt : WindowData) (created : Z) (s0 : State)
    : list OsCall :=
  [OsThreadStart (length (objects s0));
   OsCreateWindowEx (wd_name dflt) (wd_width dflt) (wd_height dflt);
   OsShowWindow created 1].

(** Two configurations of a run on the sample state: the window thread
    owns the mutex while the caller waits; the creation of the window
    has failed while the caller waits. *)
Definition config_of (o : option Handshake.config) : Handshake.config :=
  match o with
  | Some c => c
  | None => Handshake.start sample_startup
  end.

Definition sample_locked : Handshake.config :=
  Eval vm_compute in
    config_of (Handshake.run sample_dflt sample_err 77 (Some "first") 640 480 0 0
                 (replicate 10 Handshake.Caller ++ replicate 7 Handshake.Window)
                 (Handshake.start sample_run_1)).

Definition sample_failed : Handshake.config :=
  Eval vm_compute in
    config_of (Handshake.run sample_dflt sample_err 0 (Some "first") 640 480 0 0
                 (replicate 10 Handshake.Caller ++ [Handshake.Window]) (Handshake.start sample_run_1)).

(** ** All the threads of the program, statement by statement

    The client calls the framework from one thread.  Every call of
    [tsd::CreateWindow] that passes its checks starts one more thread,
    which runs [in::WindowData::MessageHandler] on the new object and
    goes on after the call has returned.  As in module [Handshake] each
    statement is one atomic step on the shared state and a scheduler
    picks the thread that moves; here the threads of all the windows
    are followed line by line, from start-up up to [tsd::Uninitialise],
    and nothing orders the lines of different threads but the mutex and
    the wait.  The other calls of the client are one step each: they
    share no field with the window threads but the trace. *)
Module Threads.

Import Handshake.

#[global] Instance window_pc_eq_dec : EqDecision window_pc.
Proof. solve_decision. Defined.

Inductive thread_id := ClientThread | WindowThread (p : ptr).

(** The arguments of a call of [tsd::CreateWindow]. *)
Record call := mkCall {
  call_name   : cstr;
  call_width  : Z;
  call_height : Z;
  call_xPos   : Z;
  call_yPos   : Z
}.

(** The thread of the client: outside [tsd::CreateWindow], or at a line
    of it, with the arguments of the call and its local [wndData].  At
    line [Returned v] the call has returned [v] and the client has not
    called the framework since. *)
Inductive client_pc :=
| Idle
| InCreateWindow (a : call) (wndData : ptr) (line : caller_pc).

(** The shared state, the owner of [in::WindowInfo.mtx], where the
    client stands, and where the thread of each [WindowData] of the free
    store stands (the thread of the object at address [p] is at position
    [p]). *)
Record world := mkWorld {
  globals : State;
  mutex   : option thread_id;
  client  : client_pc;
  threads : list window_pc
}.

(** What the scheduler, the client and the operating system decide at a
    step: a call of the client, with what the operating system answers
    in it; the next line of the call of [tsd::CreateWindow] that is under
    way; the next line of the thread of a window, with what
    [CreateWindowEx] and the error queries answer at line 67; a message
    that the operating system hands to the window procedure on the
    thread of a window. *)
Inductive event :=
| CallInitialise (module icon cursor atom : Z) (err : LastError)
    (iconId cursorId : Z)
| CallCreateAutoDebugError (errors : gmap Z string) (line : Z) (quit : bool)
| CallCreateAutoReleaseError (line : Z) (quit : bool)
| CallMessageBox (mbf : MBF.values) (result owner : Z) (title msg : string)
    (flags : Z)
| CallCreateWindow (a : call)
| ClientLine
| ThreadLine (p : ptr) (err : LastError) (created : HWND)
| Message (p : ptr) (hWnd : HWND) (def uMsg wParam lParam : Z).

(** Lines 210-212 of [tsd::CreateWindow]: [true] when the call goes on
    to line 214, [false] when it returns 0. *)
Definition CreateWindow_checks (name : cstr) (width height : Z) : M bool :=
  s ← get;
  if negb (isInitialised s) then in_SetLastError 2;; ret false else
  if bool_decide (name = None) then in_SetLastError 3;; ret false else
  if (height <=? 0) || (width <=? 0) then in_SetLastError 3;; ret false else
  ret true.

(** The client can call the framework. *)
Definition client_free (c : client_pc) : bool :=
  match c with
  | Idle | InCreateWindow _ _ (Returned _) => true
  | _ => false
  end.

(** The state in which a call leaves the program: it has returned, or
    it has thrown a [std::exception], which the client may catch. *)
Definition leaves {A} (o : outcome A) : option State :=
  match o with
  | Normal _ s | Thrown s => Some s
  | Blocked | Undefined => None
  end.

(** A call of the client that runs no line of another thread. *)
Definition api_call {A} (m : M A) (w : world) : option world :=
  if client_free (client w) then
    match leaves (m (globals w)) with
    | Some s' => Some (mkWorld s' (mutex w) Idle (threads w))
    | None => None
    end
  else None.

(** The client calls [tsd::CreateWindow]: lines 210-212.  [wndData] is
    not declared before line 214; it stands at the address that line 214
    will obtain. *)
Definition enter_CreateWindow (a : call) (w : world) : option world :=
  if client_free (client w) then
    match CreateWindow_checks (call_name a) (call_width a) (call_height a)
            (globals w) with
    | Normal true s' =>
        Some (mkWorld s' (mutex w)
                (InCreateWindow a (length (objects s')) C214) (threads w))
    | Normal false s' => Some (mkWorld s' (mutex w) Idle (threads w))
    | _ => None
    end
  else None.

Section Lines.

(** The default-constructed [WindowData] (Internals.hpp). *)
Variable dflt : WindowData.

(** Lines 214-232 of [tsd::CreateWindow], one line at a step. *)
Definition client_line (w : world) : option world :=
  match client w with
  | Idle => None
  | InCreateWindow a p line =>
      let s := globals w in
      let goto l m s' := Some (mkWorld s' m (InCreateWindow a p l) (threads w)) in
      let next l (stmt : M unit) :=
        match stmt s with
        | Normal _ s' => goto l (mutex w) s'
        | _ => None
        end in
      match line with
      | C214 =>
          match new_WindowData dflt s with
          | Normal q s' =>
              Some (mkWorld s' (mutex w) (InCreateWindow a q C215)
                      (threads w ++ [NotStarted]))
          | _ => None
          end
      | C215 =>
          match (os (OsThreadStart p);;
                 store p (wd_set_msgThread (Some Starting))) s with
          | Normal _ s' =>
              Some (mkWorld s' (mutex w) (InCreateWindow a p C217)
                      (<[p := W67]> (threads w)))
          | _ => None
          end
      | C217 => next C218 (store p (wd_set_name (call_name a)))
      | C218 => next C219 (store p (wd_set_width (call_width a)))
      | C219 => next C220 (store p (wd_set_height (call_height a)))
      | C220 => next C221 (store p (wd_set_xPos (call_xPos a)))
      | C221 => next C222 (store p (wd_set_yPos (call_yPos a)))
      | C222 => next C225 (store p (wd_set_isValid true))
      | C225 =>
          match mutex w with
          | None => goto C226 (Some ClientThread) s
          | Some _ => None
          end
      | C226 =>
          if windowIsFinished s then goto C228 (mutex w) s
          else goto C226_waiting None s
      | C226_waiting =>
          match mutex w with
          | None => goto C226 (Some ClientThread) s
          | Some _ => None
          end
      | C228 => next C230 (modify (fun s => set_windows (windows s ++ [p]) s))
      | C230 => next C232 (modify (set_windowIsFinished false))
      | C232 =>
          match deref p s with
          | Normal d s' => goto (Returned (to_short (wd_id d))) None s'
          | _ => None
          end
      | Returned _ => None
      end
  end.

(** [in::WindowData::MessageHandler] on the thread of the object at
    [this], one line at a step.  From line 94 the thread is in its pump,
    which it leaves for line 100 when [GetMessage] answers no message. *)
Definition thread_line (this : ptr) (err : LastError) (created : HWND)
    (w : world) : option world :=
  match threads w !! this with
  | None => None
  | Some line =>
      let s := globals w in
      let goto l m s' :=
        Some (mkWorld s' m (client w) (<[this := l]> (threads w))) in
      let next l (stmt : M unit) :=
        match stmt s with
        | Normal _ s' => goto l (mutex w) s'
        | _ => None
        end in
      match line with
      | NotStarted => None
      | W67 =>
          match (d ← deref this;
                 os (OsCreateWindowEx (wd_name d) (wd_width d) (wd_height d));;
                 h ← WIN32_EC_RET 67 err created;
                 store this (wd_set_hWnd h)) s with
          | Normal _ s' => goto W79 (mutex w) s'
          | Thrown s' => goto Failed (mutex w) s'
          | _ => None
          end
      | W79 => next W80 (modify (fun s => set_windowCount (windowCount s + 1) s))
      | W80 => next W82 (modify (fun s => set_windowsOpened (windowsOpened s + 1) s))
      | W82 => next W84 (store this (wd_set_id (windowsOpened s)))
      | W84 => next W87 (d ← deref this; os (OsShowWindow (wd_hWnd d) 1))
      | W87 =>
          match mutex w with
          | None => goto W88 (Some (WindowThread this)) s
          | Some _ => None
          end
      | W88 => next W89 (modify (set_windowIsFinished true))
      | W89 => goto W90 None s
      | W90 => next W94 (store this (wd_set_msgThread (Some Pumping)))
      | W94 => goto W100 (mutex w) s
      | W100 => next W101 (modify (fun s => set_windowCount (windowCount s - 1) s))
      | W101 => next Finished (store this (wd_set_isValid false);;
                               store this (wd_set_msgThread (Some Exited)))
      | Finished => None
      | Failed => None
      end
  end.

(** The thread is inside a call of the operating system that hands
    messages to the window procedure: [CreateWindowEx], [ShowWindow],
    or the pump. *)
Definition receives (line : window_pc) : bool :=
  match line with
  | W67 | W84 | W94 => true
  | _ => false
  end.

Definition message (p : ptr) (hWnd : HWND) (def uMsg wParam lParam : Z)
    (w : world) : option world :=
  match threads w !! p with
  | Some line =>
      if receives line then
        match in_WindowProc def hWnd uMsg wParam lParam (globals w) with
        | Normal _ s' => Some (mkWorld s' (mutex w) (client w) (threads w))
        | _ => None
        end
      else None
  | None => None
  end.

(** An exception has left the function of a window thread, which ends
    the program. *)
Definition terminated (w : world) : bool :=
  bool_decide (Failed ∈ threads w).

Definition occur (e : event) (w : world) : option world :=
  if terminated w then None else
  match e with
  | CallInitialise module icon cursor atom err iconId cursorId =>
      api_call (tsd_Initialise module icon cursor atom err iconId cursorId) w
  | CallCreateAutoDebugError errors line quit =>
      api_call (tsd_CreateAutoDebugError errors line quit) w
  | CallCreateAutoReleaseError line quit =>
      api_call (tsd_CreateAutoReleaseError line quit) w
  | CallMessageBox mbf result owner title msg flags =>
      api_call (tsd_MessageBox mbf result owner title msg flags) w
  | CallCreateWindow a => enter_CreateWindow a w
  | ClientLine => client_line w
  | ThreadLine p err created => thread_line p err created w
  | Message p hWnd def uMsg wParam lParam =>
      message p hWnd def uMsg wParam lParam w
  end.

Fixpoint play (es : list event) (w : world) : option world :=
  match es with
  | [] => Some w
  | e :: rest =>
      match occur e w with
      | Some w' => play rest w'
      | None => None
      end
  end.

(** The program before the first call. *)
Definition initial (s0 : State) : world := mkWorld s0 None Idle [].

(** The worlds that the program can be in. *)
Definition reachable (w : world) : Prop :=
  exists s0 es, startup s0 /\ play es (initial s0) = Some w.

End Lines.

(** The thread has released the mutex for good: it is past line 89. *)
Definition settled (line : window_pc) : bool :=
  match line with
  | W90 | W94 | W100 | W101 | Finished => true
  | _ => false
  end.

(** The window of the thread is open: line 79 has counted it and line
    100 has not yet taken it off. *)
Definition open (line : window_pc) : bool :=
  match line with
  | W80 | W82 | W84 | W87 | W88 | W89 | W90 | W94 | W100 => true
  | _ => false
  end.

Definition open_count (ts : list window_pc) : nat :=
  length (filter (fun line => open line = true) ts).

(** How many of the lines 214-222 the client has executed. *)
Definition progress (line : caller_pc) : nat :=
  match line with
  | C214 => 0 | C215 => 1 | C217 => 2 | C218 => 3 | C219 => 4
  | C220 => 5 | C221 => 6 | C222 => 7 | _ => 8
  end.

(** The line after [line] on a window thread; line 67 leaves by an
    exception when [CreateWindowEx] has answered null. *)
Definition next_line (created : HWND) (line : window_pc) : window_pc :=
  match line with
  | NotStarted => NotStarted
  | W67 => if created =? 0 then Failed else W79
  | W79 => W80 | W80 => W82 | W82 => W84 | W84 => W87 | W87 => W88
  | W88 => W89 | W89 => W90 | W90 => W94 | W94 => W100 | W100 => W101
  | W101 => Finished
  | Finished => Finished
  | Failed => Failed
  end.

(** What a line of a window thread writes to its object; [opened] is
    [windowsOpened] at that time. *)
Definition thread_writes (created : HWND) (opened : Z) (line : window_pc)
    (d : WindowData) : WindowData :=
  match line with
  | W67 => if created =? 0 then d else wd_set_hWnd created d
  | W82 => wd_set_id opened d
  | W90 => wd_set_msgThread (Some Pumping) d
  | W101 => wd_set_msgThread (Some Exited) (wd_set_isValid false d)
  | _ => d
  end.

(** The threads of the first [k] windows are past line 89. *)
Definition settled_below (k : nat) (w : world) : Prop :=
  forall q line, threads w !! q = Some line -> (q < k)%nat -> settled line = true.

(** No creation is under way: every thread is past line 89, the mutex is
    free, the flag of the condition variable is down, and the window
    list holds all the objects, in the order of their creation. *)
Record quiet (w : world) : Prop := mkQuiet {
  q_settled : settled_below (length (threads w)) w;
  q_mutex   : mutex w = None;
  q_flag    : windowIsFinished (globals w) = false;
  q_windows : windows (globals w) = seq 0 (length (objects (globals w)));
  q_opened  : windowsOpened (globals w) = Z.of_nat (length (objects (globals w)))
}.

(** The creation of the window at [p] is under way: the client is at
    [l] in the call with arguments [a], and the thread of the window is
    at [line]. *)
Record creating (w : world) (a : call) (p : ptr) (l : caller_pc)
    (line : window_pc) : Prop := mkCreating {
  cr_last    : length (objects (globals w)) = S p;
  cr_thread  : threads w !! p = Some line;
  cr_before  : settled_below p w;
  cr_started : running line = thread_started l;
  cr_mutex   : mutex w = if caller_holds l then Some ClientThread
                         else if window_holds line then Some (WindowThread p)
                         else None;
  cr_exclusive : caller_holds l && window_holds line = false;
  cr_flag    : windowIsFinished (globals w) = signalled line && negb (flag_reset l);
  cr_waited  : past_wait l = true -> settled line = true;
  cr_opened  : windowsOpened (globals w) =
               Z.of_nat p + (if counted_opened line then 1 else 0);
  cr_windows : windows (globals w) = seq 0 p ++ (if pushed l then [p] else []);
  cr_filled  : exists d, objects (globals w) !! p = Some d /\
                 ((3 <= progress l)%nat -> wd_name d = call_name a) /\
                 ((4 <= progress l)%nat -> wd_width d = call_width a) /\
                 ((5 <= progress l)%nat -> wd_height d = call_height a);
  cr_returned : forall v, l = Returned v -> v = to_short (Z.of_nat p + 1)
}.

Definition phase (w : world) : Prop :=
  match client w with
  | Idle => quiet w
  | InCreateWindow a p l =>
      if allocated l then exists line, creating w a p l line
      else quiet w /\ p = length (objects (globals w))
  end.

(** The client is filling in the object at [q]: it has not yet executed
    line 222 of the call that allocated it. *)
Definition filling (w : world) (q : ptr) : bool :=
  match client w with
  | InCreateWindow a p l => bool_decide (p = q) && (progress l <? 8)%nat
  | Idle => false
  end.

(** What holds in every world of the program. *)
Record WInv (dflt : WindowData) (w : world) : Prop := mkWInv {
  wi_length : length (threads w) = length (objects (globals w));
  wi_count  : windowCount (globals w) = Z.of_nat (open_count (threads w));
  wi_phase  : phase w;
  wi_objects : forall q d line,
    objects (globals w) !! q = Some d -> threads w !! q = Some line ->
    (id_assigned line = true -> wd_id d = Z.of_nat q + 1) /\
    (window_created line = true -> wd_hWnd d <> 0) /\
    wd_isVisible d = wd_isVisible dflt /\
    (line <> Finished -> filling w q = false -> wd_isValid d = true)
}.

(** The schedule of a creation in which the client runs up to its wait,
    the thread of the new window at [p] runs up to its pump, and the
    client wakes up and returns. *)
Definition creation_schedule (p : ptr) (err : LastError) (created : HWND)
    : list event :=
  replicate 10 ClientLine ++ replicate 9 (ThreadLine p err created) ++
  replicate 5 ClientLine.

(** The world after a call of [tsd::CreateWindow] that has run in this
    schedule. *)
Definition grown (dflt : WindowData) (a : call) (created : HWND) (w : world)
    : world :=
  mkWorld
    (created_state dflt created (call_name a) (call_width a) (call_height a)
       (call_xPos a) (call_yPos a) (globals w))
    None
    (InCreateWindow a (length (objects (globals w)))
       (Returned (to_short (windowsOpened (globals w) + 1))))
    (threads w ++ [W94]).

(** The world after the thread of that window has left its pump and
    ended: the window has been closed. *)
Definition turned (dflt : WindowData) (a : call) (created : HWND) (w : world)
    : world :=
  let g := grown dflt a created w in
  let p := length (objects (globals w)) in
  mkWorld
    match objects (globals g) !! p with
    | Some d => exited_state p d (globals g)
    | None => globals g
    end
    None (client g) (threads w ++ [Finished]).

(** A world in which the client can call [tsd::CreateWindow] with
    success. *)
Definition calm (w : world) : Prop :=
  client_free (client w) = true /\ mutex w = None /\
  (Failed ∉ threads w) /\
  length (threads w) = length (objects (globals w)) /\
  windowIsFinished (globals w) = false /\
  isInitialised (globals w) = true.

(** ** Sample worlds *)

Definition sample_call_1 : call := mkCall (Some "first") 640 480 0 0.
Definition sample_call_2 : call := mkCall (Some "second") 800 600 10 20.

Definition world_of (o : option world) : world :=
  match o with
  | Some w => w
  | None => initial sample_startup
  end.

(** Start-up and [tsd::Initialise]. *)
Definition sample_initialised : world :=
  Eval vm_compute in
    world_of (play sample_dflt [CallInitialise 1 0 0 4 sample_err 0 0]
                (initial sample_startup)).

(** Two windows are created, one call after the other. *)
Definition sample_creations : list event :=
  [CallCreateWindow sample_call_1] ++ creation_schedule 0 sample_err 77 ++
  [CallCreateWindow sample_call_2] ++ creation_schedule 1 sample_err 78.

Definition sample_world : world :=
  Eval vm_compute in
    world_of (play sample_dflt sample_creations sample_initialised).

(** The thread of the first window has left its pump and run line 100;
    then it has run line 101. *)
Definition sample_closing : world :=
  Eval vm_compute in
    world_of (play sample_dflt [ThreadLine 0 sample_err 77;
                                ThreadLine 0 sample_err 77] sample_world).

Definition sample_closed : world :=
  Eval vm_compute in
    world_of (play sample_dflt [ThreadLine 0 sample_err 77] sample_closing).

(** The second window, the last one open, is destroyed. *)
Definition sample_quit : world :=
  Eval vm_compute in
    world_of (occur sample_dflt (Message 1 78 0 Win32.WM_DESTROY 0 0)
                sample_closing).

(** The world after [n] windows have been created and closed, one
    after the other. *)
Fixpoint crowd (n : nat) : world :=
  match n with
  | O => sample_initialised
  | S k => turned sample_dflt sample_call_1 77 (crowd k)
  end.

End Threads.

(** * Properties *)

(** ** Conversion to [short] *)

Lemma to_short_small z : -32768 <= z <= 32767 -> to_short z = z.
Proof.
  intros H. unfold to_short. rewrite Z.mod_small by lia. lia.
Qed.

Lemma to_short_range z : -32768 <= to_short z <= 32767.
Proof.
  unfold to_short. pose proof (Z.mod_pos_bound (z + 32768) 65536). lia.
Qed.

(** ** The monad and the free store *)

Lemma bind_Normal {A B} (m : M A) (k : A -> M B) s a s' :
  m s = Normal a s' -> bind m k s = k a s'.
Proof. unfold bind. intros ->. reflexivity. Qed.

Lemma bind_inv_Normal {A B} (m : M A) (k : A -> M B) s b s' :
  bind m k s = Normal b s' ->
  exists a s1, m s = Normal a s1 /\ k a s1 = Normal b s'.
Proof.
  unfold bind. destruct (m s) as [a s1| | |] eqn:E; try discriminate.
  intros H. exists a, s1. split; [reflexivity | exact H].
Qed.

Lemma deref_Some p d s :
  objects s !! p = Some d -> deref p s = Normal d s.
Proof. unfold deref. intros ->. reflexivity. Qed.

Lemma deref_inv p d s s' :
  deref p s = Normal d s' -> s' = s /\ objects s !! p = Some d.
Proof.
  unfold deref. destruct (objects s !! p); [|discriminate].
  intros [= -> ->]. split; reflexivity.
Qed.

Lemma store_Some p f d s :
  objects s !! p = Some d ->
  store p f s = Normal tt (set_objects (<[p := f d]> (objects s)) s).
Proof. unfold store. intros ->. reflexivity. Qed.

Lemma store_inv p f u s s' :
  store p f s = Normal u s' ->
  exists d, objects s !! p = Some d /\
            s' = set_objects (<[p := f d]> (objects s)) s.
Proof.
  unfold store. destruct (objects s !! p) as [d|]; [|discriminate].
  intros [= <- <-]. exists d. split; reflexivity.
Qed.

(** ** Window lookup *)

Lemma GetWindowData_loop_spec test s ws :
  (forall p, p ∈ ws -> is_Some (objects s !! p)) ->
  exists r, GetWindowData_loop test ws s = Normal r s /\
    match r with
    | Some p => passes test s ws p
    | None => forall p, ~ passes test s ws p
    end.
Proof.
  induction ws as [|i rest IH]; intros Hlive.
  - exists None. split; [reflexivity|].
    intros p [Hin _]. by apply elem_of_nil in Hin.
  - destruct (Hlive i) as [d Hd]; [left|].
    cbn [GetWindowData_loop].
    rewrite (bind_Normal _ _ _ _ _ (deref_Some _ _ _ Hd)).
    destruct (test d) eqn:Ht.
    + exists (Some i). split; [reflexivity|].
      split; [left | eauto].
    + destruct IH as [r [Hr Hspec]].
      { intros p Hp. apply Hlive. by right. }
      exists r. split; [exact Hr|].
      destruct r as [p|].
      * destruct Hspec as [Hin Hd']. split; [by right | exact Hd'].
      * intros p [Hin [d' [Hd' Ht']]].
        apply elem_of_cons in Hin as [->|Hin].
        -- congruence.
        -- apply (Hspec p). split; eauto.
Qed.

Lemma in_GetWindowData_HWND_spec handle s :
  live s ->
  exists r, in_GetWindowData_HWND handle s = Normal r s /\
    match r with
    | Some p => p ∈ windows s /\ exists d, objects s !! p = Some d /\
                  wd_hWnd d = handle /\ wd_isValid d = true
    | None => forall p d, p ∈ windows s -> objects s !! p = Some d ->
                  ~ (wd_hWnd d = handle /\ wd_isValid d = true)
    end.
Proof.
  intros Hlive. unfold in_GetWindowData_HWND, bind, get.
  destruct (GetWindowData_loop_spec
              (fun i => (wd_hWnd i =? handle) && wd_isValid i) s (windows s) Hlive)
    as [r [Hr Hspec]].
  exists r. split; [exact Hr|]. destruct r as [p|].
  - destruct Hspec as [Hin [d [Hd Ht]]]. split; [exact Hin|].
    exists d. apply andb_true_iff in Ht as [Hh Hv]. apply Z.eqb_eq in Hh. auto.
  - intros p d Hin Hd [Hh Hv]. apply (Hspec p). split; [exact Hin|].
    exists d. split; [exact Hd|]. rewrite Hv, andb_true_r. by apply Z.eqb_eq.
Qed.

Lemma in_GetWindowData_int_spec id s :
  live s ->
  exists r, in_GetWindowData_int id s = Normal r s /\
    match r with
    | Some p => p ∈ windows s /\ exists d, objects s !! p = Some d /\
                  wd_id d = id /\ wd_isValid d = true
    | None => forall p d, p ∈ windows s -> objects s !! p = Some d ->
                  ~ (wd_id d = id /\ wd_isValid d = true)
    end.
Proof.
  intros Hlive. unfold in_GetWindowData_int, bind, get.
  destruct (GetWindowData_loop_spec
              (fun i => (wd_id i =? id) && wd_isValid i) s (windows s) Hlive)
    as [r [Hr Hspec]].
  exists r. split; [exact Hr|]. destruct r as [p|].
  - destruct Hspec as [Hin [d [Hd Ht]]]. split; [exact Hin|].
    exists d. apply andb_true_iff in Ht as [Hh Hv]. apply Z.eqb_eq in Hh. auto.
  - intros p d Hin Hd [Hh Hv]. apply (Hspec p). split; [exact Hin|].
    exists d. split; [exact Hd|]. rewrite Hv, andb_true_r. by apply Z.eqb_eq.
Qed.

Lemma i_GetWindowData_HWND_spec h st :
  i_keyed st ->
  exists r, i_GetWindowData_HWND h st = (r, st) /\
    match r with
    | Some p => nativeHandleMap st !! h = Some p /\
                exists d, i_objects st !! p = Some d /\ i_hWnd d = h
    | None => forall k p d, nativeHandleMap st !! k = Some p ->
                i_objects st !! p = Some d -> i_hWnd d <> h
    end.
Proof.
  intros [Hn _]. unfold i_GetWindowData_HWND.
  destruct (nativeHandleMap st !! h) as [p|] eqn:E.
  - exists (Some p). split; [reflexivity|]. split; [reflexivity|]. by apply Hn.
  - exists None. split; [reflexivity|]. intros k p d Hk Hd Hh.
    destruct (Hn k p Hk) as [d' [Hd' Hk']].
    rewrite Hd in Hd'. injection Hd' as <-. subst.
    by rewrite E in Hk.
Qed.

Lemma i_GetWindowData_WndH_spec n st :
  i_keyed st ->
  exists r, i_GetWindowData_WndH n st = (r, st) /\
    match r with
    | Some p => handleMap st !! n = Some p /\
                exists d, i_objects st !! p = Some d /\ i_id d = n
    | None => forall k p d, handleMap st !! k = Some p ->
                i_objects st !! p = Some d -> i_id d <> n
    end.
Proof.
  intros [_ Hn]. unfold i_GetWindowData_WndH.
  destruct (handleMap st !! n) as [p|] eqn:E.
  - exists (Some p). split; [reflexivity|]. split; [reflexivity|]. by apply Hn.
  - exists None. split; [reflexivity|]. intros k p d Hk Hd Hh.
    destruct (Hn k p Hk) as [d' [Hd' Hk']].
    rewrite Hd in Hd'. injection Hd' as <-. subst.
    by rewrite E in Hk.
Qed.

(** The filing of the two maps is the program's own discipline:
    [i::EraseWindowData] takes a record out of both maps by its handle
    and its id, and leaves every other record filed as it was. *)
Lemma i_EraseWindowData_keyed hWnd st st' :
  i_keyed st -> i_EraseWindowData hWnd st = Some st' -> i_keyed st'.
Proof.
  intros [Hn Hh] H. unfold i_EraseWindowData in H.
  destruct (nativeHandleMap st !! hWnd) as [res|] eqn:Hres; [|discriminate].
  destruct (i_objects st !! res) as [d|] eqn:Hd; [|discriminate].
  injection H as <-.
  destruct (Hn hWnd res Hres) as (d1 & Hd1 & Hd1h).
  assert (d1 = d) as -> by congruence.
  split; cbn [nativeHandleMap handleMap i_objects]; intros k p Hk.
  - apply lookup_delete_Some in Hk as [Hne Hk].
    destruct (Hn k p Hk) as (e & He & Hek).
    exists e. split; [|exact Hek].
    apply lookup_delete_Some. split; [|exact He].
    intros <-. congruence.
  - apply lookup_delete_Some in Hk as [Hne Hk].
    destruct (Hh k p Hk) as (e & He & Hek).
    exists e. split; [|exact Hek].
    apply lookup_delete_Some. split; [|exact He].
    intros <-. congruence.
Qed.

(** C1.  [GetWindowData] finds the stored record.  On a state whose window
    list points to live objects, [in::GetWindowData(HWND)] returns a
    pointer of the window list to a record whose [hWnd] is the handle
    asked for and whose [isValid] is set, if the list has one, and null
    otherwise; [in::GetWindowData(int)] does the same with the field
    [id].  The two lookups of Internals.cpp return the pointer filed in
    the map under the key asked for, which in a map keyed by the records'
    own handle and id is the record whose field equals the key, and null
    when the map has no such record; being in the map is what makes a
    record valid there.  None of the four changes the state. *)
Theorem GetWindowData_finds_the_record (s : State) (st : i_ProgramState)
    (h n : Z) :
  live s -> i_keyed st ->
  (exists r, in_GetWindowData_HWND h s = Normal r s /\
     match r with
     | Some p => p ∈ windows s /\ exists d, objects s !! p = Some d /\
                   wd_hWnd d = h /\ wd_isValid d = true
     | None => forall p d, p ∈ windows s -> objects s !! p = Some d ->
                   ~ (wd_hWnd d = h /\ wd_isValid d = true)
     end) /\
  (exists r, in_GetWindowData_int n s = Normal r s /\
     match r with
     | Some p => p ∈ windows s /\ exists d, objects s !! p = Some d /\
                   wd_id d = n /\ wd_isValid d = true
     | None => forall p d, p ∈ windows s -> objects s !! p = Some d ->
                   ~ (wd_id d = n /\ wd_isValid d = true)
     end) /\
  (exists r, i_GetWindowData_HWND h st = (r, st) /\
     match r with
     | Some p => nativeHandleMap st !! h = Some p /\
                 exists d, i_objects st !! p = Some d /\ i_hWnd d = h
     | None => forall k p d, nativeHandleMap st !! k = Some p ->
                 i_objects st !! p = Some d -> i_hWnd d <> h
     end) /\
  (exists r, i_GetWindowData_WndH n st = (r, st) /\
     match r with
     | Some p => handleMap st !! n = Some p /\
                 exists d, i_objects st !! p = Some d /\ i_id d = n
     | None => forall k p d, handleMap st !! k = Some p ->
                 i_objects st !! p = Some d -> i_id d <> n
     end).
Proof.
  intros Hlive Hkeyed. repeat split.
  - by apply in_GetWindowData_HWND_spec.
  - by apply in_GetWindowData_int_spec.
  - by apply i_GetWindowData_HWND_spec.
  - by apply i_GetWindowData_WndH_spec.
Qed.

Lemma sample_state_live : live sample_state.
Proof.
  intros p Hp. cbn in Hp.
  apply elem_of_cons in Hp as [->|Hp]; [by eexists|].
  apply elem_of_cons in Hp as [->|Hp]; [by eexists|].
  by apply elem_of_nil in Hp.
Defined.

Lemma sample_i_state_keyed : i_keyed sample_i_state.
Proof.
  split; cbn; intros k p Hk.
  - apply lookup_singleton_Some in Hk as [<- <-].
    eexists. split; [apply lookup_singleton_eq | reflexivity].
  - apply lookup_singleton_Some in Hk as [<- <-].
    eexists. split; [apply lookup_singleton_eq | reflexivity].
Defined.

Lemma GetWindowData_finds_the_record_witness :
  live sample_state /\ i_keyed sample_i_state /\
  (exists r, in_GetWindowData_HWND 78 sample_state = Normal r sample_state) /\
  (exists r, i_GetWindowData_WndH 2 sample_i_state = (r, sample_i_state)).
Proof.
  split; [exact sample_state_live|].
  split; [exact sample_i_state_keyed|].
  destruct (GetWindowData_finds_the_record sample_state sample_i_state 78 2
              sample_state_live sample_i_state_keyed)
    as [[r [Hr _]] [_ [_ [r' [Hr' _]]]]].
  split; [exists r; exact Hr | exists r'; exact Hr'].
Defined.

(** What the four lookups return on the sample states. *)
Example GetWindowData_samples :
  in_GetWindowData_HWND 78 sample_state = Normal (Some 1%nat) sample_state /\
  in_GetWindowData_HWND 77 sample_state = Normal None sample_state /\
  in_GetWindowData_int 2 sample_state = Normal (Some 1%nat) sample_state /\
  in_GetWindowData_int 3 sample_state = Normal None sample_state /\
  i_GetWindowData_HWND 78 sample_i_state = (Some 0%nat, sample_i_state) /\
  i_GetWindowData_WndH 1 sample_i_state = (None, sample_i_state).
Proof. repeat split; vm_compute; reflexivity. Qed.

(** ** Window attributes *)

Lemma arrow_Some {A} p d (field : WindowData -> A) s :
  objects s !! p = Some d -> arrow (Some p) field s = Normal (field d) s.
Proof. intros Hd. unfold arrow, bind, ret. by rewrite (deref_Some _ _ _ Hd). Qed.

Lemma accessor_found {A} (field : WindowData -> A) id s p d :
  in_GetWindowData_int id s = Normal (Some p) s ->
  objects s !! p = Some d ->
  (p' ← in_GetWindowData_int id; arrow p' field) s = Normal (field d) s.
Proof.
  intros Hfind Hd. rewrite (bind_Normal _ _ _ _ _ Hfind). by apply arrow_Some.
Qed.

Lemma accessor_null {A} (field : WindowData -> A) id s :
  in_GetWindowData_int id s = Normal None s ->
  (p' ← in_GetWindowData_int id; arrow p' field) s = Undefined.
Proof. intros Hfind. by rewrite (bind_Normal _ _ _ _ _ Hfind). Qed.

(** C10.  The four accessors go through the pointer that
    [GetWindowData(id)] returns, with no check for null.  When a valid
    window with the id is in the window list, the lookup returns a (non
    null) pointer to such a window and each accessor returns the field
    [name], [isVisible], [width] or [height] of that window.  When there
    is none, the lookup returns null and the accessors dereference it. *)
Theorem accessors_return_the_fields (s : State) (id : Z) :
  live s ->
  ((exists p d, valid_window s id p d) ->
   exists p d, valid_window s id p d /\
     in_GetWindowData_int id s = Normal (Some p) s /\
     tsd_GetWindowName id s = Normal (wd_name d) s /\
     tsd_GetWindowVisibility id s = Normal (wd_isVisible d) s /\
     tsd_GetWindowWidth id s = Normal (wd_width d) s /\
     tsd_GetWindowHeight id s = Normal (wd_height d) s) /\
  (~ (exists p d, valid_window s id p d) ->
   in_GetWindowData_int id s = Normal None s /\
   tsd_GetWindowName id s = Undefined /\
   tsd_GetWindowVisibility id s = Undefined /\
   tsd_GetWindowWidth id s = Undefined /\
   tsd_GetWindowHeight id s = Undefined).
Proof.
  intros Hlive.
  destruct (in_GetWindowData_int_spec id s Hlive) as [r [Hr Hspec]].
  destruct r as [p|].
  - destruct Hspec as [Hin [d [Hd [Hid Hv]]]]. split.
    + intros _. exists p, d. split; [by repeat split|].
      split; [exact Hr|].
      unfold tsd_GetWindowName, tsd_GetWindowVisibility, tsd_GetWindowWidth,
        tsd_GetWindowHeight.
      repeat split; by apply (accessor_found _ id s p d).
    + intros Hno. exfalso. apply Hno. exists p, d. by repeat split.
  - split.
    + intros [p [d [Hin [Hd [Hid Hv]]]]]. exfalso. by apply (Hspec p d).
    + intros _. split; [exact Hr|].
      unfold tsd_GetWindowName, tsd_GetWindowVisibility, tsd_GetWindowWidth,
        tsd_GetWindowHeight.
      repeat split; by apply accessor_null.
Qed.

Lemma accessors_return_the_fields_witness :
  live sample_state /\
  (exists p d, valid_window sample_state 2 p d) /\
  (exists p d, valid_window sample_state 2 p d /\
     tsd_GetWindowName 2 sample_state = Normal (wd_name d) sample_state).
Proof.
  split; [exact sample_state_live|].
  assert (exists p d, valid_window sample_state 2 p d) as Hex.
  { exists 1%nat, (mkWindowData 78 2 (Some "second") true true 800 600 10 20
                    (Some Pumping)).
    split; [right; left | by repeat split]. }
  split; [exact Hex|].
  destruct (accessors_return_the_fields sample_state 2 sample_state_live)
    as [Hfound _].
  destruct (Hfound Hex) as [p [d [Hv [_ [Hname _]]]]].
  exists p, d. split; [exact Hv | exact Hname].
Defined.

(** ** The window procedure *)

(** C3.  The window procedure routes a message by its code.  [WM_CLOSE]
    has [DestroyWindow] called on the window (and then goes to
    [DefWindowProc], whose answer is returned).  [WM_DESTROY] with
    [GetWindowCount() == 1] clears the running flag, returns 0 and calls
    nothing.  Every other message, and [WM_DESTROY] with another count,
    goes to [DefWindowProc] alone, whose answer is returned. *)
Theorem WindowProc_routes_messages (def hWnd uMsg wParam lParam : Z) (s : State) :
  (uMsg = Win32.WM_CLOSE ->
     in_WindowProc def hWnd uMsg wParam lParam s =
       Normal def (set_trace (trace s ++ [OsDestroyWindow hWnd;
                      OsDefWindowProc hWnd uMsg wParam lParam]) s)) /\
  (uMsg = Win32.WM_DESTROY -> tsd_GetWindowCount s = Normal 1 s ->
     in_WindowProc def hWnd uMsg wParam lParam s =
       Normal 0 (set_isRunning false s) /\
     tsd_Running (set_isRunning false s) = Normal false (set_isRunning false s)) /\
  (uMsg <> Win32.WM_CLOSE ->
   ~ (uMsg = Win32.WM_DESTROY /\ tsd_GetWindowCount s = Normal 1 s) ->
     in_WindowProc def hWnd uMsg wParam lParam s =
       Normal def (set_trace (trace s ++
                      [OsDefWindowProc hWnd uMsg wParam lParam]) s)).
Proof.
  split; [|split].
  - intros ->. unfold in_WindowProc, bind, os, modify, ret. cbn.
    by rewrite <- app_assoc.
  - intros -> Hcount. injection Hcount as Hcount.
    unfold in_WindowProc, tsd_GetWindowCount, bind, get, modify, ret. cbn.
    rewrite Hcount. split; reflexivity.
  - intros Hclose Hdestroy.
    unfold in_WindowProc.
    destruct (uMsg =? Win32.WM_CLOSE) eqn:E1; [apply Z.eqb_eq in E1; done|].
    destruct (uMsg =? Win32.WM_DESTROY) eqn:E2; [|reflexivity].
    apply Z.eqb_eq in E2.
    unfold tsd_GetWindowCount, bind, get, ret.
    destruct (windowCount s =? 1) eqn:E3; [|reflexivity].
    apply Z.eqb_eq in E3. exfalso. apply Hdestroy. split; [exact E2|].
    unfold tsd_GetWindowCount, bind, get, ret. by rewrite E3.
Qed.

Lemma WindowProc_routes_messages_witness :
  in_WindowProc 9 78 Win32.WM_CLOSE 0 0 sample_state =
    Normal 9 (set_trace [OsDestroyWindow 78;
                         OsDefWindowProc 78 Win32.WM_CLOSE 0 0] sample_state) /\
  tsd_GetWindowCount sample_state = Normal 1 sample_state /\
  in_WindowProc 9 78 Win32.WM_DESTROY 0 0 sample_state =
    Normal 0 (set_isRunning false sample_state) /\
  in_WindowProc 9 78 15 0 0 sample_state =
    Normal 9 (set_trace [OsDefWindowProc 78 15 0 0] sample_state).
Proof.
  destruct (WindowProc_routes_messages 9 78 Win32.WM_CLOSE 0 0 sample_state)
    as [Hclose _].
  destruct (WindowProc_routes_messages 9 78 Win32.WM_DESTROY 0 0 sample_state)
    as [_ [Hdestroy _]].
  destruct (WindowProc_routes_messages 9 78 15 0 0 sample_state)
    as [_ [_ Hother]].
  split; [exact (Hclose eq_refl)|].
  split; [reflexivity|].
  split; [exact (proj1 (Hdestroy eq_refl eq_refl))|].
  apply Hother.
  - discriminate.
  - intros [Hd _]. discriminate Hd.
Defined.

(** ** Message boxes *)

Lemma raw_flags_fold mbf flags :
  raw_flags mbf flags = fold_left (add_flag flags) (flag_table mbf) 0.
Proof. reflexivity. Qed.

Lemma fold_add_flag_testbit flags l acc i :
  Z.testbit (fold_left (add_flag flags) l acc) i =
  Z.testbit acc i || existsb (fun fc => flag_set flags fc.1 && Z.testbit fc.2 i) l.
Proof.
  revert acc. induction l as [|[f c] l IH]; intros acc; cbn [fold_left existsb].
  - by rewrite orb_false_r.
  - rewrite IH. unfold add_flag. cbn [fst snd].
    destruct (flag_set flags f); cbn [andb orb].
    + by rewrite Z.lor_spec, orb_assoc.
    + reflexivity.
Qed.

Lemma raw_flags_testbit mbf flags i :
  Z.testbit (raw_flags mbf flags) i = true <->
  exists f c, (f, c) ∈ flag_table mbf /\ flag_set flags f = true /\
              Z.testbit c i = true.
Proof.
  rewrite raw_flags_fold, fold_add_flag_testbit, Z.testbit_0_l, orb_false_l.
  rewrite existsb_exists. split.
  - intros [[f c] [Hin Hfc]]. apply andb_true_iff in Hfc as [Hf Hc].
    exists f, c. split; [by apply list_elem_of_In | auto].
  - intros [f [c [Hin [Hf Hc]]]]. exists (f, c).
    split; [by apply list_elem_of_In|]. cbn. by rewrite Hf, Hc.
Qed.

Lemma result_MBR_other result :
  (forall m, (result, m) ∉ result_table) -> result_MBR result = MBR.CANCEL.
Proof.
  intros Hnot. unfold result_MBR.
  repeat match goal with
  | |- context [result =? ?c] =>
      destruct (Z.eqb_spec result c) as [->|_];
      [exfalso; eapply Hnot; unfold result_table;
       repeat first [apply list_elem_of_here | apply list_elem_of_further]|]
  end.
  reflexivity.
Qed.

Lemma tsd_MessageBox_run mbf result owner title msg flags s :
  live s ->
  exists hWnd,
    tsd_MessageBox mbf result owner title msg flags s =
      Normal (result_MBR result)
        (set_trace (trace s ++ [OsMessageBox hWnd msg title (raw_flags mbf flags)]) s) /\
    (~ (exists p d, valid_window s owner p d) -> hWnd = 0) /\
    ((exists p d, valid_window s owner p d) ->
      exists p d, valid_window s owner p d /\ hWnd = wd_hWnd d).
Proof.
  intros Hlive.
  destruct (in_GetWindowData_int_spec owner s Hlive) as [r [Hr Hspec]].
  unfold tsd_MessageBox. rewrite (bind_Normal _ _ _ _ _ Hr).
  destruct r as [p|].
  - destruct Hspec as [Hin [d [Hd [Hid Hv]]]].
    exists (wd_hWnd d). rewrite (bind_Normal _ _ _ _ _ (arrow_Some _ _ _ _ Hd)).
    split; [reflexivity|]. split.
    + intros Hno. exfalso. apply Hno. exists p, d. by repeat split.
    + intros _. exists p, d. by repeat split.
  - exists 0. split; [reflexivity|]. split; [done|].
    intros [p [d [Hin [Hd [Hid Hv]]]]]. exfalso. by apply (Hspec p d).
Qed.

(** C4.  [tsd::MessageBox] translates in both directions.  The raw flags
    it passes to the operating system have exactly the bits of the [MB_]
    constants of the flags that are set in the input: a bit is set in
    them if and only if it is set in the constant of some flag that the
    input has.  Each of the nine button results is mapped to its [MBR]
    value and any other result to [MBR::CANCEL].  The box is always
    created: with the handle of the owner when the id names a valid
    window, and with the null handle when it does not. *)
Theorem MessageBox_translates (mbf : MBF.values) (result owner : Z)
    (title msg : string) (flags : Z) (s : State) :
  live s ->
  (forall i, Z.testbit (raw_flags mbf flags) i = true <->
     exists f c, (f, c) ∈ flag_table mbf /\ flag_set flags f = true /\
                 Z.testbit c i = true) /\
  (forall r m, (r, m) ∈ result_table -> result_MBR r = m) /\
  ((forall m, (result, m) ∉ result_table) -> result_MBR result = MBR.CANCEL) /\
  (exists hWnd,
     tsd_MessageBox mbf result owner title msg flags s =
       Normal (result_MBR result)
         (set_trace (trace s ++
            [OsMessageBox hWnd msg title (raw_flags mbf flags)]) s) /\
     (~ (exists p d, valid_window s owner p d) -> hWnd = 0) /\
     ((exists p d, valid_window s owner p d) ->
       exists p d, valid_window s owner p d /\ hWnd = wd_hWnd d)).
Proof.
  intros Hlive. split; [|split; [|split]].
  - intros i. apply raw_flags_testbit.
  - intros r m Hin. unfold result_table in Hin.
    repeat (apply elem_of_cons in Hin as [[= -> ->]|Hin]; [reflexivity|]).
    by apply elem_of_nil in Hin.
  - apply result_MBR_other.
  - by apply tsd_MessageBox_run.
Qed.

Lemma MessageBox_translates_witness :
  live sample_state /\
  (exists hWnd,
     tsd_MessageBox sample_mbf Win32.IDYES 1 "Title" "Text" (1 + 4 + 128) sample_state =
       Normal MBR.YES
         (set_trace [OsMessageBox hWnd "Text" "Title"
                       (raw_flags sample_mbf (1 + 4 + 128))] sample_state) /\
     hWnd = 0).
Proof.
  split; [exact sample_state_live|].
  destruct (MessageBox_translates sample_mbf Win32.IDYES 1 "Title" "Text"
              (1 + 4 + 128) sample_state sample_state_live)
    as [_ [_ [_ [hWnd [Hrun [Hnull _]]]]]].
  exists hWnd. split; [exact Hrun|].
  apply Hnull. intros [p [d [Hin [Hd [Hid Hv]]]]].
  cbn in Hin.
  apply elem_of_cons in Hin as [->|Hin]; [cbn in Hd; by injection Hd as <-|].
  apply elem_of_cons in Hin as [->|Hin]; [cbn in Hd; by injection Hd as <-|].
  by apply elem_of_nil in Hin.
Defined.

(** What the translation gives on sample flags: task modal, error icon
    and yes/no buttons. *)
Example raw_flags_sample :
  raw_flags sample_mbf (1 + 4 + 128) =
    Z.lor (Z.lor Win32.MB_TASKMODAL Win32.MB_ICONERROR) Win32.MB_YESNO /\
  raw_flags sample_mbf 0 = 0.
Proof. split; reflexivity. Qed.

(** ** Error reporting *)

Lemma append_assoc (a b c : string) : (a +:+ b) +:+ c = a +:+ b +:+ c.
Proof.
  induction a as [|x a IH]; [reflexivity|].
  change (String x ((a +:+ b) +:+ c) = String x (a +:+ b +:+ c)).
  by f_equal.
Qed.

Lemma contains_here pre s post : contains s (pre +:+ s +:+ post).
Proof. by exists pre, post. Qed.

Lemma contains_later pre s t : contains s t -> contains s (pre +:+ t).
Proof.
  intros [a [b ->]]. exists (pre +:+ a), b. by rewrite append_assoc.
Qed.

Lemma in_CreateWin32DebugError_run err line s :
  in_CreateWin32DebugError err line s =
    Thrown (set_trace (trace s ++ debug_calls (le_code err)
              match le_text err with
              | Some eMsg => debug_text (le_code err) line eMsg
              | None => debug_fallback_text
              end) s).
Proof.
  unfold in_CreateWin32DebugError, bind, os, modify, throw, debug_calls. cbn.
  by rewrite <- !app_assoc.
Qed.

Lemma in_CreateWin32ReleaseError_run timestamp err line s :
  in_CreateWin32ReleaseError timestamp err line s =
    Thrown (set_trace (trace s ++
              release_calls (release_log_line1 timestamp (le_code err) line)
                            (release_log_line2 timestamp)) s).
Proof.
  unfold in_CreateWin32ReleaseError, bind, os, modify, throw, release_calls,
    log_file. cbn.
  by rewrite <- !app_assoc.
Qed.

(** C5.  The two translators of Win32 errors report and then throw, for
    every error code, line and state.  [in::CreateWin32DebugError] shows
    one dialog: when the system has a text for the error, the dialog
    contains the decimal error code, the decimal line and that text; when
    it has none, the dialog is the fallback text.
    [in::CreateWin32ReleaseError] writes a line with the decimal error
    code and the decimal line to the file [Last_Log.txt], then shows a
    dialog.  Both end by throwing. *)
Theorem Win32_errors_are_reported_and_thrown (timestamp : string)
    (err : LastError) (line : Z) (s : State) :
  (exists text,
     in_CreateWin32DebugError err line s =
       Thrown (set_trace (trace s ++ debug_calls (le_code err) text) s) /\
     match le_text err with
     | Some eMsg => contains (show_int (le_code err)) text /\
                    contains (show_int line) text /\
                    contains eMsg text
     | None => text = debug_fallback_text
     end) /\
  (exists line1 line2,
     in_CreateWin32ReleaseError timestamp err line s =
       Thrown (set_trace (trace s ++ release_calls line1 line2) s) /\
     contains (show_int (le_code err)) line1 /\
     contains (show_int line) line1).
Proof.
  split.
  - eexists. split; [apply in_CreateWin32DebugError_run|].
    destruct (le_text err) as [eMsg|]; [|reflexivity].
    unfold debug_text. split; [|split].
    + apply contains_here.
    + do 2 apply contains_later. apply contains_here.
    + do 6 apply contains_later. apply contains_here.
  - eexists _, _. split; [apply in_CreateWin32ReleaseError_run|].
    unfold release_log_line1. split.
    + do 3 apply contains_later. apply contains_here.
    + do 5 apply contains_later. apply contains_here.
Qed.

(** The dialog and the log line for error 5 at line 67. *)
Example Win32_error_samples :
  debug_text 5 67 "Access is denied." =
    "A Win32 API call resulted in a fatal error 5 at line 67 in the source of the framework." +:+
    nl +:+ nl +:+ "Access is denied." +:+ nl +:+
    "This is an internal error likely caused by the framework itself, the application must quit now." +:+ nl /\
  release_log_line1 "Mon Jan  1 00:00:00 2024" 5 67 =
    "[ Mon Jan  1 00:00:00 2024 ]: Unhandled Win32 error! 5 at 67" +:+ nl.
Proof. split; reflexivity. Qed.

(** C6.  [tsd::CreateAutoReleaseError] reports nothing: for every line,
    every [quit] and every state, so whatever error code is stored, it
    returns normally and leaves the state and the trace of
    operating-system calls as they were; it shows no dialog, writes no
    log and does not throw.  Its debug counterpart on the same arguments
    shows a dialog with the stored error code, the line and the text of
    [GetErrorInformation], and throws when [quit] is set. *)
Theorem CreateAutoReleaseError_reports_nothing (errors : gmap Z string)
    (line : Z) (quit : bool) (s : State) :
  tsd_CreateAutoReleaseError line quit s = Normal tt s /\
  (let s' := set_trace (trace s ++
                [OsMessageBox 0 (auto_debug_text errors (lastErrorCode s) line quit)
                   "Error!"
                   (Z.lor (Z.lor Win32.MB_TASKMODAL Win32.MB_OK) Win32.MB_ICONERROR)]) s in
   tsd_CreateAutoDebugError errors line quit s =
     if quit then Thrown s' else Normal tt s') /\
  contains (show_int (lastErrorCode s))
    (auto_debug_text errors (lastErrorCode s) line quit) /\
  contains (show_int line) (auto_debug_text errors (lastErrorCode s) line quit) /\
  contains (tsd_GetErrorInformation errors (lastErrorCode s))
    (auto_debug_text errors (lastErrorCode s) line quit).
Proof.
  split; [reflexivity|]. split.
  - cbn. destruct quit; reflexivity.
  - unfold auto_debug_text. split; [|split].
    + apply contains_here.
    + do 2 apply contains_later. apply contains_here.
    + do 6 apply contains_later. apply contains_here.
Qed.

(** The release function on the sample state with [quit] set. *)
Example CreateAutoReleaseError_sample :
  tsd_CreateAutoReleaseError 10 true (set_lastErrorCode 2 sample_state) =
    Normal tt (set_lastErrorCode 2 sample_state).
Proof. reflexivity. Qed.

(** ** Window creation: the argument checks *)

Lemma tsd_CreateWindow_uninitialised dflt err created name width height xPos yPos s :
  isInitialised s = false ->
  tsd_CreateWindow dflt err created name width height xPos yPos s =
    Normal 0 (set_lastErrorCode 2 s).
Proof. intros Hinit. unfold tsd_CreateWindow, bind, get. by rewrite Hinit. Qed.

Lemma tsd_CreateWindow_bad_arguments dflt err created name width height xPos yPos s :
  isInitialised s = true -> name = None \/ width <= 0 \/ height <= 0 ->
  tsd_CreateWindow dflt err created name width height xPos yPos s =
    Normal 0 (set_lastErrorCode 3 s).
Proof.
  intros Hinit Hbad. unfold tsd_CreateWindow, bind, get. rewrite Hinit. cbn.
  destruct name as [nm|]; [|reflexivity].
  rewrite bool_decide_eq_false_2 by done.
  destruct Hbad as [Hn|[Hw|Hh]]; [discriminate| |].
  - apply Z.leb_le in Hw. rewrite Hw, orb_true_r. reflexivity.
  - apply Z.leb_le in Hh. rewrite Hh. reflexivity.
Qed.

(** C8.  [tsd::CreateWindow] checks before it does anything.  When the
    framework is not initialised it returns 0 and the only change to the
    state is the last error code, which is 2.  When the framework is
    initialised and the name is null or the width or the height is not
    positive, it returns 0 and the only change is the last error code,
    which is 3.  In both cases the window list, the two counters, the
    free store and the trace of calls (no thread start, no window
    creation) are as before. *)
Theorem CreateWindow_checks_arguments (dflt : WindowData) (err : LastError)
    (created : HWND) (name : cstr) (width height xPos yPos : Z) (s : State) :
  (isInitialised s = false ->
     tsd_CreateWindow dflt err created name width height xPos yPos s =
       Normal 0 (set_lastErrorCode 2 s)) /\
  (isInitialised s = true -> name = None \/ width <= 0 \/ height <= 0 ->
     tsd_CreateWindow dflt err created name width height xPos yPos s =
       Normal 0 (set_lastErrorCode 3 s)) /\
  (forall code, let s' := set_lastErrorCode code s in
     tsd_GetLastError s' = Normal code s' /\
     windows s' = windows s /\ objects s' = objects s /\
     windowCount s' = windowCount s /\ windowsOpened s' = windowsOpened s /\
     trace s' = trace s).
Proof.
  split; [|split].
  - apply tsd_CreateWindow_uninitialised.
  - apply tsd_CreateWindow_bad_arguments.
  - intros code s'. by repeat split.
Qed.

Lemma CreateWindow_checks_arguments_witness :
  tsd_CreateWindow sample_dflt sample_err 79 (Some "w") 640 480 0 0 sample_startup =
    Normal 0 (set_lastErrorCode 2 sample_startup) /\
  tsd_CreateWindow sample_dflt sample_err 79 (Some "w") 640 0 0 0 sample_state =
    Normal 0 (set_lastErrorCode 3 sample_state) /\
  tsd_CreateWindow sample_dflt sample_err 79 None 640 480 0 0 sample_state =
    Normal 0 (set_lastErrorCode 3 sample_state).
Proof.
  split; [|split].
  - apply (CreateWindow_checks_arguments sample_dflt sample_err 79 (Some "w")
             640 480 0 0 sample_startup). reflexivity.
  - apply (CreateWindow_checks_arguments sample_dflt sample_err 79 (Some "w")
             640 0 0 0 sample_state); [reflexivity|]. right. right. lia.
  - apply (CreateWindow_checks_arguments sample_dflt sample_err 79 None
             640 480 0 0 sample_state); [reflexivity|]. by left.
Defined.

(** ** The life of the program: what each step changes *)

Lemma GetWindowData_loop_state test ws s r s' :
  GetWindowData_loop test ws s = Normal r s' -> s' = s.
Proof.
  induction ws as [|i rest IH]; cbn [GetWindowData_loop].
  - by intros [= _ <-].
  - intros H. apply bind_inv_Normal in H as [d [s1 [Hd H]]].
    apply deref_inv in Hd as [-> _].
    destruct (test d); [by injection H as _ <- | by apply IH].
Qed.

Lemma tsd_Initialise_same module icon cursor atom err iconId cursorId s r s' :
  tsd_Initialise module icon cursor atom err iconId cursorId s = Normal r s' ->
  same_windows s s'.
Proof.
  unfold tsd_Initialise, WIN32_EC_RET, in_CreateWin32DebugError, in_SetLastError,
    bind, os, modify, throw, ret.
  repeat case_match; try discriminate; intros ?; simplify_eq; by repeat split.
Qed.

Lemma tsd_MessageBox_same mbf result owner title msg flags s r s' :
  tsd_MessageBox mbf result owner title msg flags s = Normal r s' ->
  same_windows s s'.
Proof.
  unfold tsd_MessageBox, in_GetWindowData_int. intros H.
  apply bind_inv_Normal in H as [o [s1 [Ho H]]].
  apply bind_inv_Normal in Ho as [s2 [s3 [Hg Ho]]]. injection Hg as <- <-.
  apply GetWindowData_loop_state in Ho as ->.
  apply bind_inv_Normal in H as [h [s1 [Hh H]]].
  assert (s1 = s) as ->.
  { destruct o as [p|]; [|by injection Hh as _ <-].
    unfold arrow in Hh. apply bind_inv_Normal in Hh as [d [s4 [Hd Hh]]].
    apply deref_inv in Hd as [-> _]. by injection Hh as _ <-. }
  cbn in H. injection H as _ <-. by repeat split.
Qed.

Lemma in_WindowProc_same def hWnd uMsg wParam lParam s r s' :
  in_WindowProc def hWnd uMsg wParam lParam s = Normal r s' ->
  same_windows s s'.
Proof.
  unfold in_WindowProc, tsd_GetWindowCount, bind, os, modify, get, ret.
  repeat case_match; try discriminate; intros ?; simplify_eq; by repeat split.
Qed.

Lemma tsd_CreateAutoDebugError_same errors line quit s s' :
  tsd_CreateAutoDebugError errors line quit s = Normal tt s' ->
  same_windows s s'.
Proof.
  unfold tsd_CreateAutoDebugError, tsd_GetLastError, bind, os, modify, get, ret, throw.
  repeat case_match; try discriminate; intros ?; simplify_eq; by repeat split.
Qed.

Lemma bind_bind {A B C} (m : M A) (f : A -> M B) (k : B -> M C) s :
  bind (bind m f) k s = bind m (fun a => bind (f a) k) s.
Proof. unfold bind. by destruct (m s). Qed.

Lemma deref_last l d s :
  objects s = l ++ [d] -> deref (length l) s = Normal d s.
Proof. intros H. apply deref_Some. rewrite H. by rewrite list_lookup_middle. Qed.

Lemma store_last l d f s :
  objects s = l ++ [d] ->
  store (length l) f s = Normal tt (set_objects (l ++ [f d]) s).
Proof.
  intros H. rewrite (store_Some _ _ d) by (rewrite H; by rewrite list_lookup_middle).
  rewrite H, insert_app_r_alt by lia. by rewrite Nat.sub_diag.
Qed.

Ltac simpl_state :=
  cbn [hInstance hIcon hCursor classAtom isInitialised isRunning lastErrorCode
       windowCount windowsOpened windowIsFinished windows objects trace
       set_hInstance set_hIcon set_hCursor set_classAtom set_isInitialised
       set_isRunning set_lastErrorCode set_windowCount set_windowsOpened
       set_windowIsFinished set_windows set_objects set_trace
       wd_hWnd wd_id wd_name wd_isVisible wd_isValid wd_width wd_height
       wd_xPos wd_yPos wd_msgThread
       wd_set_hWnd wd_set_id wd_set_name wd_set_isValid wd_set_width
       wd_set_height wd_set_xPos wd_set_yPos wd_set_msgThread].

(** One statement of a sequence is run on the current state. *)
Ltac run1 :=
  rewrite ?bind_bind;
  erewrite bind_Normal;
  [| first [ apply store_last; reflexivity
           | apply deref_last; reflexivity
           | reflexivity ] ];
  simpl_state.

Lemma tsd_CreateWindow_creates dflt err created name width height xPos yPos s :
  checks_pass s name width height -> created <> 0 ->
  tsd_CreateWindow dflt err created name width height xPos yPos s =
    Normal (to_short (windowsOpened s + 1))
      (created_state dflt created name width height xPos yPos s).
Proof.
  intros (Hi & Hn & Hw & Hh) Hc.
  unfold tsd_CreateWindow. rewrite (bind_Normal _ _ s s s) by reflexivity.
  rewrite Hi. cbn [negb].
  rewrite bool_decide_eq_false_2 by done.
  destruct (Z.leb_spec height 0); [lia|]. destruct (Z.leb_spec width 0); [lia|].
  cbn [orb].
  do 9 run1.
  unfold MessageHandler_create, WIN32_EC_RET.
  destruct (Z.eqb_spec created 0); [done|].
  do 11 run1. unfold cv_wait. do 5 run1.
  unfold created_state, ret. f_equal. cbn. by rewrite <- !app_assoc.
Qed.

Lemma tsd_CreateWindow_throws dflt err name width height xPos yPos s :
  checks_pass s name width height ->
  exists s', tsd_CreateWindow dflt err 0 name width height xPos yPos s = Thrown s'.
Proof.
  intros (Hi & Hn & Hw & Hh).
  unfold tsd_CreateWindow. rewrite (bind_Normal _ _ s s s) by reflexivity.
  rewrite Hi. cbn [negb].
  rewrite bool_decide_eq_false_2 by done.
  destruct (Z.leb_spec height 0); [lia|]. destruct (Z.leb_spec width 0); [lia|].
  cbn [orb].
  do 9 run1.
  unfold MessageHandler_create, WIN32_EC_RET. cbn [Z.eqb].
  do 2 run1. rewrite !bind_bind.
  unfold bind at 1. rewrite in_CreateWin32DebugError_run. by eexists.
Qed.

Lemma tsd_CreateWindow_inv dflt err created name width height xPos yPos s r s' :
  tsd_CreateWindow dflt err created name width height xPos yPos s = Normal r s' ->
  (~ checks_pass s name width height /\ r = 0 /\
   exists code, s' = set_lastErrorCode code s) \/
  (checks_pass s name width height /\ created <> 0 /\
   r = to_short (windowsOpened s + 1) /\
   s' = created_state dflt created name width height xPos yPos s).
Proof.
  intros H.
  destruct (isInitialised s) eqn:Hi.
  - destruct (decide (name = None)) as [Hn|Hn].
    + rewrite tsd_CreateWindow_bad_arguments in H by auto. injection H as <- <-. left.
      split; [intros (_ & ? & _); done|]. split; [done|]. by exists 3.
    + destruct (Z.le_gt_cases width 0) as [Hw|Hw];
        [|destruct (Z.le_gt_cases height 0) as [Hh|Hh]].
      * rewrite tsd_CreateWindow_bad_arguments in H by auto. injection H as <- <-. left.
        split; [intros (_ & _ & ? & _); lia|]. split; [done|]. by exists 3.
      * rewrite tsd_CreateWindow_bad_arguments in H by auto. injection H as <- <-. left.
        split; [intros (_ & _ & _ & ?); lia|]. split; [done|]. by exists 3.
      * assert (checks_pass s name width height) as Hpass by (repeat split; first [done | lia]).
        destruct (decide (created = 0)) as [->|Hc].
        -- destruct (tsd_CreateWindow_throws dflt err name width height xPos yPos
                       s Hpass) as [s1 Hs1].
           congruence.
        -- rewrite (tsd_CreateWindow_creates _ _ _ _ _ _ _ _ _ Hpass Hc) in H.
           injection H as <- <-. right. by repeat split.
  - rewrite tsd_CreateWindow_uninitialised in H by auto. injection H as <- <-. left.
    split; [intros (? & _); congruence|]. split; [done|]. by exists 2.
Qed.

Lemma MessageHandler_exit_run p d s :
  objects s !! p = Some d ->
  MessageHandler_exit p s = Normal tt (exited_state p d s).
Proof.
  intros Hd. unfold MessageHandler_exit.
  rewrite (bind_Normal _ _ _ tt (set_windowCount (windowCount s - 1) s))
    by reflexivity.
  erewrite bind_Normal by (by apply store_Some).
  erewrite store_Some; cbn [objects set_objects].
  - unfold exited_state. by rewrite list_insert_insert_eq.
  - apply list_lookup_insert_eq. by eapply lookup_lt_Some.
Qed.

(** ** The two threads of a window creation *)

Import Handshake.

Section HandshakeInvariant.

Variables (dflt : WindowData) (err : LastError) (created : Z).
Variables (name : option string) (width height xPos yPos : Z).
Variable s0 : State.

Local Abbreviation Hinv := (HInv created s0).

Lemma HInv_start : windowIsFinished s0 = false -> Hinv (start s0).
Proof.
  intros Hf. split; cbn; try done.
  - lia.
Qed.


Lemma exec_Some m c k c' :
  exec m c k = Some c' ->
  exists u s', m (shared c) = Normal u s' /\ c' = k s'.
Proof.
  unfold exec. destruct (m (shared c)) as [u s'| | |]; try discriminate.
  intros [= <-]. by exists u, s'.
Qed.

Lemma store_object p f d s :
  objects s !! p = Some d ->
  store p f s = Normal tt (set_objects (<[p := f d]> (objects s)) s) /\
  <[p := f d]> (objects s) !! p = Some (f d).
Proof.
  intros Hd. split; [by apply store_Some|].
  apply list_lookup_insert_eq. by eapply lookup_lt_Some.
Qed.

Ltac store_step H Hobj :=
  let d := fresh "d" in let Hd := fresh "Hd" in
  let Hw := fresh "Hw" in let Hi := fresh "Hi" in
  destruct Hobj as (d & Hd & Hw & Hi); [done|];
  unfold exec in H; cbn [shared] in H;
  rewrite (proj1 (store_object _ _ _ _ Hd)) in H;
  injection H as <-;
  split; cbn [shared mtx wndData cpc wpc at_pcs objects set_objects
              windowIsFinished windowsOpened windows]; try done;
  try (intros _; eexists; split; [apply (store_object _ _ _ _ Hd)|];
       split; [exact Hw | exact Hi]).

Lemma caller_step_inv c c' :
  Hinv c -> caller_step dflt name width height xPos yPos c = Some c' -> Hinv c'.
Proof.
  intros HI H. destruct c as [s m p cp wp].
  destruct HI as [Hptr Hfresh Hobj Hst Hmtx Hex Hflag Hwait Hop Hpush Hret].
  cbn [shared mtx wndData cpc wpc] in *. subst p.
  destruct cp; cbn [caller_step cpc shared wndData mtx wpc] in H.
  - (* 214 *)
    cbn in H. injection H as <-.
    split; cbn [shared mtx wndData cpc wpc objects set_objects windowIsFinished
                windowsOpened windows allocated]; try done.
    + by apply Hfresh.
    + intros _. exists dflt. rewrite <- (Hfresh eq_refl).
      split; [by rewrite list_lookup_middle|].
      destruct wp; try discriminate Hst. by split.
  - (* 215 *)
    destruct Hobj as (d & Hd & Hw & Hi); [done|].
    unfold exec in H. cbn [shared] in H.
    rewrite (bind_Normal _ _ s tt
               (set_trace (trace s ++ [OsThreadStart (length (objects s0))]) s))
      in H by reflexivity.
    rewrite (store_Some _ _ d) in H by exact Hd.
    injection H as <-.
    destruct wp; try discriminate Hst.
    split; cbn [shared mtx wndData cpc wpc at_pcs objects set_objects
                windowIsFinished windowsOpened windows]; try done.
    intros _. eexists. split.
    { apply list_lookup_insert_eq. by eapply lookup_lt_Some. }
    split; intros [=].
  - store_step H Hobj.
  - store_step H Hobj.
  - store_step H Hobj.
  - store_step H Hobj.
  - store_step H Hobj.
  - store_step H Hobj.
  - (* 225 *)
    destruct m; [discriminate|]. injection H as <-.
    cbn [caller_holds] in Hmtx.
    destruct (window_holds wp) eqn:Hwh; [discriminate|].
    split; cbn [shared mtx wndData cpc wpc at_pcs]; try done.
  - (* 226 *)
    cbn [caller_holds flag_reset negb] in *. rewrite andb_true_r in Hflag.
    destruct (windowIsFinished s) eqn:Hfl; injection H as <-.
    + split; cbn [shared mtx wndData cpc wpc at_pcs]; try done.
      cbn. by rewrite Hfl, <- Hflag.
    + cbn [andb] in Hex.
      split; cbn [shared mtx wndData cpc wpc at_pcs caller_holds]; try done.
      * by rewrite Hex.
      * cbn. by rewrite Hfl, <- Hflag.
  - (* waiting *)
    destruct m; [discriminate|]. injection H as <-.
    cbn [caller_holds] in Hmtx.
    destruct (window_holds wp) eqn:Hwh; [discriminate|].
    split; cbn [shared mtx wndData cpc wpc at_pcs]; try done.
  - (* 228 *)
    cbn in H. injection H as <-.
    split; cbn [shared mtx wndData cpc wpc at_pcs objects windows set_windows
                windowIsFinished windowsOpened]; try done.
    intros _. apply elem_of_app. right. by left.
  - (* 230 *)
    cbn in H. injection H as <-.
    split; cbn [shared mtx wndData cpc wpc at_pcs objects windows
                set_windowIsFinished windowIsFinished windowsOpened]; try done.
    cbn. by rewrite andb_false_r.
  - (* 232 *)
    destruct Hobj as (d & Hd & Hw & Hi); [done|].
    rewrite (deref_Some _ _ _ Hd) in H. injection H as <-.
    cbn [caller_holds andb] in Hex.
    split; cbn [shared mtx wndData cpc wpc at_pcs caller_holds]; try done.
    + intros _. by exists d.
    + by rewrite Hex.
    + intros v [= <-]. f_equal. apply Hi.
      specialize (Hwait eq_refl). by destruct wp.
  - discriminate.
Qed.


Lemma started_allocated cp : thread_started cp = true -> allocated cp = true.
Proof. by destruct cp. Qed.

Ltac state_fields :=
  cbn [shared mtx wndData cpc wpc at_pcs objects windows windowIsFinished
       windowsOpened windowCount trace set_objects set_windows set_trace
       set_windowIsFinished set_windowsOpened set_windowCount set_isRunning].

Ltac window_store H Hd Hw Hi Hal :=
  unfold exec in H; cbn [shared] in H;
  rewrite (proj1 (store_object _ _ _ _ Hd)) in H;
  injection H as <-;
  split; state_fields; rewrite ?Hal; try done;
  try (intros _; eexists; split; [apply (store_object _ _ _ _ Hd)|];
       split; [exact Hw | exact Hi]).

Lemma window_step_inv c c' :
  Hinv c -> window_step err created c = Some c' -> Hinv c'.
Proof.
  intros HI H. destruct c as [s m p cp wp].
  destruct HI as [Hptr Hfresh Hobj Hst Hmtx Hex Hflag Hwait Hop Hpush Hret].
  cbn [shared mtx wndData cpc wpc] in *. subst p.
  destruct wp; cbn [window_step cpc shared wndData mtx wpc] in H;
    try discriminate H;
    (assert (allocated cp = true) as Hal
       by (apply started_allocated; by rewrite <- Hst));
    destruct (Hobj Hal) as (d & Hd & Hw & Hi).
  - (* 67 *)
    rewrite (bind_Normal _ _ _ _ _ (deref_Some _ _ _ Hd)) in H.
    rewrite (bind_Normal _ _ s tt
               (set_trace (trace s ++ [OsCreateWindowEx (wd_name d) (wd_width d)
                                         (wd_height d)]) s)) in H by reflexivity.
    unfold WIN32_EC_RET in H. destruct (Z.eqb_spec created 0) as [Hc|Hc].
    + rewrite bind_bind in H. unfold bind at 1 in H.
      rewrite in_CreateWin32DebugError_run in H. injection H as <-.
      split; state_fields; rewrite ?Hal; try done.
      intros _. exists d. split; [exact Hd|]. by split.
    + rewrite (bind_Normal _ _ _ created _ eq_refl) in H.
      rewrite (store_Some _ _ d) in H by exact Hd. injection H as <-.
      split; state_fields; rewrite ?Hal; try done.
      intros _. eexists. split.
      { apply list_lookup_insert_eq. by eapply lookup_lt_Some. }
      split; [by intros _ | intros [=]].
  - (* 79 *)
    cbn in H. injection H as <-. split; state_fields; rewrite ?Hal; try done.
    intros _. by exists d.
  - (* 80 *)
    cbn in H. injection H as <-. split; state_fields; rewrite ?Hal; try done.
    + intros _. exists d. split; [exact Hd|]. split; [exact Hw | intros [=]].
    + cbn in *. lia.
  - (* 82 *)
    unfold exec in H. cbn [shared] in H.
    rewrite (store_Some _ _ d) in H by exact Hd. injection H as <-.
    split; state_fields; rewrite ?Hal; try done.
    intros _. eexists. split.
    { apply list_lookup_insert_eq. by eapply lookup_lt_Some. }
    split; [exact Hw | intros _; cbn in *; lia].
  - (* 84 *)
    unfold exec in H. cbn [shared] in H.
    rewrite (bind_Normal _ _ _ _ _ (deref_Some _ _ _ Hd)) in H.
    cbn in H. injection H as <-. split; state_fields; rewrite ?Hal; try done.
    intros _. by exists d.
  - (* 87 *)
    destruct m; [discriminate|]. injection H as <-.
    destruct (caller_holds cp) eqn:Hch; [discriminate|].
    split; state_fields; rewrite ?Hal; try done.
    + intros _. by exists d.
    + by rewrite Hch.
    + by rewrite Hch.
  - (* 88 *)
    cbn in H. injection H as <-. split; state_fields; rewrite ?Hal; try done.
    + intros _. by exists d.
    + cbn [signalled andb]. destruct (flag_reset cp) eqn:Hr; [|done].
      assert (past_wait cp = true) as Hp by (by destruct cp).
      by specialize (Hwait Hp).
  - (* 89 *)
    injection H as <-. rewrite andb_true_r in Hex.
    split; state_fields; rewrite ?Hal; try done.
    + intros _. by exists d.
    + by rewrite Hex.
    + by rewrite Hex.
  - (* 90 *)
    window_store H Hd Hw Hi Hal.
  - (* 94 *)
    injection H as <-. split; state_fields; rewrite ?Hal; try done.
    intros _. by exists d.
  - (* 100 *)
    cbn in H. injection H as <-. split; state_fields; rewrite ?Hal; try done.
    intros _. by exists d.
  - (* 101 *)
    unfold exec in H. cbn [shared] in H.
    rewrite (bind_Normal _ _ _ _ _ (proj1 (store_object _ _ _ _ Hd))) in H.
    rewrite (store_Some _ _ (wd_set_isValid false d)) in H
      by apply (store_object _ _ _ _ Hd).
    injection H as <-. split; state_fields; rewrite ?Hal; try done.
    intros _. eexists. split.
    { apply list_lookup_insert_eq. rewrite length_insert. by eapply lookup_lt_Some. }
    split; [exact Hw | exact Hi].
Qed.


Lemma HInv_same c s' :
  Hinv c -> same_windows (shared c) s' ->
  Hinv (mkConfig s' (mtx c) (wndData c) (cpc c) (wpc c)).
Proof.
  intros [Hptr Hfresh Hobj Hst Hmtx Hex Hflag Hwait Hop Hpush Hret]
         (Hw & Ho & _ & Hopen & Hfl).
  split; cbn [shared mtx wndData cpc wpc]; rewrite ?Hw, ?Ho, ?Hopen, ?Hfl; done.
Qed.

Lemma window_message_inv def uMsg wParam lParam c c' :
  Hinv c -> window_message def uMsg wParam lParam c = Some c' -> Hinv c'.
Proof.
  intros HI H. unfold window_message in H.
  destruct (wpc c) eqn:Hwp; try discriminate H.
  destruct ((d ← deref (wndData c);
             in_WindowProc def (wd_hWnd d) uMsg wParam lParam) (shared c))
    as [r s'| | |] eqn:Hrun; try discriminate H.
  injection H as <-. unfold at_pcs. rewrite <- Hwp.
  apply HInv_same; [exact HI|].
  apply bind_inv_Normal in Hrun as (d & s1 & Hd & Hrun).
  apply deref_inv in Hd as [-> _]. by eapply in_WindowProc_same.
Qed.

Lemma other_message_inv p def uMsg wParam lParam c c' :
  Hinv c -> other_message p def uMsg wParam lParam c = Some c' -> Hinv c'.
Proof.
  intros HI H. unfold other_message in H.
  destruct (other_pumping c p); [|discriminate H].
  destruct ((d ← deref p;
             in_WindowProc def (wd_hWnd d) uMsg wParam lParam) (shared c))
    as [r s'| | |] eqn:Hrun; try discriminate H.
  injection H as <-. unfold at_pcs.
  apply HInv_same; [exact HI|].
  apply bind_inv_Normal in Hrun as (d & s1 & Hd & Hrun).
  apply deref_inv in Hd as [-> _]. by eapply in_WindowProc_same.
Qed.

Lemma other_exit_inv p c c' :
  Hinv c -> other_exit p c = Some c' -> Hinv c'.
Proof.
  intros HI H. unfold other_exit in H.
  destruct (other_pumping c p) eqn:Hother; [|discriminate H].
  unfold other_pumping in Hother. apply andb_true_iff in Hother as [Hne Hp].
  apply negb_true_iff, Nat.eqb_neq in Hne.
  destruct (objects (shared c) !! p) as [d|] eqn:Hd; [|discriminate Hp].
  unfold exec in H. rewrite (MessageHandler_exit_run _ _ _ Hd) in H.
  injection H as <-.
  destruct HI as [Hptr Hfresh Hobj Hst Hmtx Hex Hflag Hwait Hop Hpush Hret].
  rewrite Hptr in Hne.
  split; cbn [shared mtx wndData cpc wpc at_pcs exited_state objects windows
              windowIsFinished windowsOpened set_objects set_windowCount];
    try done.
  - intros Ha. rewrite length_insert. by apply Hfresh.
  - intros Ha. rewrite list_lookup_insert_ne by done. by apply Hobj.
Qed.

Lemma hstep_inv a c c' :
  Hinv c ->
  hstep dflt err created name width height xPos yPos a c = Some c' ->
  Hinv c'.
Proof.
  intros HI H. unfold hstep in H.
  destruct a.
  - apply (caller_step_inv c); [done|]. by destruct (wpc c).
  - apply (window_step_inv c); [done|]. by destruct (wpc c).
  - apply (window_message_inv def uMsg wParam lParam c); [done|].
    by destruct (wpc c).
  - apply (other_message_inv p def uMsg wParam lParam c); [done|].
    by destruct (wpc c).
  - apply (other_exit_inv p c); [done|]. by destruct (wpc c).
Qed.

Lemma run_inv sched c c' :
  Hinv c ->
  run dflt err created name width height xPos yPos sched c = Some c' ->
  Hinv c'.
Proof.
  revert c. induction sched as [|a sched IH]; intros c HI H; cbn [run] in H.
  - by injection H as <-.
  - destruct (hstep dflt err created name width height xPos yPos a c)
      as [c1|] eqn:Hstep; [|discriminate H].
    apply (IH c1); [|done]. by eapply hstep_inv.
Qed.


Lemma run_cons a sched c c1 :
  hstep dflt err created name width height xPos yPos a c = Some c1 ->
  run dflt err created name width height xPos yPos (a :: sched) c =
  run dflt err created name width height xPos yPos sched c1.
Proof. intros H. cbn [run]. by rewrite H. Qed.

Ltac hstep_solve :=
  unfold hstep, caller_step, window_step, exec, at_pcs;
  cbn [wpc cpc shared mtx wndData new_WindowData];
  simpl_state;
  repeat run1;
  first [ reflexivity
        | erewrite store_last; [reflexivity | reflexivity]
        | erewrite deref_last; [reflexivity | reflexivity] ].

Lemma fair_run :
  windowIsFinished s0 = false ->
  created <> 0 ->
  run dflt err created name width height xPos yPos fair_schedule (start s0) =
    Some (mkConfig (created_state dflt created name width height xPos yPos s0)
            None (length (objects s0))
            (Returned (to_short (windowsOpened s0 + 1))) W94).
Proof.
  intros Hf Hc. unfold fair_schedule, start. cbn [replicate app].
  apply Z.eqb_neq in Hc.
  do 9 (erewrite run_cons by hstep_solve).
  erewrite run_cons
    by (unfold hstep, caller_step; cbn [wpc cpc shared]; simpl_state;
        rewrite Hf; reflexivity).
  erewrite run_cons
    by (unfold hstep, window_step, WIN32_EC_RET; cbn [wpc cpc shared];
        rewrite Hc; hstep_solve).
  do 8 (erewrite run_cons by hstep_solve).
  do 5 (erewrite run_cons by hstep_solve).
  cbn [run]. unfold created_state. do 2 f_equal. cbn.
  by rewrite <- !app_assoc.
Qed.

End HandshakeInvariant.


(** ** All the threads of the program *)

Import Threads.

Ltac world_fields :=
  cbn [globals mutex client threads].

Lemma thread_line_effect this err created w w' :
  thread_line this err created w = Some w' ->
  is_Some (objects (globals w) !! this) ->
  exists line d,
    threads w !! this = Some line /\
    objects (globals w) !! this = Some d /\
    running line = true /\ line <> Finished /\ line <> Failed /\
    threads w' = <[this := next_line created line]> (threads w) /\
    client w' = client w /\
    mutex w' = match line with
               | W87 => Some (WindowThread this)
               | W89 => None
               | _ => mutex w
               end /\
    (line = W87 -> mutex w = None) /\
    objects (globals w') =
      <[this := thread_writes created (windowsOpened (globals w)) line d]>
        (objects (globals w)) /\
    windows (globals w') = windows (globals w) /\
    windowCount (globals w') =
      windowCount (globals w) + match line with W79 => 1 | W100 => -1 | _ => 0 end /\
    windowsOpened (globals w') =
      windowsOpened (globals w) + match line with W80 => 1 | _ => 0 end /\
    windowIsFinished (globals w') =
      match line with W88 => true | _ => windowIsFinished (globals w) end /\
    isInitialised (globals w') = isInitialised (globals w) /\
    isRunning (globals w') = isRunning (globals w).
Proof.
  intros H [d Hd]. unfold thread_line in H.
  destruct (threads w !! this) as [line|] eqn:Hline; [|discriminate].
  exists line, d. split; [reflexivity|]. split; [exact Hd|].
  destruct w as [s m c ts]. cbn [globals mutex client threads] in *.
  destruct line; try discriminate H; cbn [next_line thread_writes running].
  - (* 67 *)
    rewrite (bind_Normal _ _ _ _ _ (deref_Some _ _ _ Hd)) in H.
    rewrite (bind_Normal _ _ s tt
               (set_trace (trace s ++ [OsCreateWindowEx (wd_name d) (wd_width d)
                                         (wd_height d)]) s)) in H by reflexivity.
    unfold WIN32_EC_RET in H. destruct (created =? 0) eqn:Hc.
    + rewrite bind_bind in H. unfold bind at 1 in H.
      rewrite in_CreateWin32DebugError_run in H. injection H as <-.
      world_fields. simpl_state. rewrite (list_insert_id _ _ _ Hd).
      repeat split; try done; lia.
    + rewrite (bind_Normal _ _ _ created _ eq_refl) in H.
      rewrite (store_Some _ _ d) in H by exact Hd. injection H as <-.
      world_fields. simpl_state. repeat split; try done; lia.
  - cbn in H. injection H as <-. world_fields. simpl_state.
    rewrite (list_insert_id _ _ _ Hd). repeat split; try done; lia.
  - cbn in H. injection H as <-. world_fields. simpl_state.
    rewrite (list_insert_id _ _ _ Hd). repeat split; try done; lia.
  - rewrite (store_Some _ _ d) in H by exact Hd. injection H as <-.
    world_fields. simpl_state. repeat split; try done; lia.
  - rewrite (bind_Normal _ _ _ _ _ (deref_Some _ _ _ Hd)) in H.
    cbn in H. injection H as <-. world_fields. simpl_state.
    rewrite (list_insert_id _ _ _ Hd). repeat split; try done; lia.
  - destruct m; [discriminate|]. injection H as <-. world_fields.
    rewrite (list_insert_id _ _ _ Hd). repeat split; try done; lia.
  - cbn in H. injection H as <-. world_fields. simpl_state.
    rewrite (list_insert_id _ _ _ Hd). repeat split; try done; lia.
  - injection H as <-. world_fields.
    rewrite (list_insert_id _ _ _ Hd). repeat split; try done; lia.
  - rewrite (store_Some _ _ d) in H by exact Hd. injection H as <-.
    world_fields. simpl_state. repeat split; try done; lia.
  - injection H as <-. world_fields.
    rewrite (list_insert_id _ _ _ Hd). repeat split; try done; lia.
  - cbn in H. injection H as <-. world_fields. simpl_state.
    rewrite (list_insert_id _ _ _ Hd). repeat split; try done; lia.
  - rewrite (bind_Normal _ _ _ _ _ (store_Some _ _ d _ Hd)) in H.
    erewrite store_Some in H
      by (cbn [objects set_objects]; apply list_lookup_insert_eq;
          by eapply lookup_lt_Some).
    injection H as <-. world_fields. simpl_state.
    rewrite list_insert_insert_eq. repeat split; try done; lia.
Qed.

(** ** Counting the open windows *)

Lemma open_count_app ts line :
  open_count (ts ++ [line]) = (open_count ts + (if open line then 1 else 0))%nat.
Proof.
  unfold open_count. rewrite filter_app, length_app, filter_cons, filter_nil.
  destruct (open line); case_decide; try done; simpl; lia.
Qed.

Lemma open_count_insert ts p line line' :
  ts !! p = Some line ->
  (open_count (<[p := line']> ts) + (if open line then 1 else 0) =
   open_count ts + (if open line' then 1 else 0))%nat.
Proof.
  unfold open_count. revert p.
  induction ts as [|x ts IH]; intros [|p] Hp; try discriminate.
  - injection Hp as ->. cbn [insert list_insert].
    rewrite !filter_cons. destruct (open line), (open line');
      repeat case_decide; try done; simpl; lia.
  - cbn in Hp. specialize (IH p Hp).
    change (<[S p:=line']> (x :: ts)) with (x :: <[p:=line']> ts).
    rewrite !filter_cons.
    destruct (open line), (open line'); case_decide; simpl in *; lia.
Qed.

Lemma open_count_le ts : (open_count ts <= length ts)%nat.
Proof. apply length_filter. Qed.

(** ** The invariant *)

Lemma same_quiet w s' c' :
  same_windows (globals w) s' -> quiet w ->
  quiet (mkWorld s' (mutex w) c' (threads w)).
Proof.
  intros (Hw & Ho & _ & Hop & Hf) [Q1 Q2 Q3 Q4 Q5].
  split; world_fields; rewrite ?Hw, ?Ho, ?Hop, ?Hf; done.
Qed.

Lemma same_creating w s' c' a p l line :
  same_windows (globals w) s' -> creating w a p l line ->
  creating (mkWorld s' (mutex w) c' (threads w)) a p l line.
Proof.
  intros (Hw & Ho & _ & Hop & Hf) [].
  split; world_fields; rewrite ?Hw, ?Ho, ?Hop, ?Hf; done.
Qed.

Lemma settled_facts line :
  settled line = true ->
  signalled line = true /\ window_holds line = false /\
  counted_opened line = true /\ id_assigned line = true /\
  window_created line = true /\ running line = true.
Proof. by destruct line. Qed.

(** When the client can call, no creation is under way. *)
Lemma free_quiet dflt w :
  WInv dflt w -> client_free (client w) = true -> quiet w.
Proof.
  intros [Hlen _ Hphase _] Hfree. unfold phase in Hphase.
  destruct (client w) as [|a p l]; [exact Hphase|].
  destruct l; try discriminate Hfree. cbn [allocated] in Hphase.
  destruct Hphase as [line [C1 C2 C3 C4 C5 C6 C7 C8 C9 C10 C11 C12]].
  destruct (settled_facts line (C8 eq_refl)) as (Hsig & Hholds & Hco & _).
  split.
  - intros q lq Hq Hlt. rewrite Hlen, C1 in Hlt.
    destruct (decide (q = p)) as [->|Hne].
    + assert (lq = line) as -> by congruence. by apply C8.
    + apply (C3 q lq Hq). lia.
  - rewrite C5. cbn [caller_holds]. by rewrite Hholds.
  - rewrite C7. cbn. by rewrite andb_false_r.
  - rewrite C10, C1. cbn [pushed]. by rewrite seq_S.
  - rewrite C9, C1, Hco. lia.
Qed.

Lemma filling_free w q : client_free (client w) = true -> filling w q = false.
Proof.
  unfold filling. destruct (client w) as [|a p l]; [done|].
  destruct l; try discriminate. intros _. cbn. by rewrite andb_false_r.
Qed.

(** A step that leaves the windows alone and the client where it is. *)
Lemma WInv_same dflt w s' :
  same_windows (globals w) s' -> WInv dflt w ->
  WInv dflt (mkWorld s' (mutex w) (client w) (threads w)).
Proof.
  intros Hsame HI. pose proof Hsame as (Hw & Ho & Hc & Hop & Hf).
  destruct HI as [Hlen Hcount Hphase Hobj].
  split; world_fields; rewrite ?Ho, ?Hc; try done.
  unfold phase in *. world_fields.
  destruct (client w) as [|a p l]; [by apply same_quiet|].
  destruct (allocated l).
  - destruct Hphase as [line Hcr]. exists line. by apply same_creating.
  - destruct Hphase as [Hq ->]. rewrite Ho. split; [by apply same_quiet | done].
Qed.

(** A call that returns without a line of another thread. *)
Lemma WInv_called dflt w s' :
  same_windows (globals w) s' -> client_free (client w) = true ->
  WInv dflt w ->
  WInv dflt (mkWorld s' (mutex w) Idle (threads w)).
Proof.
  intros Hsame Hfree HI. pose proof (free_quiet dflt w HI Hfree) as Hq.
  pose proof Hsame as (Hw & Ho & Hc & Hop & Hf).
  destruct HI as [Hlen Hcount Hphase Hobj].
  split; world_fields; rewrite ?Ho, ?Hc; try done.
  - by apply same_quiet.
  - intros q d line Hd Hl. destruct (Hobj q d line Hd Hl) as (H1 & H2 & H3 & H4).
    repeat split; try done. intros Hne _. apply H4; [done|].
    by apply filling_free.
Qed.

(** The client has passed the checks of [tsd::CreateWindow]. *)
Lemma WInv_entered dflt w s' a :
  same_windows (globals w) s' -> client_free (client w) = true ->
  WInv dflt w ->
  WInv dflt (mkWorld s' (mutex w) (InCreateWindow a (length (objects s')) C214)
               (threads w)).
Proof.
  intros Hsame Hfree HI. pose proof (free_quiet dflt w HI Hfree) as Hq.
  pose proof Hsame as (Hw & Ho & Hc & Hop & Hf).
  destruct HI as [Hlen Hcount Hphase Hobj].
  split; world_fields; rewrite ?Ho, ?Hc; try done.
  - unfold phase. world_fields. cbn [allocated]. split; [by apply same_quiet|].
    by rewrite Ho.
  - intros q d line Hd Hl. destruct (Hobj q d line Hd Hl) as (H1 & H2 & H3 & H4).
    repeat split; try done. intros Hne _. apply H4; [done|].
    by apply filling_free.
Qed.

(** ** The calls of the client *)

Lemma leaves_Initialise module icon cursor atom err iconId cursorId s s' :
  leaves (tsd_Initialise module icon cursor atom err iconId cursorId s) = Some s' ->
  same_windows s s' /\ isRunning s' = isRunning s /\
  (isInitialised s = true -> isInitialised s' = true).
Proof.
  unfold leaves, tsd_Initialise, WIN32_EC_RET, in_CreateWin32DebugError,
    in_SetLastError, bind, os, modify, throw, ret.
  repeat case_match; try discriminate; intros ?; simplify_eq; by repeat split.
Qed.

Lemma leaves_CreateAutoDebugError errors line quit s s' :
  leaves (tsd_CreateAutoDebugError errors line quit s) = Some s' ->
  same_windows s s' /\ isRunning s' = isRunning s /\
  isInitialised s' = isInitialised s.
Proof.
  unfold leaves, tsd_CreateAutoDebugError, tsd_GetLastError, bind, os, modify,
    get, ret, throw.
  repeat case_match; try discriminate; intros ?; simplify_eq; by repeat split.
Qed.

Lemma leaves_MessageBox mbf result owner title msg flags s s' :
  leaves (tsd_MessageBox mbf result owner title msg flags s) = Some s' ->
  same_windows s s' /\ isRunning s' = isRunning s /\
  isInitialised s' = isInitialised s.
Proof.
  unfold leaves.
  destruct (tsd_MessageBox mbf result owner title msg flags s) as [r s1|s1| |] eqn:H;
    try discriminate.
  - intros [= <-]. unfold tsd_MessageBox, in_GetWindowData_int in H.
    apply bind_inv_Normal in H as [o [s2 [Ho H]]].
    apply bind_inv_Normal in Ho as [s3 [s4 [Hg Ho]]]. injection Hg as <- <-.
    apply GetWindowData_loop_state in Ho as ->.
    apply bind_inv_Normal in H as [h [s2 [Hh H]]].
    assert (s2 = s) as ->.
    { destruct o as [q|]; [|by injection Hh as _ <-].
      unfold arrow in Hh. apply bind_inv_Normal in Hh as [e [s4 [He Hh]]].
      apply deref_inv in He as [-> _]. by injection Hh as _ <-. }
    cbn in H. injection H as _ <-. by repeat split.
  - exfalso. revert H. unfold tsd_MessageBox, in_GetWindowData_int, bind, get.
    destruct (GetWindowData_loop _ (windows s) s) as [o s2| | |] eqn:Ho;
      try discriminate.
    + destruct o as [q|]; unfold arrow, bind, deref, os, modify, ret;
        repeat case_match; discriminate.
    + exfalso. revert Ho. generalize (windows s).
      induction l as [|i rest IH]; cbn [GetWindowData_loop]; [discriminate|].
      unfold bind, deref. destruct (objects s !! i); [|discriminate].
      case_match; [discriminate | exact IH].
Qed.

Lemma CreateWindow_checks_run name width height s :
  CreateWindow_checks name width height s =
    if negb (isInitialised s) then Normal false (set_lastErrorCode 2 s)
    else if bool_decide (name = None) then Normal false (set_lastErrorCode 3 s)
    else if (height <=? 0) || (width <=? 0)
         then Normal false (set_lastErrorCode 3 s)
    else Normal true s.
Proof.
  unfold CreateWindow_checks, bind, get, in_SetLastError, modify, ret.
  by repeat case_match.
Qed.

(** What an event other than a line of the client or of a window thread
    does: the windows, the threads and the mutex stay as they are. *)
Lemma occur_same dflt e w w' :
  occur dflt e w = Some w' ->
  match e with ClientLine | ThreadLine _ _ _ => False | _ => True end ->
  same_windows (globals w) (globals w') /\
  threads w' = threads w /\ mutex w' = mutex w /\
  (isInitialised (globals w) = true -> isInitialised (globals w') = true) /\
  match e with
  | Message _ _ _ _ _ _ => client w' = client w
  | _ => client_free (client w) = true /\
         isRunning (globals w') = isRunning (globals w) /\
         (client w' = Idle \/
          exists a, client w' = InCreateWindow a (length (objects (globals w'))) C214)
  end.
Proof.
  unfold occur. destruct (terminated w); [discriminate|].
  destruct e; intros H He; try done; unfold api_call, enter_CreateWindow in H.
  - destruct (client_free (client w)) eqn:Hfree; [|discriminate].
    destruct (leaves _) as [s'|] eqn:Hl; [|discriminate]. injection H as <-.
    apply leaves_Initialise in Hl as (? & ? & ?). world_fields.
    split; [assumption|]. repeat split; auto.
  - destruct (client_free (client w)) eqn:Hfree; [|discriminate].
    destruct (leaves _) as [s'|] eqn:Hl; [|discriminate]. injection H as <-.
    apply leaves_CreateAutoDebugError in Hl as (? & ? & Hi). world_fields.
    rewrite Hi. split; [assumption|]. repeat split; auto.
  - destruct (client_free (client w)) eqn:Hfree; [|discriminate].
    cbn in H. injection H as <-. world_fields. repeat split; auto.
  - destruct (client_free (client w)) eqn:Hfree; [|discriminate].
    destruct (leaves _) as [s'|] eqn:Hl; [|discriminate]. injection H as <-.
    apply leaves_MessageBox in Hl as (? & ? & Hi). world_fields.
    rewrite Hi. split; [assumption|]. repeat split; auto.
  - destruct (client_free (client w)) eqn:Hfree; [|discriminate].
    rewrite CreateWindow_checks_run in H.
    repeat case_match; simplify_eq; world_fields; repeat split; eauto.
  - unfold message in H. destruct (threads w !! p); [|discriminate].
    destruct (receives w0); [|discriminate].
    destruct (in_WindowProc _ _ _ _ _ _) as [r s'| | |] eqn:Hrun;
      try discriminate.
    injection H as <-. world_fields.
    split; [by eapply in_WindowProc_same|]. repeat split.
    revert Hrun. unfold in_WindowProc, tsd_GetWindowCount, bind, os, modify, get, ret.
    repeat case_match; try discriminate; intros ?; by simplify_eq.
Qed.

Lemma WInv_occur_same dflt e w w' :
  occur dflt e w = Some w' ->
  match e with ClientLine | ThreadLine _ _ _ => False | _ => True end ->
  WInv dflt w -> WInv dflt w'.
Proof.
  intros H He HI.
  destruct (occur_same dflt e w w' H He) as (Hsame & Ht & Hm & _ & Hc).
  destruct w' as [s' m' c' ts']. cbn [globals mutex client threads] in *.
  subst ts' m'.
  destruct e; try done;
    try (destruct Hc as (Hfree & _ & [->|[a' ->]]);
         [by apply WInv_called | by apply WInv_entered]).
  subst c'. by apply WInv_same.
Qed.

(** ** The lines of a window thread *)

(** A thread that is not yet past line 89 is the thread of the window in
    creation. *)
Lemma unsettled_creating dflt w this line :
  WInv dflt w -> threads w !! this = Some line -> settled line = false ->
  exists a l, client w = InCreateWindow a this l /\ allocated l = true /\
              creating w a this l line.
Proof.
  intros [Hlen _ Hphase _] Hline Hs. unfold phase in Hphase.
  assert (this < length (threads w))%nat as Hlt by (by eapply lookup_lt_Some).
  destruct (client w) as [|a p l].
  - rewrite (q_settled _ Hphase this line Hline Hlt) in Hs. discriminate.
  - destruct (allocated l) eqn:Hal.
    + destruct Hphase as [lp Hcr]. pose proof (cr_last _ _ _ _ _ Hcr) as Hlast.
      destruct (decide (this = p)) as [->|Hne].
      * exists a, l. rewrite (cr_thread _ _ _ _ _ Hcr) in Hline.
        injection Hline as ->. done.
      * rewrite (cr_before _ _ _ _ _ Hcr this line Hline) in Hs by lia.
        discriminate.
    + destruct Hphase as [Hq _].
      rewrite (q_settled _ Hq this line Hline Hlt) in Hs. discriminate.
Qed.

Lemma flag_reset_past_wait l : flag_reset l = true -> past_wait l = true.
Proof. by destruct l. Qed.

Lemma WInv_thread_line dflt this err created w w' :
  thread_line this err created w = Some w' -> WInv dflt w -> WInv dflt w'.
Proof.
  intros H HI.
  assert (is_Some (objects (globals w) !! this)) as Hsome.
  { unfold thread_line in H.
    destruct (threads w !! this) eqn:Hl; [|discriminate].
    apply lookup_lt_is_Some. rewrite <- (wi_length _ _ HI).
    by eapply lookup_lt_Some. }
  destruct (thread_line_effect _ _ _ _ _ H Hsome)
    as (line & d & Hline & Hd & Hrun & Hnf & Hnfail & Hts & Hcl & Hm & Hm87 &
        Hobjs & Hws & Hcnt & Hop & Hfl & _ & _).
  pose proof (unsettled_creating dflt w this line HI Hline) as Hunsettled.
  assert (this < length (threads w))%nat as Hlt by (by eapply lookup_lt_Some).
  destruct HI as [Hlen Hcount Hphase Hobj].
  assert (quiet w -> quiet w') as Hquiet.
  { intros [Q1 Q2 Q3 Q4 Q5].
    assert (settled line = true) as Hs by (by apply (Q1 this line Hline)).
    split.
    - intros q lq Hq Hlq. rewrite Hts in Hq.
      rewrite Hts, length_insert in Hlq.
      destruct (decide (q = this)) as [->|Hne].
      + rewrite list_lookup_insert_eq in Hq by done. injection Hq as <-.
        by destruct line.
      + rewrite list_lookup_insert_ne in Hq by done. by apply (Q1 q lq).
    - rewrite Hm. by destruct line.
    - rewrite Hfl. by destruct line.
    - by rewrite Hws, Hobjs, length_insert.
    - rewrite Hop, Hobjs, length_insert, Q5.
      destruct line; try discriminate Hs; lia. }
  split.
  - by rewrite Hts, Hobjs, !length_insert.
  - rewrite Hcnt, Hcount, Hts.
    pose proof (open_count_insert (threads w) this line
                  (next_line created line) Hline) as Hoc.
    destruct line; cbn in *; try (destruct (created =? 0)); cbn in *; lia.
  - unfold phase in *. rewrite Hcl. destruct (client w) as [|a p l]; [auto|].
    destruct (allocated l) eqn:Hal.
    2:{ destruct Hphase as [Hq ->]. split; [auto|].
        by rewrite Hobjs, length_insert. }
    destruct Hphase as [lp Hcr].
    destruct (decide (this = p)) as [->|Hne].
    + (* the thread of the window in creation *)
      destruct Hcr as [C1 C2 C3 C4 C5 C6 C7 C8 C9 C10 C11 C12].
      assert (lp = line) as -> by congruence.
      exists (next_line created line). split.
      * by rewrite Hobjs, length_insert.
      * rewrite Hts. by apply list_lookup_insert_eq.
      * intros q lq Hq Hqp. rewrite Hts in Hq.
        rewrite list_lookup_insert_ne in Hq by lia. by apply (C3 q lq).
      * rewrite <- C4, Hrun.
        destruct line; try done. cbn. by destruct (created =? 0).
      * rewrite Hm. destruct (caller_holds l) eqn:Hch.
        -- destruct line; try done.
           rewrite (Hm87 eq_refl) in C5. discriminate.
        -- destruct line; try done. cbn. by destruct (created =? 0).
      * destruct (caller_holds l) eqn:Hch; [|done]. cbn [andb] in *.
        destruct line; try done.
        -- cbn. by destruct (created =? 0).
        -- rewrite (Hm87 eq_refl) in C5. discriminate.
      * rewrite Hfl. destruct line; try exact C7.
        -- cbn. by destruct (created =? 0).
        -- cbn [next_line signalled andb].
           destruct (flag_reset l) eqn:Hr; [|done].
           discriminate (C8 (flag_reset_past_wait l Hr)).
      * intros Hp. specialize (C8 Hp). by destruct line.
      * rewrite Hop, C9.
        destruct line; cbn; try (destruct (created =? 0)); cbn; lia.
      * by rewrite Hws.
      * destruct C11 as (d0 & Hd0 & Hn & Hw & Hh).
        assert (d0 = d) as -> by congruence.
        eexists. split.
        { rewrite Hobjs. by apply list_lookup_insert_eq, lookup_lt_is_Some. }
        destruct line; cbn; try (destruct (created =? 0)); done.
      * exact C12.
    + (* the thread of an earlier window *)
      pose proof (cr_last _ _ _ _ _ Hcr) as Hlast.
      assert (settled line = true) as Hs.
      { apply (cr_before _ _ _ _ _ Hcr this line Hline). lia. }
      destruct Hcr as [C1 C2 C3 C4 C5 C6 C7 C8 C9 C10 C11 C12].
      exists lp. split; try done.
      * by rewrite Hobjs, length_insert.
      * rewrite Hts. by rewrite list_lookup_insert_ne.
      * intros q lq Hq Hqp. rewrite Hts in Hq.
        destruct (decide (q = this)) as [->|Hneq].
        -- rewrite list_lookup_insert_eq in Hq by done. injection Hq as <-.
           by destruct line.
        -- rewrite list_lookup_insert_ne in Hq by done. by apply (C3 q lq).
      * rewrite Hm. by destruct line.
      * rewrite Hfl. by destruct line.
      * rewrite Hop, C9. destruct line; try discriminate Hs; lia.
      * by rewrite Hws.
      * destruct C11 as (d0 & Hd0 & Hfilled). exists d0. split; [|done].
        rewrite Hobjs. by rewrite list_lookup_insert_ne.
  - intros q dq lq Hdq Hlq. rewrite Hobjs in Hdq. rewrite Hts in Hlq.
    assert (filling w' q = filling w q) as -> by (unfold filling; by rewrite Hcl).
    destruct (decide (q = this)) as [->|Hne].
    + rewrite list_lookup_insert_eq in Hdq by (by apply lookup_lt_is_Some).
      rewrite list_lookup_insert_eq in Hlq by done.
      injection Hdq as <-. injection Hlq as <-.
      destruct (Hobj this d line Hd Hline) as (H1 & H2 & H3 & H4).
      split; [|split; [|split]].
      * intros Hid.
        destruct line; cbn in *;
          try (destruct (created =? 0) eqn:Hc; cbn in * );
          try done; try (by apply H1).
        all: destruct (Hunsettled eq_refl) as (a & l & _ & _ & Hcr).
        all: rewrite (cr_opened _ _ _ _ _ Hcr); cbn; lia.
      * intros Hcr.
        destruct line; cbn in *;
          try (destruct (created =? 0) eqn:Hc; cbn in * );
          try done; try (by apply H2).
        by apply Z.eqb_neq.
      * destruct line; cbn;
          try (destruct (created =? 0) eqn:Hc; cbn); exact H3.
      * intros Hnf' Hfill.
        destruct line; cbn in *;
          try (destruct (created =? 0) eqn:Hc; cbn in * );
          try done; by apply H4.
    + rewrite list_lookup_insert_ne in Hdq by done.
      rewrite list_lookup_insert_ne in Hlq by done.
      by apply Hobj.
Qed.

(** ** The lines of the client *)

Lemma filling_other a p l q s m ts :
  p <> q -> filling (mkWorld s m (InCreateWindow a p l) ts) q = false.
Proof. intros Hne. unfold filling. cbn. by rewrite bool_decide_eq_false_2. Qed.

(** A line of the client that writes a field of the new object. *)
Ltac client_store H Hphase Hlen Hcount Hobj :=
  let lp := fresh "lp" in
  let d := fresh "d" in let Hd := fresh "Hd" in
  let Hn := fresh "Hn" in let Hw := fresh "Hw" in let Hh := fresh "Hh" in
  destruct Hphase as [lp [C1 C2 C3 C4 C5 C6 C7 C8 C9 C10 C11 C12]];
  cbn [globals mutex client threads] in *;
  destruct C11 as (d & Hd & Hn & Hw & Hh);
  rewrite (store_Some _ _ d) in H by exact Hd;
  injection H as <-;
  destruct (Hobj _ d lp Hd C2) as (O1 & O2 & O3 & O4);
  split; world_fields; simpl_state; rewrite ?length_insert; try done;
  [ unfold phase; world_fields; cbn [allocated]; exists lp;
    split; world_fields; simpl_state; rewrite ?length_insert; try done;
    eexists; split;
    [ by apply list_lookup_insert_eq, lookup_lt_is_Some
    | cbn in *; repeat split; intros; first [done | lia | auto with lia] ]
  | let q := fresh "q" in let dq := fresh "dq" in let lq := fresh "lq" in
    let Hdq := fresh "Hdq" in let Hlq := fresh "Hlq" in
    let Hne := fresh "Hne" in
    intros q dq lq Hdq Hlq;
    match goal with
    | |- context [filling (mkWorld _ _ (InCreateWindow _ ?p _) _) _] =>
        destruct (decide (q = p)) as [->|Hne]
    end;
    [ rewrite list_lookup_insert_eq in Hdq by (by apply lookup_lt_is_Some);
      injection Hdq as <-;
      assert (lq = lp) as -> by congruence;
      cbn; repeat split; try done;
      try (intros _; unfold filling; cbn;
           rewrite bool_decide_eq_true_2 by done; discriminate)
    | rewrite list_lookup_insert_ne in Hdq by done;
      destruct (Hobj q dq lq Hdq Hlq) as (? & ? & ? & Hv);
      repeat split; try done;
      try (intros ? _; apply Hv; [done | apply filling_other; congruence]) ] ].

Lemma WInv_client_line dflt w w' :
  client_line dflt w = Some w' -> WInv dflt w -> WInv dflt w'.
Proof.
  intros H HI. unfold client_line in H.
  destruct w as [s m c ts]. cbn [globals mutex client threads] in *.
  destruct c as [|a p l]; [discriminate|].
  pose proof HI as [Hlen Hcount Hphase Hobj].
  unfold phase in Hphase. cbn [globals mutex client threads] in *.
  destruct l; cbn [allocated] in Hphase.
  - (* 214 *)
    cbn in H. injection H as <-.
    destruct Hphase as [[Q1 Q2 Q3 Q4 Q5] ->]. cbn [globals mutex client threads] in *.
    split; world_fields; simpl_state.
    + rewrite !length_app. cbn. lia.
    + rewrite open_count_app. cbn. rewrite Hcount. lia.
    + unfold phase. world_fields. cbn [allocated]. exists NotStarted.
      split; world_fields; simpl_state; try done.
      * rewrite length_app. cbn. lia.
      * rewrite <- Hlen. by rewrite list_lookup_middle.
      * intros q lq Hq Hlt. cbn [threads] in Hq.
        rewrite lookup_app_l in Hq by lia.
        apply (Q1 q lq Hq). lia.
      * cbn. rewrite Q5. lia.
      * cbn. by rewrite app_nil_r.
      * exists dflt. split; [by rewrite list_lookup_middle|].
        cbn. repeat split; lia.
    + intros q dq lq Hdq Hlq.
      destruct (decide (q = length (objects s))) as [->|Hne].
      * rewrite list_lookup_middle in Hdq by done. injection Hdq as <-.
        rewrite <- Hlen, list_lookup_middle in Hlq by done. injection Hlq as <-.
        repeat split; try done.
        intros _. unfold filling. cbn.
        rewrite bool_decide_eq_true_2 by done. discriminate.
      * assert (q < length (objects s))%nat as Hlt.
        { apply lookup_lt_Some in Hdq. rewrite length_app in Hdq. cbn in Hdq. lia. }
        rewrite lookup_app_l in Hdq by done.
        rewrite lookup_app_l in Hlq by lia.
        destruct (Hobj q dq lq Hdq Hlq) as (? & ? & ? & Hv).
        repeat split; try done.

  - (* 215 *)
    destruct Hphase as [lp [C1 C2 C3 C4 C5 C6 C7 C8 C9 C10 C11 C12]].
    cbn [globals mutex client threads] in *. destruct C11 as (d & Hd & _).
    assert (lp = NotStarted) as -> by (by destruct lp).
    rewrite (bind_Normal _ _ s tt
               (set_trace (trace s ++ [OsThreadStart p]) s)) in H by reflexivity.
    rewrite (store_Some _ _ d) in H by exact Hd. injection H as <-.
    assert (p < length ts)%nat as Hlt by (by eapply lookup_lt_Some).
    destruct (Hobj _ d _ Hd C2) as (O1 & O2 & O3 & O4).
    split; world_fields; simpl_state; rewrite ?length_insert; try done.
    + pose proof (open_count_insert ts p NotStarted W67 C2) as Hoc.
      cbn in Hoc. rewrite Hcount. lia.
    + unfold phase. world_fields. cbn [allocated]. exists W67.
      split; world_fields; simpl_state; rewrite ?length_insert; try done.
      * by apply list_lookup_insert_eq.
      * intros q lq Hq Hqp. cbn [threads] in Hq.
        rewrite list_lookup_insert_ne in Hq by lia.
        by apply (C3 q lq).
      * eexists. split; [by apply list_lookup_insert_eq, lookup_lt_is_Some|].
        cbn. repeat split; lia.
    + intros q dq lq Hdq Hlq.
      destruct (decide (q = p)) as [->|Hne].
      * rewrite list_lookup_insert_eq in Hdq by (by apply lookup_lt_is_Some).
        rewrite list_lookup_insert_eq in Hlq by done.
        injection Hdq as <-. injection Hlq as <-.
        cbn. repeat split; try done.
        intros _. unfold filling. cbn.
        rewrite bool_decide_eq_true_2 by done. discriminate.
      * rewrite list_lookup_insert_ne in Hdq by done.
        rewrite list_lookup_insert_ne in Hlq by done.
        destruct (Hobj q dq lq Hdq Hlq) as (? & ? & ? & Hv).
        repeat split; done.
  - client_store H Hphase Hlen Hcount Hobj.
  - client_store H Hphase Hlen Hcount Hobj.
  - client_store H Hphase Hlen Hcount Hobj.
  - client_store H Hphase Hlen Hcount Hobj.
  - client_store H Hphase Hlen Hcount Hobj.
  - client_store H Hphase Hlen Hcount Hobj.
  - (* 225 *)
    destruct m; [discriminate|]. injection H as <-.
    destruct Hphase as [lp [C1 C2 C3 C4 C5 C6 C7 C8 C9 C10 C11 C12]].
    cbn [globals mutex client threads caller_holds] in *.
    destruct (window_holds lp) eqn:Hwh; [discriminate|].
    split; world_fields; try done.
    unfold phase. world_fields. cbn [allocated]. exists lp.
    split; world_fields; done.
  - (* 226 *)
    destruct Hphase as [lp [C1 C2 C3 C4 C5 C6 C7 C8 C9 C10 C11 C12]].
    cbn [globals mutex client threads caller_holds flag_reset negb andb] in *.
    rewrite andb_true_r in C7.
    destruct (windowIsFinished s) eqn:Hfl; injection H as <-.
    + split; world_fields; try done.
      unfold phase. world_fields. cbn [allocated]. exists lp.
      split; world_fields; try done.
      * cbn. by rewrite Hfl, <- C7.
      * intros _. destruct lp; try discriminate; done.
    + split; world_fields; try done.
      unfold phase. world_fields. cbn [allocated]. exists lp.
      split; world_fields; cbn [caller_holds]; try done.
      * by rewrite C6.
      * cbn. by rewrite Hfl, <- C7.
  - (* waiting *)
    destruct m; [discriminate|]. injection H as <-.
    destruct Hphase as [lp [C1 C2 C3 C4 C5 C6 C7 C8 C9 C10 C11 C12]].
    cbn [globals mutex client threads caller_holds] in *.
    destruct (window_holds lp) eqn:Hwh; [discriminate|].
    split; world_fields; try done.
    unfold phase. world_fields. cbn [allocated]. exists lp.
    split; world_fields; try done.
  - (* 228 *)
    cbn in H. injection H as <-.
    destruct Hphase as [lp [C1 C2 C3 C4 C5 C6 C7 C8 C9 C10 C11 C12]].
    cbn [globals mutex client threads] in *.
    split; world_fields; simpl_state; try done.
    unfold phase. world_fields. cbn [allocated]. exists lp.
    split; world_fields; simpl_state; try done.
    cbn in *. by rewrite C10, app_nil_r.
  - (* 230 *)
    cbn in H. injection H as <-.
    destruct Hphase as [lp [C1 C2 C3 C4 C5 C6 C7 C8 C9 C10 C11 C12]].
    cbn [globals mutex client threads] in *.
    split; world_fields; simpl_state; try done.
    unfold phase. world_fields. cbn [allocated]. exists lp.
    split; world_fields; simpl_state; try done.
    cbn. by rewrite andb_false_r.
  - (* 232 *)
    destruct Hphase as [lp [C1 C2 C3 C4 C5 C6 C7 C8 C9 C10 C11 C12]].
    cbn [globals mutex client threads] in *.
    destruct C11 as (d & Hd & Hfilled).
    rewrite (deref_Some _ _ _ Hd) in H. injection H as <-.
    destruct (settled_facts lp (C8 eq_refl)) as (_ & Hholds & _ & Hid & _).
    destruct (Hobj _ d lp Hd C2) as (O1 & _).
    split; world_fields; try done.
    unfold phase. world_fields. cbn [allocated]. exists lp.
    split; world_fields; cbn [caller_holds]; try done.
    + by rewrite Hholds.
    + by exists d.
    + intros v [= <-]. f_equal. by apply O1.
  - discriminate.
Qed.

(** ** Every world of the program *)

Lemma WInv_occur dflt e w w' :
  occur dflt e w = Some w' -> WInv dflt w -> WInv dflt w'.
Proof.
  intros H HI. destruct e;
    try (by apply (WInv_occur_same dflt _ w w' H)).
  - unfold occur in H. destruct (terminated w); [discriminate|].
    by apply (WInv_client_line dflt w).
  - unfold occur in H. destruct (terminated w); [discriminate|].
    by apply (WInv_thread_line dflt p err created w).
Qed.

Lemma WInv_play dflt es w w' :
  play dflt es w = Some w' -> WInv dflt w -> WInv dflt w'.
Proof.
  revert w. induction es as [|e es IH]; intros w H HI; cbn [play] in H.
  - by injection H as <-.
  - destruct (occur dflt e w) as [w1|] eqn:He; [|discriminate].
    apply (IH w1 H). by eapply WInv_occur.
Qed.

Lemma WInv_initial dflt s0 : startup s0 -> WInv dflt (initial s0).
Proof.
  intros (Hi & Hc & Ho & Hf & Hw & Hobj). split; cbn.
  - by rewrite Hobj.
  - by rewrite Hc.
  - unfold phase. cbn. split; cbn; rewrite ?Hobj; done.
  - intros q d line Hd. by rewrite Hobj, lookup_nil in Hd.
Qed.

Lemma WInv_reachable dflt w : reachable dflt w -> WInv dflt w.
Proof.
  intros (s0 & es & Hstart & Hplay).
  eapply WInv_play; [exact Hplay|]. by apply WInv_initial.
Qed.

(** What a line of the client leaves alone. *)
Lemma client_line_keeps dflt w w' :
  client_line dflt w = Some w' ->
  windowCount (globals w') = windowCount (globals w) /\
  windowsOpened (globals w') = windowsOpened (globals w) /\
  isInitialised (globals w') = isInitialised (globals w) /\
  isRunning (globals w') = isRunning (globals w).
Proof.
  unfold client_line. destruct w as [s m c ts]. cbn [globals mutex client threads].
  destruct c as [|a p l]; [discriminate|].
  destruct l; unfold new_WindowData, store, deref, bind, os, modify;
    repeat case_match; try discriminate; intros ?; simplify_eq; done.
Qed.

Lemma terminated_false dflt e w w' :
  occur dflt e w = Some w' -> terminated w = false.
Proof. unfold occur. by destruct (terminated w). Qed.

Lemma occur_ThreadLine dflt p err created w :
  terminated w = false ->
  occur dflt (ThreadLine p err created) w = thread_line p err created w.
Proof. unfold occur. by intros ->. Qed.


(** ** The windows of the list *)

(** A window of the window list: its thread is past line 89, it has its
    id, which is its position in the free store counted from one, and a
    handle, and it is valid unless its thread has run line 101. *)
Lemma listed_window dflt w q :
  WInv dflt w -> q ∈ windows (globals w) ->
  exists d line,
    objects (globals w) !! q = Some d /\ threads w !! q = Some line /\
    settled line = true /\ wd_id d = Z.of_nat q + 1 /\ wd_hWnd d <> 0 /\
    wd_isVisible d = wd_isVisible dflt /\
    (line <> Finished -> wd_isValid d = true).
Proof.
  intros [Hlen Hcount Hphase Hobj] Hq.
  assert (forall line, (q < length (objects (globals w)))%nat ->
            threads w !! q = Some line -> settled line = true ->
            filling w q = false ->
            exists d line,
              objects (globals w) !! q = Some d /\ threads w !! q = Some line /\
              settled line = true /\ wd_id d = Z.of_nat q + 1 /\
              wd_hWnd d <> 0 /\ wd_isVisible d = wd_isVisible dflt /\
              (line <> Finished -> wd_isValid d = true)) as Hfound.
  { intros line Hlt Hline Hs Hfill.
    destruct (lookup_lt_is_Some_2 _ _ Hlt) as [d Hd].
    destruct (Hobj q d line Hd Hline) as (H1 & H2 & H3 & H4).
    destruct (settled_facts line Hs) as (_ & _ & _ & Hid & Hcr & _).
    exists d, line. repeat split; auto. }
  assert (forall k, (q < k)%nat -> (k <= length (threads w))%nat ->
            settled_below k w ->
            exists line, threads w !! q = Some line /\ settled line = true)
    as Hbelow.
  { intros k Hqk Hk Hs.
    destruct (lookup_lt_is_Some_2 (threads w) q) as [line Hline]; [lia|].
    exists line. split; [done|]. by apply (Hs q line). }
  unfold phase in Hphase. unfold filling in Hfound.
  destruct (client w) as [|a p l].
  - destruct Hphase as [Q1 Q2 Q3 Q4 Q5]. rewrite Q4 in Hq.
    apply elem_of_seq in Hq.
    destruct (Hbelow (length (threads w))) as (line & Hline & Hs);
      [lia | lia | exact Q1 |].
    apply (Hfound line); auto. lia.
  - destruct (allocated l) eqn:Hal.
    + destruct Hphase as [lp [C1 C2 C3 C4 C5 C6 C7 C8 C9 C10 C11 C12]].
      rewrite C10 in Hq. apply elem_of_app in Hq as [Hq|Hq].
      * apply elem_of_seq in Hq.
        destruct (Hbelow p) as (line & Hline & Hs); [lia | lia | exact C3 |].
        apply (Hfound line); auto; [lia|].
        rewrite bool_decide_eq_false_2 by lia. done.
      * destruct (pushed l) eqn:Hp; [|by apply elem_of_nil in Hq].
        apply list_elem_of_singleton in Hq as ->.
        apply (Hfound lp); auto; [lia| |].
        -- apply C8. by destruct l.
        -- by destruct l; try discriminate Hp; rewrite andb_false_r.
    + destruct Hphase as [[Q1 Q2 Q3 Q4 Q5] ->]. rewrite Q4 in Hq.
      apply elem_of_seq in Hq.
      destruct (Hbelow (length (threads w))) as (line & Hline & Hs);
      [lia | lia | exact Q1 |].
      apply (Hfound line); auto; [lia|].
      rewrite bool_decide_eq_false_2 by lia. done.
Qed.

(** The window list holds the first objects of the free store, in the
    order of their creation; [windowsOpened] is their number, or one
    more while the creation of the next window is under way. *)
Lemma windows_shape dflt w :
  WInv dflt w ->
  exists k, windows (globals w) = seq 0 k /\
    Z.of_nat k <= windowsOpened (globals w) <= Z.of_nat k + 1 /\
    (client_free (client w) = true ->
       windowsOpened (globals w) = Z.of_nat k /\
       k = length (objects (globals w))).
Proof.
  intros HI. pose proof (free_quiet dflt w HI) as Hfree.
  destruct HI as [Hlen Hcount Hphase Hobj].
  unfold phase in Hphase. destruct (client w) as [|a p l].
  - destruct Hphase as [Q1 Q2 Q3 Q4 Q5]. eexists. split; [exact Q4|].
    split; [lia|]. done.
  - destruct (allocated l) eqn:Hal.
    + destruct Hphase as [lp [C1 C2 C3 C4 C5 C6 C7 C8 C9 C10 C11 C12]].
      destruct (pushed l) eqn:Hp.
      * exists (S p). rewrite seq_S. split; [exact C10|].
        assert (settled lp = true) as Hs by (apply C8; by destruct l).
        destruct (settled_facts lp Hs) as (_ & _ & Hco & _).
        rewrite C9, Hco. split; [lia|]. intros _. split; lia.
      * exists p. rewrite app_nil_r in C10. split; [exact C10|].
        rewrite C9. split; [destruct (counted_opened lp); lia|].
        intros Hf. by destruct l.
    + destruct Hphase as [[Q1 Q2 Q3 Q4 Q5] ->]. eexists. split; [exact Q4|].
      split; [lia|]. done.
Qed.

Lemma WInv_live dflt w : WInv dflt w -> live (globals w).
Proof.
  intros HI q Hq. destruct (listed_window dflt w q HI Hq) as (d & _ & Hd & _).
  by exists d.
Qed.

(** In every world of the program the window list points to live
    objects, as the lookups need. *)
Lemma reachable_live dflt w : reachable dflt w -> live (globals w).
Proof. intros H. by apply (WInv_live dflt), WInv_reachable. Qed.

Lemma omap_ids (l : list WindowData) (ws : list nat) :
  (forall p, p ∈ ws -> exists d, l !! p = Some d /\ wd_id d = Z.of_nat p + 1) ->
  omap (fun p => wd_id <$> l !! p) ws = (fun p : nat => Z.of_nat p + 1) <$> ws.
Proof.
  induction ws as [|p ws IH]; intros Hids; [reflexivity|].
  destruct (Hids p) as (d & Hd & Hid); [left|].
  cbn [omap list_omap fmap list_fmap]. rewrite Hd. cbn [fmap option_fmap option_map].
  rewrite Hid. f_equal. apply IH. intros q Hq. apply Hids. by right.
Qed.

Lemma WInv_window_ids dflt w :
  WInv dflt w ->
  window_ids (globals w) = seqZ 1 (Z.of_nat (length (windows (globals w)))).
Proof.
  intros HI. unfold window_ids. rewrite omap_ids.
  - destruct (windows_shape dflt w HI) as (k & -> & _).
    rewrite length_seq. unfold seqZ. by rewrite Nat2Z.id.
  - intros p Hp.
    destruct (listed_window dflt w p HI Hp) as (d & line & Hd & _ & _ & Hid & _).
    by exists d.
Qed.

Lemma reachable_occur dflt e w w' :
  reachable dflt w -> occur dflt e w = Some w' -> reachable dflt w'.
Proof.
  intros (s0 & es & Hstart & Hplay) He. exists s0, (es ++ [e]).
  split; [done|]. revert Hplay. generalize (initial s0).
  induction es as [|e1 es IH]; intros w0; cbn [play app].
  - intros [= ->]. by rewrite He.
  - destruct (occur dflt e1 w0); [apply IH | discriminate].
Qed.

Lemma reachable_play dflt es w w' :
  reachable dflt w -> play dflt es w = Some w' -> reachable dflt w'.
Proof.
  revert w. induction es as [|e es IH]; intros w Hw; cbn [play].
  - by intros [= <-].
  - destruct (occur dflt e w) as [w1|] eqn:He; [|discriminate].
    apply IH. by eapply reachable_occur.
Qed.

(** What an event does to [windowCount]: line 79 of a window thread adds
    one, line 100 takes one, and nothing else touches it. *)
Lemma occur_count dflt e w w' :
  WInv dflt w -> occur dflt e w = Some w' ->
  windowCount (globals w') = windowCount (globals w) +
    match e with
    | ThreadLine p _ _ =>
        match threads w !! p with
        | Some W79 => 1
        | Some W100 => -1
        | _ => 0
        end
    | _ => 0
    end.
Proof.
  intros HI Hstep. pose proof (terminated_false _ _ _ _ Hstep) as Hterm.
  destruct e;
    try (destruct (occur_same dflt _ w w' Hstep I)
           as ((_ & _ & Hc & _) & _); lia).
  - unfold occur in Hstep. rewrite Hterm in Hstep.
    destruct (client_line_keeps dflt w w' Hstep) as (Hc & _). lia.
  - rewrite occur_ThreadLine in Hstep by done.
    assert (is_Some (objects (globals w) !! p)) as Hobj.
    { unfold thread_line in Hstep.
      destruct (threads w !! p) eqn:Hl; [|discriminate].
      apply lookup_lt_is_Some. rewrite <- (wi_length _ _ HI).
      by eapply lookup_lt_Some. }
    destruct (thread_line_effect _ _ _ _ _ Hstep Hobj)
      as (line & d & Hline & _ & _ & _ & _ & _ & _ & _ & _ & _ & _ & Hcnt & _).
    rewrite Hcnt, Hline. by destruct line.
Qed.

(** What an event does to [windowsOpened]: line 80 of a window thread
    adds one, and nothing else touches it. *)
Lemma occur_opened dflt e w w' :
  WInv dflt w -> occur dflt e w = Some w' ->
  windowsOpened (globals w') = windowsOpened (globals w) +
    match e with
    | ThreadLine p _ _ =>
        match threads w !! p with
        | Some W80 => 1
        | _ => 0
        end
    | _ => 0
    end.
Proof.
  intros HI Hstep. pose proof (terminated_false _ _ _ _ Hstep) as Hterm.
  destruct e;
    try (destruct (occur_same dflt _ w w' Hstep I)
           as ((_ & _ & _ & Hc & _) & _); lia).
  - unfold occur in Hstep. rewrite Hterm in Hstep.
    destruct (client_line_keeps dflt w w' Hstep) as (_ & Hc & _). lia.
  - rewrite occur_ThreadLine in Hstep by done.
    assert (is_Some (objects (globals w) !! p)) as Hobj.
    { unfold thread_line in Hstep.
      destruct (threads w !! p) eqn:Hl; [|discriminate].
      apply lookup_lt_is_Some. rewrite <- (wi_length _ _ HI).
      by eapply lookup_lt_Some. }
    destruct (thread_line_effect _ _ _ _ _ Hstep Hobj)
      as (line & d & Hline & _ & _ & _ & _ & _ & _ & _ & _ & _ & _ & _ &
          Hop & _).
    rewrite Hop, Hline. by destruct line.
Qed.

(** A thread that stands at a line without a lock can run it. *)
Lemma thread_line_runs dflt p err created w line :
  WInv dflt w -> terminated w = false ->
  threads w !! p = Some line ->
  running line = true -> line <> Finished -> line <> Failed -> line <> W87 ->
  exists w', occur dflt (ThreadLine p err created) w = Some w' /\
             threads w' !! p = Some (next_line created line).
Proof.
  intros HI Hterm Hline Hrun Hnf Hnfail Hn87.
  assert (p < length (threads w))%nat as Hlt by (by eapply lookup_lt_Some).
  destruct (lookup_lt_is_Some_2 (objects (globals w)) p) as [d Hd].
  { by rewrite <- (wi_length _ _ HI). }
  rewrite occur_ThreadLine by done.
  assert (thread_line p err created w <> None) as Hsome.
  { unfold thread_line. rewrite Hline.
    destruct line; try done; cbn [globals].
    - rewrite (bind_Normal _ _ _ _ _ (deref_Some _ _ _ Hd)).
      rewrite (bind_Normal _ _ (globals w) tt
                 (set_trace (trace (globals w) ++
                    [OsCreateWindowEx (wd_name d) (wd_width d) (wd_height d)])
                    (globals w))) by reflexivity.
      unfold WIN32_EC_RET. destruct (created =? 0).
      + rewrite bind_bind. unfold bind at 1.
        by rewrite in_CreateWin32DebugError_run.
      + rewrite (bind_Normal _ _ _ created _ eq_refl).
        by rewrite (store_Some _ _ d).
    - by rewrite (store_Some _ _ d).
    - by rewrite (bind_Normal _ _ _ _ _ (deref_Some _ _ _ Hd)).
    - by rewrite (store_Some _ _ d).
    - rewrite (bind_Normal _ _ _ _ _ (store_Some _ _ d _ Hd)).
      erewrite store_Some; [done|]. cbn [objects set_objects].
      by apply list_lookup_insert_eq, lookup_lt_is_Some. }
  destruct (thread_line p err created w) as [w'|] eqn:Hstep; [|done].
  exists w'. split; [done|].
  destruct (thread_line_effect _ _ _ _ _ Hstep (ex_intro _ d Hd))
    as (line' & _ & Hline' & _ & _ & _ & _ & Hts & _).
  assert (line' = line) as -> by congruence.
  rewrite Hts. by apply list_lookup_insert_eq.
Qed.

(** ** A creation, from the call to the return *)

Section CreationRun.

Variables (dflt : WindowData) (a : call) (err : LastError) (created : HWND).

Lemma play_cons e es w w1 :
  occur dflt e w = Some w1 -> play dflt (e :: es) w = play dflt es w1.
Proof. intros H. cbn [play]. by rewrite H. Qed.

Lemma terminated_snoc s m c ts line :
  Failed ∉ ts -> line <> Failed ->
  terminated (mkWorld s m c (ts ++ [line])) = false.
Proof.
  intros Hts Hline. unfold terminated. cbn [threads].
  apply bool_decide_eq_false_2. rewrite elem_of_app, list_elem_of_singleton.
  intros [?|?]; congruence.
Qed.

Lemma lookup_snoc {A} (l : list A) x n : length l = n -> (l ++ [x]) !! n = Some x.
Proof. intros <-. by rewrite list_lookup_middle. Qed.

Lemma insert_snoc {A} (l : list A) x y n :
  length l = n -> <[n := y]> (l ++ [x]) = l ++ [y].
Proof.
  intros <-. rewrite insert_app_r_alt by lia. by rewrite Nat.sub_diag.
Qed.

Ltac world_step Hts Hlen :=
  unfold occur;
  rewrite (terminated_snoc _ _ _ _ _ Hts) by discriminate;
  unfold client_line, thread_line;
  cbn [globals mutex client threads];
  rewrite ?(lookup_snoc _ _ _ Hlen), ?(insert_snoc _ _ _ _ Hlen);
  simpl_state;
  repeat run1;
  rewrite ?(insert_snoc _ _ _ _ Hlen);
  first [ reflexivity
        | erewrite store_last; [reflexivity | reflexivity]
        | erewrite deref_last; [reflexivity | reflexivity] ].

Lemma creation_run w :
  calm w ->
  call_name a <> None -> 0 < call_width a -> 0 < call_height a ->
  created <> 0 ->
  play dflt (CallCreateWindow a ::
             creation_schedule (length (objects (globals w))) err created) w =
    Some (grown dflt a created w).
Proof.
  intros (Hfree & Hm & Hts & Hlen & Hf & Hi) Hn Hw Hh Hc.
  destruct w as [s m c ts]. cbn [globals mutex client threads] in *. subst m.
  apply Z.eqb_neq in Hc.
  unfold creation_schedule. cbn [replicate app].
  erewrite play_cons.
  2:{ unfold occur, enter_CreateWindow, terminated. cbn [globals mutex client threads].
      rewrite bool_decide_eq_false_2 by done. rewrite Hfree.
      rewrite CreateWindow_checks_run, Hi. cbn [negb].
      rewrite bool_decide_eq_false_2 by done.
      destruct (Z.leb_spec (call_height a) 0); [lia|].
      destruct (Z.leb_spec (call_width a) 0); [lia|]. reflexivity. }
  erewrite play_cons.
  2:{ unfold occur, terminated. cbn [globals mutex client threads].
      rewrite bool_decide_eq_false_2 by done. reflexivity. }
  cbn [new_WindowData]. simpl_state.
  do 8 (erewrite play_cons by world_step Hts Hlen).
  erewrite play_cons
    by (unfold occur; rewrite (terminated_snoc _ _ _ _ _ Hts) by discriminate;
        unfold client_line; cbn [globals mutex client threads]; simpl_state;
        rewrite Hf; reflexivity).
  erewrite play_cons
    by (unfold occur; rewrite (terminated_snoc _ _ _ _ _ Hts) by discriminate;
        unfold thread_line, WIN32_EC_RET; cbn [globals mutex client threads];
        rewrite (lookup_snoc _ _ _ Hlen), Hc; simpl_state; repeat run1;
        rewrite ?(insert_snoc _ _ _ _ Hlen);
        first [ reflexivity
              | erewrite store_last; [reflexivity | reflexivity] ]).
  do 8 (erewrite play_cons by world_step Hts Hlen).
  do 5 (erewrite play_cons by world_step Hts Hlen).
  cbn [play]. unfold grown, created_state. cbn [globals threads].
  do 2 f_equal. cbn. by rewrite <- !app_assoc.
Qed.

Lemma closing_run w :
  calm w ->
  play dflt (replicate 3 (ThreadLine (length (objects (globals w))) err created))
    (grown dflt a created w) =
    Some (turned dflt a created w).
Proof.
  intros (Hfree & Hm & Hts & Hlen & Hf & Hi).
  destruct w as [s m c ts]. cbn [globals mutex client threads] in *. subst m.
  unfold turned, grown, created_state.
  cbn [globals mutex client threads replicate].
  simpl_state.
  erewrite play_cons by world_step Hts Hlen.
  erewrite play_cons by world_step Hts Hlen.
  erewrite play_cons.
  2:{ unfold occur. rewrite (terminated_snoc _ _ _ _ _ Hts) by discriminate.
      unfold thread_line. cbn [globals mutex client threads].
      rewrite (lookup_snoc _ _ _ Hlen). simpl_state.
      erewrite bind_Normal by (apply store_last; reflexivity).
      simpl_state.
      erewrite store_last by reflexivity. rewrite (insert_snoc _ _ _ _ Hlen).
      reflexivity. }
  cbn [play]. rewrite list_lookup_middle by done.
  unfold exited_state. simpl_state. do 2 f_equal.
  rewrite insert_app_r_alt by lia. rewrite Nat.sub_diag. reflexivity.
Qed.

End CreationRun.

Lemma sample_initialised_reachable : reachable sample_dflt sample_initialised.
Proof.
  exists sample_startup, [CallInitialise 1 0 0 4 sample_err 0 0].
  split; [by repeat split | vm_compute; reflexivity].
Defined.

Lemma sample_world_reachable : reachable sample_dflt sample_world.
Proof.
  apply (reachable_play sample_dflt sample_creations sample_initialised).
  - exact sample_initialised_reachable.
  - vm_compute. reflexivity.
Defined.

Lemma sample_closing_reachable : reachable sample_dflt sample_closing.
Proof.
  apply (reachable_play sample_dflt
           [ThreadLine 0 sample_err 77; ThreadLine 0 sample_err 77] sample_world).
  - exact sample_world_reachable.
  - vm_compute. reflexivity.
Defined.

Lemma turned_globals dflt a created w :
  objects (globals (turned dflt a created w)) =
    objects (globals w) ++
      [mkWindowData created (windowsOpened (globals w) + 1) (call_name a)
         (wd_isVisible dflt) false (call_width a) (call_height a)
         (call_xPos a) (call_yPos a) (Some Exited)] /\
  windowsOpened (globals (turned dflt a created w)) =
    windowsOpened (globals w) + 1 /\
  windowIsFinished (globals (turned dflt a created w)) = false /\
  isInitialised (globals (turned dflt a created w)) = isInitialised (globals w).
Proof.
  unfold turned, grown, created_state. cbn [globals objects].
  rewrite list_lookup_middle by done. unfold exited_state. simpl_state.
  rewrite insert_app_r_alt by lia. rewrite Nat.sub_diag. done.
Qed.

Lemma turned_calm dflt a created w : calm w -> calm (turned dflt a created w).
Proof.
  intros (Hfree & Hm & Hts & Hlen & Hf & Hi).
  destruct (turned_globals dflt a created w) as (Ho & _ & Hfl & Hin).
  unfold calm. rewrite Ho, Hfl, Hin.
  unfold turned, grown. cbn [mutex client threads client_free].
  repeat split; try done.
  - rewrite elem_of_app, list_elem_of_singleton. intros [?|?]; congruence.
  - rewrite !length_app. cbn. lia.
Qed.

Lemma crowd_calm n : calm (crowd n).
Proof.
  induction n as [|n IH]; [|by apply turned_calm].
  unfold calm. cbn. repeat split; try done.
  apply not_elem_of_nil.
Qed.

Lemma crowd_size n :
  length (objects (globals (crowd n))) = n /\
  windowsOpened (globals (crowd n)) = Z.of_nat n.
Proof.
  induction n as [|n [IH1 IH2]]; [done|]. cbn [crowd].
  destruct (turned_globals sample_dflt sample_call_1 77 (crowd n))
    as (-> & -> & _).
  rewrite length_app, IH1, IH2. cbn [length]. split; lia.
Qed.

Lemma grown_reachable w :
  reachable sample_dflt w -> calm w ->
  reachable sample_dflt (grown sample_dflt sample_call_1 77 w).
Proof.
  intros Hreach Hcalm. eapply reachable_play; [exact Hreach|].
  by apply (creation_run sample_dflt sample_call_1 sample_err 77 w).
Qed.

Lemma crowd_reachable n : reachable sample_dflt (crowd n).
Proof.
  induction n as [|n IH]; [exact sample_initialised_reachable|].
  eapply reachable_play;
    [apply (grown_reachable _ IH (crowd_calm n))|].
  cbn [crowd].
  apply (closing_run sample_dflt sample_call_1 sample_err 77 (crowd n)).
  apply crowd_calm.
Qed.






(** * Further properties *)

(** X1.  [tsd::Initialise] returns exactly when [RegisterClassEx]
    answers an atom.  It then has set [isInitialised], and it returns
    [false] exactly when an icon or a cursor was asked for and could not
    be loaded; the last error code is then 6 if the cursor failed, 5 if
    only the icon failed, and otherwise as before.  Windows and counters
    are untouched.  When [RegisterClassEx] answers zero it throws and
    [isInitialised] stays as it was. *)
Theorem Initialise_outcome (module icon cursor atom : Z) (err : LastError)
    (iconId cursorId : Z) (s : State) :
  (atom <> 0 ->
   exists s',
     tsd_Initialise module icon cursor atom err iconId cursorId s =
       Normal (negb (icon_failed iconId icon) && negb (cursor_failed cursorId cursor)) s' /\
     isInitialised s' = true /\ classAtom s' = atom /\ hInstance s' = module /\
     lastErrorCode s' =
       (if cursor_failed cursorId cursor then 6
        else if icon_failed iconId icon then 5 else lastErrorCode s) /\
     same_windows s s') /\
  (atom = 0 ->
   exists s',
     tsd_Initialise module icon cursor atom err iconId cursorId s = Thrown s' /\
     isInitialised s' = isInitialised s /\ same_windows s s').
Proof.
  unfold icon_failed, cursor_failed. split.
  - intros Ha. apply Z.eqb_neq in Ha.
    unfold tsd_Initialise, WIN32_EC_RET, in_SetLastError, bind, os, modify, ret.
    rewrite Ha.
    destruct (iconId =? 0), (icon =? 0), (cursorId =? 0), (cursor =? 0);
      cbn; eexists; (split; [reflexivity|]); by repeat split.
  - intros ->.
    unfold tsd_Initialise, WIN32_EC_RET, in_SetLastError, bind, os, modify, ret.
    destruct (iconId =? 0), (icon =? 0), (cursorId =? 0), (cursor =? 0);
      cbn; eexists; (split; [reflexivity|]); by repeat split.
Qed.

Lemma Initialise_outcome_witness :
  4 <> 0 /\
  exists s',
    tsd_Initialise 1 0 9 4 sample_err 7 3 sample_startup = Normal false s' /\
    isInitialised s' = true /\ lastErrorCode s' = 5.
Proof.
  split; [discriminate|].
  destruct (Initialise_outcome 1 0 9 4 sample_err 7 3 sample_startup)
    as [Hok _].
  destruct (Hok ltac:(discriminate)) as (s' & Hrun & Hinit & _ & _ & Herr & _).
  exists s'. by repeat split.
Defined.

(** ** More on the life of the program *)

(** A step is a call that leaves the windows alone, a window creation, or
    a window thread that leaves its pump. *)
Lemma step_cases s s' :
  step s s' ->
  same_windows s s' \/
  (exists dflt created name width height xPos yPos,
     checks_pass s name width height /\ created <> 0 /\
     s' = created_state dflt created name width height xPos yPos s) \/
  (exists p d, objects s !! p = Some d /\ wd_msgThread d = Some Pumping /\
     s' = exited_state p d s).
Proof.
  intros [module icon cursor atom err iconId cursorId r H
    |dflt err created name width height xPos yPos r H
    |code H
    |errors line quit H
    |line quit H
    |mbf result owner title msg flags r H
    |p d def uMsg wParam lParam r Hd Hp H
    |p [d [Hd Hp]] H].
  - left. by eapply tsd_Initialise_same.
  - apply tsd_CreateWindow_inv in H
      as [(_ & _ & code & ->)|(Hpass & Hc & _ & ->)].
    + left. by repeat split.
    + right. left. by exists dflt, created, name, width, height, xPos, yPos.
  - injection H as <-. left. by repeat split.
  - left. by eapply tsd_CreateAutoDebugError_same.
  - injection H as <-. left. by repeat split.
  - left. by eapply tsd_MessageBox_same.
  - left. by eapply in_WindowProc_same.
  - rewrite (MessageHandler_exit_run _ _ _ Hd) in H. injection H as <-.
    right. right. by exists p, d.
Qed.

Lemma open_le_valid (ts : list window_pc) (objs : list WindowData) :
  length ts = length objs ->
  (forall q line d, ts !! q = Some line -> objs !! q = Some d ->
     open line = true -> wd_isValid d = true) ->
  (open_count ts <= valid_count objs)%nat.
Proof.
  unfold open_count, valid_count. revert objs.
  induction ts as [|line ts IH]; intros [|d objs] Hlen Hvalid;
    try discriminate Hlen; [done|].
  injection Hlen as Hlen.
  specialize (IH objs Hlen (fun q => Hvalid (S q))).
  rewrite !filter_cons. destruct (decide (open line = true)) as [Ho|Ho].
  - rewrite decide_True by (by apply (Hvalid 0%nat line d)). cbn. lia.
  - destruct (decide (wd_isValid d = true)); cbn; lia.
Qed.

(** X2.  Windows whose thread runs are valid.  In every world of the
    program each window of the window list has a handle, its thread is
    past line 89, and it is valid unless its thread has run line 101.
    While no creation is under way every open window is therefore valid:
    [tsd::GetWindowCount] returns at most the number of valid windows,
    and a number between zero and [windowsOpened]. *)
Theorem running_windows_are_valid (dflt : WindowData) (w : world) :
  reachable dflt w ->
  (forall p, p ∈ windows (globals w) ->
     exists d line,
       objects (globals w) !! p = Some d /\ threads w !! p = Some line /\
       wd_hWnd d <> 0 /\ settled line = true /\
       (line <> Finished -> wd_isValid d = true)) /\
  (client_free (client w) = true ->
     exists n, tsd_GetWindowCount (globals w) = Normal n (globals w) /\
       n <= Z.of_nat (valid_count (objects (globals w))) /\
       0 <= n <= windowsOpened (globals w)).
Proof.
  intros Hreach. pose proof (WInv_reachable dflt w Hreach) as HI. split.
  - intros p Hp.
    destruct (listed_window dflt w p HI Hp)
      as (d & line & Hd & Hline & Hs & _ & Hh & _ & Hv).
    by exists d, line.
  - intros Hfree. exists (windowCount (globals w)). split; [reflexivity|].
    rewrite (wi_count _ _ HI).
    destruct (windows_shape dflt w HI) as (k & Hk & _ & Hshape).
    destruct (Hshape Hfree) as [Hop Hlen].
    pose proof (open_count_le (threads w)) as Hle.
    rewrite (wi_length _ _ HI) in Hle.
    split; [|lia].
    apply inj_le, open_le_valid; [exact (wi_length _ _ HI)|].
    intros q line d Hline Hd Hopen.
    destruct (wi_objects _ _ HI q d line Hd Hline) as (_ & _ & _ & Hv).
    apply Hv; [by destruct line | by apply filling_free].
Qed.

Lemma running_windows_are_valid_witness :
  reachable sample_dflt sample_closed /\
  client_free (client sample_closed) = true /\
  exists n, tsd_GetWindowCount (globals sample_closed) =
              Normal n (globals sample_closed) /\
            n <= Z.of_nat (valid_count (objects (globals sample_closed))).
Proof.
  assert (reachable sample_dflt sample_closed) as Hreach.
  { apply (reachable_play sample_dflt [ThreadLine 0 sample_err 77]
             sample_closing).
    - exact sample_closing_reachable.
    - vm_compute. reflexivity. }
  split; [exact Hreach|]. split; [reflexivity|].
  pose proof (running_windows_are_valid sample_dflt sample_closed Hreach) as H.
  destruct H as (_ & Hcount).
  destruct (Hcount eq_refl) as (n & Hn & Hle & _).
  exists n. split; [exact Hn | exact Hle].
Defined.

(** The lookup by the id of a window of the list that is valid finds
    that window. *)
Lemma lookup_listed dflt w p d :
  WInv dflt w -> p ∈ windows (globals w) ->
  objects (globals w) !! p = Some d -> wd_isValid d = true ->
  in_GetWindowData_int (Z.of_nat p + 1) (globals w) =
    Normal (Some p) (globals w).
Proof.
  intros HI Hp Hd Hv.
  destruct (in_GetWindowData_int_spec (Z.of_nat p + 1) (globals w)
              (WInv_live dflt w HI)) as [r [Hr Hspec]].
  rewrite Hr. f_equal. destruct r as [q|].
  - destruct Hspec as (Hq & dq & Hdq & Hid & _).
    destruct (listed_window dflt w q HI Hq) as (dq' & _ & Hdq' & _ & _ & Hidq & _).
    assert (dq' = dq) as -> by congruence. f_equal. lia.
  - exfalso. apply (Hspec p d Hp Hd). split; [|done].
    destruct (listed_window dflt w p HI Hp) as (d' & _ & Hd' & _ & _ & Hid & _).
    by assert (d' = d) as -> by congruence.
Qed.

(** The lookup by the id of a window of the list that is not valid
    returns null. *)
Lemma lookup_invalid dflt w p d :
  WInv dflt w -> p ∈ windows (globals w) ->
  objects (globals w) !! p = Some d -> wd_isValid d = false ->
  in_GetWindowData_int (Z.of_nat p + 1) (globals w) = Normal None (globals w).
Proof.
  intros HI Hp Hd Hv.
  destruct (in_GetWindowData_int_spec (Z.of_nat p + 1) (globals w)
              (WInv_live dflt w HI)) as [r [Hr Hspec]].
  rewrite Hr. f_equal. destruct r as [q|]; [|done].
  destruct Hspec as (Hq & dq & Hdq & Hid & Hvq).
  destruct (listed_window dflt w q HI Hq) as (dq' & _ & Hdq' & _ & _ & Hidq & _).
  assert (dq' = dq) as -> by congruence.
  assert (q = p) as -> by lia. congruence.
Qed.

(** X3.  Creation and lookup.  When a call of [tsd::CreateWindow] has
    returned, at most 32767 windows have been opened, and the thread of
    the new window has not run line 101, the lookup by the value
    returned finds the new window, and the four accessors return the
    name, the width and the height given to the call and the visibility
    of a default-constructed window, whatever the schedule was. *)
Theorem created_window_is_found (dflt : WindowData) (w : world) (a : call)
    (p : nat) (v : Z) (line : window_pc) :
  reachable dflt w ->
  windowsOpened (globals w) <= 32767 ->
  client w = InCreateWindow a p (Returned v) ->
  threads w !! p = Some line -> line <> Finished ->
  in_GetWindowData_int v (globals w) = Normal (Some p) (globals w) /\
  tsd_GetWindowName v (globals w) = Normal (call_name a) (globals w) /\
  tsd_GetWindowWidth v (globals w) = Normal (call_width a) (globals w) /\
  tsd_GetWindowHeight v (globals w) = Normal (call_height a) (globals w) /\
  tsd_GetWindowVisibility v (globals w) =
    Normal (wd_isVisible dflt) (globals w).
Proof.
  intros Hreach Hbound Hv Hline Hnf.
  pose proof (WInv_reachable dflt w Hreach) as HI.
  pose proof (wi_phase _ _ HI) as Hphase. unfold phase in Hphase.
  rewrite Hv in Hphase. cbn [allocated] in Hphase.
  destruct Hphase as [lp [C1 C2 C3 C4 C5 C6 C7 C8 C9 C10 C11 C12]].
  assert (lp = line) as -> by congruence.
  destruct C11 as (d & Hd & Hname & Hwidth & Hheight).
  destruct (settled_facts line (C8 eq_refl)) as (_ & _ & Hco & _).
  rewrite Hco in C9.
  assert (v = Z.of_nat p + 1) as ->.
  { rewrite (C12 v eq_refl). apply to_short_small. lia. }
  assert (p ∈ windows (globals w)) as Hp.
  { rewrite C10. apply elem_of_app. right. by left. }
  destruct (wi_objects _ _ HI p d line Hd Hline) as (_ & _ & Hvis & Hvalid).
  assert (wd_isValid d = true) as Hval.
  { apply Hvalid; [done|]. apply filling_free. by rewrite Hv. }
  pose proof (lookup_listed dflt w p d HI Hp Hd Hval) as Hfind.
  split; [exact Hfind|].
  unfold tsd_GetWindowName, tsd_GetWindowWidth, tsd_GetWindowHeight,
    tsd_GetWindowVisibility.
  rewrite !(accessor_found _ _ _ _ d Hfind Hd).
  rewrite Hname, Hwidth, Hheight, Hvis by (cbn; lia). done.
Qed.

Lemma created_window_is_found_witness :
  reachable sample_dflt sample_world /\
  windowsOpened (globals sample_world) <= 32767 /\
  client sample_world = InCreateWindow sample_call_2 1 (Returned 2) /\
  threads sample_world !! 1%nat = Some W94 /\
  tsd_GetWindowName 2 (globals sample_world) =
    Normal (Some "second") (globals sample_world).
Proof.
  split; [exact sample_world_reachable|].
  assert (windowsOpened (globals sample_world) <= 32767) as Hbound
    by (cbn; lia).
  split; [exact Hbound|]. split; [reflexivity|]. split; [reflexivity|].
  pose proof (created_window_is_found sample_dflt sample_world sample_call_2
                1 2 W94 sample_world_reachable Hbound eq_refl eq_refl
                ltac:(discriminate)) as H.
  destruct H as (_ & Hname & _). exact Hname.
Defined.

(** X4.  The end of a thread and the lookup.  When the thread of a
    window of the window list runs line 101, at most 32767 windows
    having been opened: before, the lookup by the id of the window finds
    it; after, that lookup returns null and the accessors dereference
    null; and the lookup by any other id returns what it returned
    before. *)
Theorem exited_window_is_not_found (dflt : WindowData) (w w' : world)
    (p : nat) (err : LastError) (created : Z) :
  reachable dflt w ->
  windowsOpened (globals w) <= 32767 ->
  threads w !! p = Some W101 -> p ∈ windows (globals w) ->
  occur dflt (ThreadLine p err created) w = Some w' ->
  let id := Z.of_nat p + 1 in
  in_GetWindowData_int id (globals w) = Normal (Some p) (globals w) /\
  in_GetWindowData_int id (globals w') = Normal None (globals w') /\
  tsd_GetWindowName id (globals w') = Undefined /\
  (forall id' r, id' <> id ->
     in_GetWindowData_int id' (globals w) = Normal r (globals w) ->
     in_GetWindowData_int id' (globals w') = Normal r (globals w')).
Proof.
  intros Hreach Hbound Hline Hp Hstep id.
  pose proof (WInv_reachable dflt w Hreach) as HI.
  pose proof (WInv_occur dflt _ w w' Hstep HI) as HI'.
  rewrite occur_ThreadLine in Hstep by (by eapply terminated_false).
  destruct (listed_window dflt w p HI Hp)
    as (d & line & Hd & Hline' & _ & Hid & _ & _ & Hvalid).
  assert (line = W101) as -> by congruence.
  destruct (thread_line_effect _ _ _ _ _ Hstep (ex_intro _ d Hd))
    as (line & d0 & Hl & Hd0 & _ & _ & _ & Hts & _ & _ & _ & Hobjs & Hws & _).
  assert (line = W101) as -> by congruence.
  assert (d0 = d) as -> by congruence. cbn [thread_writes] in Hobjs.
  assert (p ∈ windows (globals w')) as Hp' by (by rewrite Hws).
  assert (objects (globals w') !! p =
          Some (wd_set_msgThread (Some Exited) (wd_set_isValid false d))) as Hd'.
  { rewrite Hobjs. by apply list_lookup_insert_eq, lookup_lt_is_Some. }
  assert (in_GetWindowData_int id (globals w') = Normal None (globals w'))
    as Hgone by (by apply (lookup_invalid dflt w' p _ HI' Hp' Hd')).
  split; [|split; [exact Hgone|split]].
  - apply (lookup_listed dflt w p d HI Hp Hd). by apply Hvalid.
  - unfold tsd_GetWindowName. by apply accessor_null.
  - intros id' r Hne Hr.
    destruct (in_GetWindowData_int_spec id' (globals w')
                (WInv_live dflt w' HI')) as [r' [Hr' Hspec']].
    rewrite Hr'. f_equal.
    destruct (in_GetWindowData_int_spec id' (globals w)
                (WInv_live dflt w HI)) as [r0 [Hr0 Hspec]].
    assert (r0 = r) as -> by congruence.
    assert (forall q dq, q <> p ->
              objects (globals w') !! q = Some dq <->
              objects (globals w) !! q = Some dq) as Hother.
    { intros q dq Hqp. by rewrite Hobjs, list_lookup_insert_ne. }
    assert (forall q dq, q ∈ windows (globals w) ->
              objects (globals w) !! q = Some dq -> wd_id dq = id' -> q <> p)
      as Hnotp.
    { intros q dq Hq Hdq Hidq ->. assert (dq = d) as -> by congruence.
      unfold id in Hne. lia. }
    destruct r' as [q'|], r as [q|]; try done.
    + destruct Hspec' as (Hq' & dq' & Hdq' & Hid' & Hv').
      destruct Hspec as (Hq & dq & Hdq & Hidq & Hvq).
      destruct (listed_window dflt w q HI Hq) as (e & _ & He & _ & _ & Hide & _).
      destruct (listed_window dflt w' q' HI' Hq')
        as (e' & _ & He' & _ & _ & Hide' & _).
      assert (e = dq) as -> by congruence.
      assert (e' = dq') as -> by congruence. f_equal. lia.
    + exfalso. destruct Hspec' as (Hq' & dq' & Hdq' & Hid' & Hv').
      rewrite Hws in Hq'.
      destruct (decide (q' = p)) as [->|Hqp].
      * rewrite Hd' in Hdq'. injection Hdq' as <-. discriminate Hv'.
      * apply (Hspec q' dq'); [done | by apply Hother | done].
    + exfalso. destruct Hspec as (Hq & dq & Hdq & Hidq & Hvq).
      apply (Hspec' q dq); [by rewrite Hws | | done].
      apply Hother; [|done]. by apply (Hnotp q dq).
Qed.

Lemma exited_window_is_not_found_witness :
  reachable sample_dflt sample_closing /\
  windowsOpened (globals sample_closing) <= 32767 /\
  threads sample_closing !! 0%nat = Some W101 /\
  0%nat ∈ windows (globals sample_closing) /\
  occur sample_dflt (ThreadLine 0 sample_err 77) sample_closing =
    Some sample_closed /\
  in_GetWindowData_int 1 (globals sample_closing) =
    Normal (Some 0%nat) (globals sample_closing) /\
  in_GetWindowData_int 1 (globals sample_closed) =
    Normal None (globals sample_closed).
Proof.
  split; [exact sample_closing_reachable|].
  assert (windowsOpened (globals sample_closing) <= 32767) as Hbound
    by (cbn; lia).
  assert (0%nat ∈ windows (globals sample_closing)) as Hin by (cbn; left).
  assert (occur sample_dflt (ThreadLine 0 sample_err 77) sample_closing =
          Some sample_closed) as Hstep by (vm_compute; reflexivity).
  split; [exact Hbound|]. split; [reflexivity|]. split; [exact Hin|].
  split; [exact Hstep|].
  pose proof (exited_window_is_not_found sample_dflt sample_closing
                sample_closed 0 sample_err 77 sample_closing_reachable Hbound
                eq_refl Hin Hstep) as H.
  destruct H as (Hbefore & Hafter & _).
  split; [exact Hbefore | exact Hafter].
Defined.

(** What a step of the life of the program does to the windows that
    exist. *)
Lemma step_keeps_windows s s' :
  step s s' ->
  windows s `prefix_of` windows s' /\
  (forall p d, objects s !! p = Some d ->
     exists d', objects s' !! p = Some d' /\ same_window d d').
Proof.
  intros Hstep.
  destruct (step_cases s s' Hstep)
    as [(Hw & Ho & _)|[(dflt & created & name & width & height & xPos & yPos &
                       _ & Hc & ->)|(q & e & He & Hq & ->)]].
  - rewrite Hw, Ho. split; [done|]. intros p d Hd. exists d. by repeat split.
  - cbn [created_state objects windows]. split; [by apply prefix_app_r|].
    intros p d Hd. exists d. split; [|by repeat split].
    by apply lookup_app_l_Some.
  - cbn [exited_state objects windows set_objects set_windowCount].
    split; [done|]. intros p d Hd.
    destruct (decide (p = q)) as [->|Hne].
    + rewrite list_lookup_insert_eq by (by eapply lookup_lt_Some).
      eexists. split; [reflexivity|].
      assert (e = d) as -> by congruence. by repeat split.
    + rewrite list_lookup_insert_ne by done. exists d. by repeat split.
Qed.

Lemma same_window_trans d1 d2 d3 :
  same_window d1 d2 -> same_window d2 d3 -> same_window d1 d3.
Proof.
  unfold same_window. intros (?&?&?&?&?&?&?&?) (?&?&?&?&?&?&?&?).
  repeat split; congruence.
Qed.



(** What a step of the life of the program does to the running flag. *)
Lemma step_running s s' :
  step s s' ->
  isRunning s' = isRunning s \/
  (isRunning s' = false /\ windowCount s = 1 /\ exists p, in_pump s p).
Proof.
  intros [module icon cursor atom err iconId cursorId r H
    |dflt err created name width height xPos yPos r H
    |code H
    |errors line quit H
    |line quit H
    |mbf result owner title msg flags r H
    |p d def uMsg wParam lParam r Hd Hp H
    |p [d [Hd Hp]] H].
  - left. revert H.
    unfold tsd_Initialise, WIN32_EC_RET, in_CreateWin32DebugError,
      in_SetLastError, bind, os, modify, throw, ret.
    repeat case_match; try discriminate; intros ?; by simplify_eq.
  - left. apply tsd_CreateWindow_inv in H
      as [(_ & _ & code & ->)|(_ & _ & _ & ->)]; reflexivity.
  - left. by injection H as <-.
  - left. revert H.
    unfold tsd_CreateAutoDebugError, tsd_GetLastError, bind, os, modify, get,
      ret, throw.
    repeat case_match; try discriminate; intros ?; by simplify_eq.
  - left. by injection H as <-.
  - left. unfold tsd_MessageBox, in_GetWindowData_int in H.
    apply bind_inv_Normal in H as [o [s1 [Ho H]]].
    apply bind_inv_Normal in Ho as [s2 [s3 [Hg Ho]]]. injection Hg as <- <-.
    apply GetWindowData_loop_state in Ho as ->.
    apply bind_inv_Normal in H as [h [s1 [Hh H]]].
    assert (s1 = s) as ->.
    { destruct o as [q|]; [|by injection Hh as _ <-].
      unfold arrow in Hh. apply bind_inv_Normal in Hh as [e [s4 [He Hh]]].
      apply deref_inv in He as [-> _]. by injection Hh as _ <-. }
    cbn in H. by injection H as _ <-.
  - revert H. unfold in_WindowProc, tsd_GetWindowCount, bind, os, modify, get, ret.
    repeat case_match; try discriminate; intros ?; simplify_eq;
      try (by left).
    right. split; [reflexivity|]. split; [by apply Z.eqb_eq|].
    exists p. by exists d.
  - left. rewrite (MessageHandler_exit_run _ _ _ Hd) in H. by injection H as <-.
Qed.



(** ** More on message boxes *)

(** X7.  The raw flags stay within the button, icon and task-modal bits:
    whatever the flags and the values of the [MBF] members, the value
    passed to the operating system is between 0 and 0x2077 and has no
    bit outside [MB_TYPEMASK], [MB_ICONMASK] and [MB_TASKMODAL]; its
    button part is at most 7 and its icon part is at most 0x70. *)
Theorem raw_flags_within_masks (mbf : MBF.values) (flags : Z) :
  let raw := raw_flags mbf flags in
  0 <= raw <= 0x2077 /\
  Z.land raw (Z.lor (Z.lor MB_TYPEMASK MB_ICONMASK) Win32.MB_TASKMODAL) = raw /\
  Z.land raw MB_TYPEMASK <= 7 /\
  Z.land raw MB_ICONMASK <= 0x70.
Proof.
  unfold raw_flags.
  repeat match goal with
  | |- context [flag_set flags ?f] => destruct (flag_set flags f)
  end; vm_compute; repeat split; congruence.
Qed.

Lemma flag_set_0 flags : flag_set flags 0 = false.
Proof. unfold flag_set. by rewrite Z.land_0_r. Qed.

(** X8.  Flags merge by bitwise or.  The member [BUTTON_OK] adds
    nothing to the raw flags, its constant being zero.  Two button sets
    asked for together give a third: yes/no with ok/cancel, and no
    larger set, has the operating system show retry/cancel.  Likewise
    the error icon with the question icon, without the information
    icon, gives the warning icon. *)
Theorem flags_merge_by_or (mbf : MBF.values) (flags : Z) :
  raw_flags mbf flags = raw_flags (without_BUTTON_OK mbf) flags /\
  (flag_set flags (MBF.BUTTON_YES_NO mbf) = true ->
   flag_set flags (MBF.BUTTON_OK_CANCEL mbf) = true ->
   flag_set flags (MBF.BUTTON_YES_NO_CANCEL mbf) = false ->
   flag_set flags (MBF.BUTTON_ABORT_RETRY_IGNORE mbf) = false ->
   flag_set flags (MBF.BUTTON_CANCEL_RETRY_CONTINUE mbf) = false ->
   Z.land (raw_flags mbf flags) MB_TYPEMASK = Win32.MB_RETRYCANCEL) /\
  (flag_set flags (MBF.ICON_ERROR mbf) = true ->
   flag_set flags (MBF.ICON_QUESTION mbf) = true ->
   flag_set flags (MBF.ICON_INFO mbf) = false ->
   Z.land (raw_flags mbf flags) MB_ICONMASK = Win32.MB_ICONWARNING).
Proof.
  split; [|split].
  - unfold raw_flags, without_BUTTON_OK. cbn [MBF.TASKMODAL MBF.ICON_WARNING
      MBF.ICON_ERROR MBF.ICON_INFO MBF.ICON_QUESTION MBF.BUTTON_OK
      MBF.BUTTON_OK_CANCEL MBF.BUTTON_YES_NO MBF.BUTTON_RETRY_CANEL
      MBF.BUTTON_YES_NO_CANCEL MBF.BUTTON_ABORT_RETRY_IGNORE
      MBF.BUTTON_CANCEL_RETRY_CONTINUE].
    rewrite flag_set_0. change Win32.MB_OK with 0.
    destruct (flag_set flags (MBF.BUTTON_OK mbf)); [|reflexivity].
    by rewrite Z.lor_0_r.
  - intros H1 H2 H3 H4 H5. unfold raw_flags. rewrite H1, H2, H3, H4, H5.
    repeat match goal with
    | |- context [flag_set flags ?f] => destruct (flag_set flags f)
    end; reflexivity.
  - intros H1 H2 H3. unfold raw_flags. rewrite H1, H2, H3.
    repeat match goal with
    | |- context [flag_set flags ?f] => destruct (flag_set flags f)
    end; reflexivity.
Qed.

Lemma flags_merge_by_or_witness :
  flag_set (64 + 128) (MBF.BUTTON_YES_NO sample_mbf) = true /\
  flag_set (64 + 128) (MBF.BUTTON_OK_CANCEL sample_mbf) = true /\
  Z.land (raw_flags sample_mbf (64 + 128)) MB_TYPEMASK = Win32.MB_RETRYCANCEL /\
  flag_set (4 + 16) (MBF.ICON_ERROR sample_mbf) = true /\
  flag_set (4 + 16) (MBF.ICON_QUESTION sample_mbf) = true /\
  Z.land (raw_flags sample_mbf (4 + 16)) MB_ICONMASK = Win32.MB_ICONWARNING.
Proof.
  destruct (flags_merge_by_or sample_mbf (64 + 128)) as (_ & Hbuttons & _).
  destruct (flags_merge_by_or sample_mbf (4 + 16)) as (_ & _ & Hicons).
  split; [reflexivity|]. split; [reflexivity|].
  split; [by apply Hbuttons|].
  split; [reflexivity|]. split; [reflexivity|]. by apply Hicons.
Defined.

(** ** The later version: erasing and logging *)

(** X9.  Erasing a window.  In maps filed by handle and id,
    [i::EraseWindowData] on a handle that is filed takes the record out
    of both maps: afterwards the lookup by that handle and the lookup by
    the id of the record return null, every other lookup returns what it
    returned before, and the maps are still filed by handle and id.  On
    a handle that is not filed the function dereferences the end
    iterator. *)
Theorem EraseWindowData_erases (st : i_ProgramState) (hWnd : Z) :
  i_keyed st ->
  (forall p, nativeHandleMap st !! hWnd = Some p ->
     exists st' d,
       i_EraseWindowData hWnd st = Some st' /\ i_objects st !! p = Some d /\
       i_GetWindowData_HWND hWnd st' = (None, st') /\
       i_GetWindowData_WndH (i_id d) st' = (None, st') /\
       (forall h, h <> hWnd ->
          (i_GetWindowData_HWND h st').1 = (i_GetWindowData_HWND h st).1) /\
       (forall n, n <> i_id d ->
          (i_GetWindowData_WndH n st').1 = (i_GetWindowData_WndH n st).1) /\
       i_keyed st') /\
  (nativeHandleMap st !! hWnd = None -> i_EraseWindowData hWnd st = None).
Proof.
  intros Hkeyed. split.
  - intros p Hp. destruct (proj1 Hkeyed hWnd p Hp) as (d & Hd & Hh).
    assert (i_EraseWindowData hWnd st =
            Some (mk_i_ProgramState (delete hWnd (nativeHandleMap st))
                    (delete (i_id d) (handleMap st))
                    (delete p (i_objects st)))) as Herase
      by (unfold i_EraseWindowData; by rewrite Hp, Hd).
    eexists _, d. split; [exact Herase|]. split; [exact Hd|].
    unfold i_GetWindowData_HWND, i_GetWindowData_WndH.
    cbn [nativeHandleMap handleMap].
    split; [by rewrite lookup_delete_eq|].
    split; [by rewrite lookup_delete_eq|].
    split; [|split].
    + intros h Hne. rewrite lookup_delete_ne by done.
      by destruct (nativeHandleMap st !! h).
    + intros n Hne. rewrite lookup_delete_ne by done.
      by destruct (handleMap st !! n).
    + by apply (i_EraseWindowData_keyed hWnd st).
  - intros Hnone. unfold i_EraseWindowData. by rewrite Hnone.
Qed.

Lemma EraseWindowData_erases_witness :
  i_keyed sample_i_state /\
  nativeHandleMap sample_i_state !! 78 = Some 0%nat /\
  exists st',
    i_EraseWindowData 78 sample_i_state = Some st' /\
    i_GetWindowData_HWND 78 st' = (None, st') /\
    i_GetWindowData_WndH 2 st' = (None, st').
Proof.
  split; [exact sample_i_state_keyed|]. split; [reflexivity|].
  destruct (EraseWindowData_erases sample_i_state 78 sample_i_state_keyed)
    as [Herase _].
  destruct (Herase 0%nat eq_refl) as (st' & d & Hrun & Hd & Hh & Hn & _).
  exists st'. split; [exact Hrun|]. split; [exact Hh|].
  assert (d = mk_i_WindowData 78 2) as ->
    by (vm_compute in Hd; by injection Hd as <-).
  exact Hn.
Defined.

Lemma switch_wide lvl : switch wide_cases lvl = [level_tag lvl].
Proof. by destruct lvl. Qed.

(** X10.  The two overloads of [i::Log].  Without [_DEBUG] neither does
    anything.  With it, each takes the logger mutex first and gives it
    back last.  The [wchar_t] overload writes the time stamp and the tag
    of the level to [std::cout] and the message to [std::wcout].  The
    [char] overload writes the time stamp, the tag and the message to
    [std::cout], except that for [LlValidation], whose case has no
    [break], it writes the tag of [LlBench] after the tag of the
    level. *)
Theorem Log_overloads (stamp msg : string) (lvl : LogLvl) :
  i_Log_wchar false stamp msg lvl = [] /\
  i_Log_char false stamp msg lvl = [] /\
  (exists body, i_Log_wchar true stamp msg lvl = LogLock :: body ++ [LogUnlock] /\
                (LogLock ∉ body) /\ (LogUnlock ∉ body)) /\
  (exists body, i_Log_char true stamp msg lvl = LogLock :: body ++ [LogUnlock] /\
                (LogLock ∉ body) /\ (LogUnlock ∉ body)) /\
  cout_text (i_Log_wchar true stamp msg lvl) =
    "[" +:+ stamp +:+ "]" +:+ level_tag lvl /\
  (lvl <> LlValidation ->
   cout_text (i_Log_char true stamp msg lvl) =
     "[" +:+ stamp +:+ "]" +:+ level_tag lvl +:+ msg +:+ nl) /\
  cout_text (i_Log_char true stamp msg LlValidation) =
    "[" +:+ stamp +:+ "]" +:+ "[Valid]: " +:+ "[Bench]: " +:+ msg +:+ nl.
Proof.
  split; [reflexivity|]. split; [reflexivity|].
  split; [|split; [|split; [|split]]].
  - exists ([LogCout "["; LogCout stamp; LogCout "]"] ++
            (LogCout <$> switch wide_cases lvl) ++
            [LogWcout msg; LogWcout nl; LogFlush]).
    split; [by destruct lvl|].
    destruct lvl; split; intros H; cbn in H;
      repeat (apply elem_of_cons in H as [H|H]; [discriminate|]);
      by apply elem_of_nil in H.
  - exists ([LogCout "["; LogCout stamp; LogCout "]"] ++
            (LogCout <$> switch narrow_cases lvl) ++
            [LogCout msg; LogCout nl; LogFlush]).
    split; [by destruct lvl|].
    destruct lvl; split; intros H; cbn in H;
      repeat (apply elem_of_cons in H as [H|H]; [discriminate|]);
      by apply elem_of_nil in H.
  - destruct lvl; cbn; by rewrite ?append_nil_r.
  - intros Hne. destruct lvl; try done; cbn; by rewrite ?append_nil_r.
  - cbn. by rewrite ?append_nil_r.
Qed.

Lemma Log_overloads_witness :
  LlError <> LlValidation /\
  cout_text (i_Log_char true "01.01. 12:00:00" "failed" LlError) =
    "[01.01. 12:00:00][Error]: failed" +:+ nl.
Proof.
  split; [discriminate|].
  apply (Log_overloads "01.01. 12:00:00" "failed" LlError). discriminate.
Defined.

(** ** More on the two threads of a window creation *)

Section HandshakeRuns.

Variables (dflt : WindowData) (err : LastError) (created : Z).
Variables (name : option string) (width height xPos yPos : Z).
Variable s0 : State.

Lemma run_step a sched c c1 :
  hstep dflt err created name width height xPos yPos a c = Some c1 ->
  run dflt err created name width height xPos yPos (a :: sched) c =
  run dflt err created name width height xPos yPos sched c1.
Proof. intros H. cbn [run]. by rewrite H. Qed.

Ltac hstep_run :=
  unfold hstep, caller_step, window_step, exec, at_pcs;
  cbn [wpc cpc shared mtx wndData new_WindowData];
  simpl_state;
  repeat run1;
  first [ reflexivity
        | erewrite store_last; [reflexivity | reflexivity]
        | erewrite deref_last; [reflexivity | reflexivity] ].

Lemma eager_run :
  created <> 0 ->
  run dflt err created name width height xPos yPos eager_schedule (start s0) =
    Some (mkConfig
            (mkState (hInstance s0) (hIcon s0) (hCursor s0) (classAtom s0)
               (isInitialised s0) (isRunning s0) (lastErrorCode s0)
               (windowCount s0 + 1) (windowsOpened s0 + 1) false
               (windows s0 ++ [length (objects s0)])
               (objects s0 ++ [eager_window dflt created name width height
                                 xPos yPos s0 Pumping])
               (trace s0 ++ eager_calls dflt created s0))
            None (length (objects s0))
            (Returned (to_short (windowsOpened s0 + 1))) W94).
Proof.
  intros Hc. unfold eager_schedule, start. cbn [replicate app].
  apply Z.eqb_neq in Hc.
  do 2 (erewrite run_step by hstep_run).
  erewrite run_step
    by (unfold hstep, window_step, WIN32_EC_RET; cbn [wpc cpc shared];
        rewrite Hc; hstep_run).
  do 8 (erewrite run_step by hstep_run).
  do 11 (erewrite run_step by hstep_run).
  cbn [run]. unfold eager_window, eager_calls. do 2 f_equal. cbn.
  by rewrite <- !app_assoc.
Qed.

Lemma short_lived_run :
  created <> 0 ->
  run dflt err created name width height xPos yPos short_lived_schedule (start s0) =
    Some (mkConfig
            (mkState (hInstance s0) (hIcon s0) (hCursor s0) (classAtom s0)
               (isInitialised s0) (isRunning s0) (lastErrorCode s0)
               (windowCount s0 + 1 - 1) (windowsOpened s0 + 1) false
               (windows s0 ++ [length (objects s0)])
               (objects s0 ++ [eager_window dflt created name width height
                                 xPos yPos s0 Exited])
               (trace s0 ++ eager_calls dflt created s0))
            None (length (objects s0))
            (Returned (to_short (windowsOpened s0 + 1))) Finished).
Proof.
  intros Hc. unfold short_lived_schedule, start. cbn [replicate app].
  apply Z.eqb_neq in Hc.
  do 2 (erewrite run_step by hstep_run).
  erewrite run_step
    by (unfold hstep, window_step, WIN32_EC_RET; cbn [wpc cpc shared];
        rewrite Hc; hstep_run).
  do 11 (erewrite run_step by hstep_run).
  do 11 (erewrite run_step by hstep_run).
  cbn [run]. unfold eager_window, eager_calls. do 2 f_equal. cbn.
  by rewrite <- !app_assoc.
Qed.

End HandshakeRuns.

(** X11.  Nothing orders the creation of the window after the arguments.
    The window thread is started by line 215, before lines 217-222 fill
    in the object.  When it runs first, and [CreateWindowEx] answers a
    window, the call returns the new id as usual and the object ends up
    with the name and the size given to the call, but [CreateWindowEx]
    was called with the name and the size of the default-constructed
    object.  The call starts with [windowsOpened] below 32767, so that
    the new id fits the return type. *)
Theorem window_may_be_created_before_its_arguments (dflt : WindowData)
    (err : LastError) (created : Z) (name : option string)
    (width height xPos yPos : Z) (s0 : State) :
  created <> 0 ->
  0 <= windowsOpened s0 < 32767 ->
  exists c,
    run dflt err created name width height xPos yPos eager_schedule (start s0) =
      Some c /\
    cpc c = Returned (windowsOpened s0 + 1) /\ wpc c = W94 /\
    trace (shared c) =
      trace s0 ++ [OsThreadStart (length (objects s0));
                   OsCreateWindowEx (wd_name dflt) (wd_width dflt) (wd_height dflt);
                   OsShowWindow created 1] /\
    exists d, objects (shared c) !! length (objects s0) = Some d /\
      wd_name d = name /\ wd_width d = width /\ wd_height d = height /\
      wd_hWnd d = created /\ wd_id d = windowsOpened s0 + 1.
Proof.
  intros Hc Hbound. eexists. split; [by apply eager_run|].
  cbn [cpc wpc shared trace objects].
  rewrite to_short_small by lia. repeat split.
  eexists. split; [by rewrite list_lookup_middle|]. by repeat split.
Qed.

Lemma window_may_be_created_before_its_arguments_witness :
  77 <> 0 /\ 0 <= windowsOpened sample_run_1 < 32767 /\
  exists c,
    run sample_dflt sample_err 77 (Some "first") 640 480 0 0 eager_schedule
      (start sample_run_1) = Some c /\
    trace (shared c) =
      trace sample_run_1 ++ [OsThreadStart 0; OsCreateWindowEx None 0 0;
                             OsShowWindow 77 1].
Proof.
  split; [discriminate|].
  assert (0 <= windowsOpened sample_run_1 < 32767) as Hbound by (cbn; lia).
  split; [exact Hbound|].
  destruct (window_may_be_created_before_its_arguments sample_dflt sample_err 77
              (Some "first") 640 480 0 0 sample_run_1 ltac:(discriminate) Hbound)
    as (c & Hrun & _ & _ & Htrace & _).
  exists c. split; [exact Hrun | exact Htrace].
Defined.

(** X12.  A window can be valid after its thread has ended.  Line 101
    clears [isValid] on the window thread and line 222 sets it on the
    calling thread, and nothing orders the two.  When the window thread
    runs to its end before the caller reaches line 217, the call returns
    the new id, the counter [windowCount] is back at its old value, the
    thread has ended, and the window is in the window list with
    [isValid] set.  The call starts with [windowsOpened] below 32767, so
    that the new id fits the return type. *)
Theorem window_may_be_valid_after_its_thread (dflt : WindowData)
    (err : LastError) (created : Z) (name : option string)
    (width height xPos yPos : Z) (s0 : State) :
  created <> 0 ->
  0 <= windowsOpened s0 < 32767 ->
  exists c,
    run dflt err created name width height xPos yPos short_lived_schedule
      (start s0) = Some c /\
    cpc c = Returned (windowsOpened s0 + 1) /\ wpc c = Finished /\
    windowCount (shared c) = windowCount s0 /\
    length (objects s0) ∈ windows (shared c) /\
    exists d, objects (shared c) !! length (objects s0) = Some d /\
      wd_isValid d = true /\ wd_msgThread d = Some Exited /\
      wd_id d = windowsOpened s0 + 1.
Proof.
  intros Hc Hbound. eexists. split; [by apply short_lived_run|].
  cbn [cpc wpc shared windowCount windows objects].
  rewrite to_short_small by lia.
  split; [reflexivity|]. split; [reflexivity|]. split; [lia|].
  split; [apply elem_of_app; right; by left|].
  eexists. split; [by rewrite list_lookup_middle|]. by repeat split.
Qed.

Lemma window_may_be_valid_after_its_thread_witness :
  77 <> 0 /\ 0 <= windowsOpened sample_run_1 < 32767 /\
  exists c,
    run sample_dflt sample_err 77 (Some "first") 640 480 0 0
      short_lived_schedule (start sample_run_1) = Some c /\
    wpc c = Finished /\
    in_GetWindowData_int 1 (shared c) = Normal (Some 0%nat) (shared c).
Proof.
  split; [discriminate|].
  assert (0 <= windowsOpened sample_run_1 < 32767) as Hbound by (cbn; lia).
  split; [exact Hbound|].
  destruct (window_may_be_valid_after_its_thread sample_dflt sample_err 77
              (Some "first") 640 480 0 0 sample_run_1 ltac:(discriminate) Hbound)
    as (c & Hrun & _ & Hw & _).
  exists c. split; [exact Hrun|]. split; [exact Hw|].
  assert (Some c = run sample_dflt sample_err 77 (Some "first") 640 480 0 0
                     short_lived_schedule (start sample_run_1)) as Hc
    by (by rewrite Hrun).
  vm_compute in Hc. injection Hc as ->. vm_compute. reflexivity.
Defined.

(** X13.  The mutex and the flag.  In every run of the two threads from
    a call that starts with the flag down: the mutex is never owned by
    both threads, and it is free whenever neither thread is between its
    lock and its unlock; the flag [windowIsFinished] is up only between
    line 88 of the window thread and line 230 of the caller; and once
    the caller has returned the flag is down and the mutex is not the
    caller's, as the next call needs them. *)
Theorem mutex_and_flag_discipline (dflt : WindowData) (err : LastError)
    (created : Z) (name : option string) (width height xPos yPos : Z)
    (s0 : State) (sched : list action) (c : config) :
  windowIsFinished s0 = false ->
  run dflt err created name width height xPos yPos sched (start s0) = Some c ->
  caller_holds (cpc c) && window_holds (wpc c) = false /\
  (mtx c = Some ByCaller <-> caller_holds (cpc c) = true) /\
  (mtx c = Some ByWindow <-> window_holds (wpc c) = true) /\
  (windowIsFinished (shared c) = true <->
     signalled (wpc c) = true /\ flag_reset (cpc c) = false) /\
  (forall v, cpc c = Returned v ->
     windowIsFinished (shared c) = false /\ mtx c <> Some ByCaller).
Proof.
  intros Hflag Hrun.
  assert (HInv created s0 c) as HI.
  { eapply run_inv; [|exact Hrun]. by apply HInv_start. }
  destruct HI as [Hptr Hfresh Hobj Hst Hmtx Hex Hfl Hwait Hop Hpush Hret].
  split; [exact Hex|]. rewrite Hmtx, Hfl.
  destruct (caller_holds (cpc c)) eqn:Hc, (window_holds (wpc c)) eqn:Hw;
    try discriminate Hex.
  - split; [done|]. split; [done|]. split.
    + rewrite andb_true_iff, negb_true_iff. done.
    + intros v Hv. rewrite Hv in Hc. discriminate Hc.
  - split; [done|]. split; [done|]. split.
    + rewrite andb_true_iff, negb_true_iff. done.
    + intros v Hv. rewrite Hv. cbn. by rewrite andb_false_r.
  - split; [done|]. split; [done|]. split.
    + rewrite andb_true_iff, negb_true_iff. done.
    + intros v Hv. rewrite Hv. cbn. by rewrite andb_false_r.
Qed.

Lemma mutex_and_flag_discipline_witness :
  windowIsFinished sample_run_1 = false /\
  run sample_dflt sample_err 77 (Some "first") 640 480 0 0
    (replicate 10 Caller ++ replicate 7 Window) (start sample_run_1) =
    Some sample_locked /\
  mtx sample_locked = Some ByWindow /\
  windowIsFinished (shared sample_locked) = true.
Proof.
  assert (run sample_dflt sample_err 77 (Some "first") 640 480 0 0
            (replicate 10 Caller ++ replicate 7 Window) (start sample_run_1) =
          Some sample_locked) as Hrun by (vm_compute; reflexivity).
  split; [reflexivity|]. split; [exact Hrun|].
  pose proof (mutex_and_flag_discipline sample_dflt sample_err 77 (Some "first")
                640 480 0 0 sample_run_1
                (replicate 10 Caller ++ replicate 7 Window) sample_locked
                eq_refl Hrun) as H.
  destruct H as (_ & _ & Hwindow & Hflag & _).
  split.
  - apply Hwindow. reflexivity.
  - apply Hflag. split; reflexivity.
Defined.

(** X14.  A creation that fails never returns.  When [CreateWindowEx]
    answers null, then under every schedule the caller is never past the
    wait of line 226, so the call does not return; the window thread
    never gets past line 67, and [windowsOpened] keeps its value.  Once
    the error translator has thrown on the window thread no thread
    moves any more. *)
Theorem failed_creation_never_returns (dflt : WindowData) (err : LastError)
    (name : option string) (width height xPos yPos : Z)
    (s0 : State) (sched : list action) (c : config) :
  windowIsFinished s0 = false ->
  run dflt err 0 name width height xPos yPos sched (start s0) = Some c ->
  past_wait (cpc c) = false /\
  (forall v, cpc c <> Returned v) /\
  window_created (wpc c) = false /\
  windowsOpened (shared c) = windowsOpened s0 /\
  windowIsFinished (shared c) = false /\
  (wpc c = Failed ->
     forall a, hstep dflt err 0 name width height xPos yPos a c = None).
Proof.
  intros Hflag Hrun.
  assert (HInv 0 s0 c) as HI.
  { eapply run_inv; [|exact Hrun]. by apply HInv_start. }
  destruct HI as [Hptr Hfresh Hobj Hst Hmtx Hex Hfl Hwait Hop Hpush Hret].
  assert (window_created (wpc c) = false) as Hnot.
  { destruct (window_created (wpc c)) eqn:Hw; [|done].
    destruct Hobj as (d & _ & Hcr & _).
    - apply started_allocated. rewrite <- Hst. by destruct (wpc c).
    - by destruct (Hcr eq_refl). }
  assert (signalled (wpc c) = false) as Hsig by (by destruct (wpc c)).
  assert (past_wait (cpc c) = false) as Hpast.
  { destruct (past_wait (cpc c)); [|done]. rewrite Hwait in Hsig; done. }
  split; [exact Hpast|]. split; [intros v Hv; by rewrite Hv in Hpast|].
  split; [exact Hnot|]. split.
  - rewrite Hop. destruct (wpc c); try discriminate Hnot; cbn; lia.
  - split; [by rewrite Hfl, Hsig|].
    intros Hfailed a. unfold hstep. by rewrite Hfailed.
Qed.

Lemma failed_creation_never_returns_witness :
  windowIsFinished sample_run_1 = false /\
  run sample_dflt sample_err 0 (Some "first") 640 480 0 0
    (replicate 10 Caller ++ [Window]) (start sample_run_1) = Some sample_failed /\
  wpc sample_failed = Failed /\
  hstep sample_dflt sample_err 0 (Some "first") 640 480 0 0 Caller sample_failed
    = None.
Proof.
  assert (run sample_dflt sample_err 0 (Some "first") 640 480 0 0
            (replicate 10 Caller ++ [Window]) (start sample_run_1) =
          Some sample_failed) as Hrun by (vm_compute; reflexivity).
  split; [reflexivity|]. split; [exact Hrun|]. split; [reflexivity|].
  pose proof (failed_creation_never_returns sample_dflt sample_err
                (Some "first") 640 480 0 0 sample_run_1
                (replicate 10 Caller ++ [Window]) sample_failed eq_refl Hrun)
    as H.
  destruct H as (_ & _ & _ & _ & _ & Hstuck).
  apply Hstuck. reflexivity.
Defined.

(** X15.  Initialised for good.  Nothing in the life of the program
    clears [isInitialised]: once it is set, then at every later point a
    call of [tsd::CreateWindow] gets past the check of line 210.  With a
    null name or a size that is not positive it reports error 3, never
    error 2, and returns, leaving the rest of the state alone; with a
    name and a positive size it goes on to line 214. *)
Theorem initialised_for_good (dflt : WindowData) (w w' : world)
    (es : list event) :
  reachable dflt w -> isInitialised (globals w) = true ->
  play dflt es w = Some w' ->
  isInitialised (globals w') = true /\
  (forall a, client_free (client w') = true -> terminated w' = false ->
     (call_name a = None \/ call_width a <= 0 \/ call_height a <= 0 ->
      occur dflt (CallCreateWindow a) w' =
        Some (mkWorld (set_lastErrorCode 3 (globals w')) (mutex w') Idle
                (threads w'))) /\
     (call_name a <> None -> 0 < call_width a -> 0 < call_height a ->
      occur dflt (CallCreateWindow a) w' =
        Some (mkWorld (globals w') (mutex w')
                (InCreateWindow a (length (objects (globals w'))) C214)
                (threads w')))).
Proof.
  intros Hreach Hinit Hplay.
  assert (isInitialised (globals w') = true) as Hinit'.
  { revert w Hreach Hinit Hplay.
    induction es as [|e es IH]; intros w Hreach Hinit Hplay; cbn [play] in Hplay.
    - by injection Hplay as <-.
    - destruct (occur dflt e w) as [w1|] eqn:He; [|discriminate].
      apply (IH w1); [by eapply reachable_occur | | done].
      pose proof (WInv_reachable dflt w Hreach) as HI.
      pose proof (terminated_false _ _ _ _ He) as Hterm.
      destruct e;
        try (destruct (occur_same dflt _ w w1 He I) as (_ & _ & _ & Hi & _);
             by apply Hi).
      + unfold occur in He. rewrite Hterm in He.
        destruct (client_line_keeps dflt w w1 He) as (_ & _ & Hi & _).
        by rewrite Hi.
      + rewrite occur_ThreadLine in He by done.
        assert (is_Some (objects (globals w) !! p)) as Hobj.
        { unfold thread_line in He.
          destruct (threads w !! p) eqn:Hl; [|discriminate].
          apply lookup_lt_is_Some. rewrite <- (wi_length _ _ HI).
          by eapply lookup_lt_Some. }
        destruct (thread_line_effect _ _ _ _ _ He Hobj)
          as (line & d & _ & _ & _ & _ & _ & _ & _ & _ & _ & _ & _ & _ & _ &
              _ & Hi & _).
        by rewrite Hi. }
  split; [exact Hinit'|]. intros a Hfree Hterm.
  unfold occur, enter_CreateWindow. rewrite Hterm, Hfree.
  rewrite CreateWindow_checks_run, Hinit'. cbn [negb]. split.
  - intros Hbad. destruct (decide (call_name a = None)) as [Hn|Hn].
    + by rewrite bool_decide_eq_true_2.
    + rewrite bool_decide_eq_false_2 by done.
      destruct Hbad as [?|[Hw|Hh]]; [done| |].
      * destruct (Z.leb_spec (call_width a) 0); [|lia]. by rewrite orb_true_r.
      * by destruct (Z.leb_spec (call_height a) 0); [|lia].
  - intros Hn Hw Hh. rewrite bool_decide_eq_false_2 by done.
    destruct (Z.leb_spec (call_height a) 0); [lia|].
    by destruct (Z.leb_spec (call_width a) 0); [lia|].
Qed.

Lemma initialised_for_good_witness :
  reachable sample_dflt sample_initialised /\
  isInitialised (globals sample_initialised) = true /\
  play sample_dflt sample_creations sample_initialised = Some sample_world /\
  isInitialised (globals sample_world) = true /\
  occur sample_dflt (CallCreateWindow (mkCall None 800 600 10 20)) sample_world =
    Some (mkWorld (set_lastErrorCode 3 (globals sample_world))
            (mutex sample_world) Idle (threads sample_world)).
Proof.
  assert (play sample_dflt sample_creations sample_initialised =
          Some sample_world) as Hplay by (vm_compute; reflexivity).
  split; [exact sample_initialised_reachable|]. split; [reflexivity|].
  split; [exact Hplay|].
  pose proof (initialised_for_good sample_dflt sample_initialised sample_world
                sample_creations sample_initialised_reachable eq_refl Hplay)
    as H.
  destruct H as (Hinit & Hcalls). split; [exact Hinit|].
  destruct (Hcalls (mkCall None 800 600 10 20) eq_refl eq_refl) as (Hbad & _).
  apply Hbad. by left.
Defined.

(** ** Windows and the running flag, under every schedule *)

(** What a line of the client does to the window list and to the objects
    of the free store. *)
Lemma client_line_windows dflt w w' a p l :
  client_line dflt w = Some w' -> client w = InCreateWindow a p l ->
  windows (globals w) `prefix_of` windows (globals w') /\
  (forall q d, objects (globals w) !! q = Some d ->
     q <> p \/ (8 <= progress l)%nat ->
     objects (globals w') !! q = Some d).
Proof.
  unfold client_line. destruct w as [s m c ts]. cbn [globals mutex client threads].
  intros H ->. revert H.
  assert (forall f l' m', 
            match store p f s with
            | Normal _ s' => Some (mkWorld s' m' (InCreateWindow a p l') ts)
            | _ => None
            end = Some w' ->
            windows s `prefix_of` windows (globals w') /\
            (forall q d, objects s !! q = Some d -> q <> p ->
               objects (globals w') !! q = Some d)) as Hstore.
  { intros f l' m' H.
    destruct (store p f s) as [u s'| | |] eqn:Hs; try discriminate.
    apply store_inv in Hs as (d0 & Hd0 & ->). injection H as <-.
    cbn [globals windows objects set_objects]. split; [done|].
    intros q d Hd Hne. by rewrite list_lookup_insert_ne. }
  destruct l; cbn [progress]; intros H.
  - cbn in H. injection H as <-. cbn. split; [done|].
    intros q d Hd _. by apply lookup_app_l_Some.
  - rewrite (bind_Normal _ _ s tt
               (set_trace (trace s ++ [OsThreadStart p]) s)) in H by reflexivity.
    destruct (store p _ _) as [u s'| | |] eqn:Hs; try discriminate.
    apply store_inv in Hs as (d0 & Hd0 & ->). injection H as <-.
    cbn [globals windows objects set_objects set_trace]. split; [done|].
    intros q d Hd [Hne|?]; [|lia]. by rewrite list_lookup_insert_ne.
  - destruct (Hstore _ _ _ H) as [Hw Ho]. split; [done|].
    intros q d Hd [?|?]; [auto|lia].
  - destruct (Hstore _ _ _ H) as [Hw Ho]. split; [done|].
    intros q d Hd [?|?]; [auto|lia].
  - destruct (Hstore _ _ _ H) as [Hw Ho]. split; [done|].
    intros q d Hd [?|?]; [auto|lia].
  - destruct (Hstore _ _ _ H) as [Hw Ho]. split; [done|].
    intros q d Hd [?|?]; [auto|lia].
  - destruct (Hstore _ _ _ H) as [Hw Ho]. split; [done|].
    intros q d Hd [?|?]; [auto|lia].
  - destruct (Hstore _ _ _ H) as [Hw Ho]. split; [done|].
    intros q d Hd [?|?]; [auto|lia].
  - destruct m; [discriminate|]. by injection H as <-.
  - destruct (windowIsFinished s); by injection H as <-.
  - destruct m; [discriminate|]. by injection H as <-.
  - cbn in H. injection H as <-. cbn. split; [by apply prefix_app_r|done].
  - cbn in H. by injection H as <-.
  - unfold deref in H. destruct (objects s !! p); [|discriminate].
    by injection H as <-.
  - discriminate.
Qed.

Lemma same_window_refl d : same_window d d.
Proof. by repeat split. Qed.

(** What an event does to the windows of the list. *)
Lemma occur_keeps_listed dflt e w w' :
  WInv dflt w -> occur dflt e w = Some w' ->
  windows (globals w) `prefix_of` windows (globals w') /\
  (forall p d, p ∈ windows (globals w) -> objects (globals w) !! p = Some d ->
     exists d', objects (globals w') !! p = Some d' /\ same_window d d').
Proof.
  intros HI Hstep. pose proof (terminated_false _ _ _ _ Hstep) as Hterm.
  destruct e;
    try (destruct (occur_same dflt _ w w' Hstep I)
           as ((Hw & Ho & _) & _); rewrite Hw, Ho; split; [done|];
         intros q d _ Hd; exists d; split; [done | apply same_window_refl]).
  - (* a line of the client *)
    unfold occur in Hstep. rewrite Hterm in Hstep.
    destruct (client w) as [|a pc l] eqn:Hc.
    { unfold client_line in Hstep. by rewrite Hc in Hstep. }
    destruct (client_line_windows dflt w w' a pc l Hstep Hc) as [Hw Ho].
    split; [exact Hw|]. intros q d Hq Hd. exists d.
    split; [|apply same_window_refl]. apply Ho; [done|].
    destruct (decide (q = pc)) as [->|Hne]; [right|by left].
    pose proof (wi_phase _ _ HI) as Hphase. unfold phase in Hphase.
    rewrite Hc in Hphase. destruct (allocated l) eqn:Hal.
    + destruct Hphase as [lp Hcr]. rewrite (cr_windows _ _ _ _ _ Hcr) in Hq.
      apply elem_of_app in Hq as [Hq|Hq].
      * apply elem_of_seq in Hq. lia.
      * destruct l; cbn in *; try lia; by apply elem_of_nil in Hq.
    + destruct Hphase as [Hquiet ->]. rewrite (q_windows _ Hquiet) in Hq.
      apply elem_of_seq in Hq. lia.
  - (* a line of a window thread *)
    rewrite occur_ThreadLine in Hstep by done.
    assert (is_Some (objects (globals w) !! p)) as Hobj.
    { unfold thread_line in Hstep.
      destruct (threads w !! p) eqn:Hl; [|discriminate].
      apply lookup_lt_is_Some. rewrite <- (wi_length _ _ HI).
      by eapply lookup_lt_Some. }
    destruct (thread_line_effect _ _ _ _ _ Hstep Hobj)
      as (line & d0 & Hline & Hd0 & _ & Hnf & _ & _ & _ & _ & _ & Hobjs & Hws & _).
    rewrite Hws, Hobjs. split; [done|]. intros q d Hq Hd.
    destruct (decide (q = p)) as [->|Hne].
    + rewrite list_lookup_insert_eq by (by apply lookup_lt_is_Some).
      eexists. split; [reflexivity|].
      assert (d0 = d) as -> by congruence.
      destruct (listed_window dflt w p HI Hq) as (_ & lq & _ & Hlq & Hs & _).
      assert (lq = line) as -> by congruence.
      destruct line; try discriminate Hs; try done; by repeat split.
    + rewrite list_lookup_insert_ne by done. exists d.
      split; [done | apply same_window_refl].
Qed.

(** X16.  Windows are for life, under every schedule.  Whatever the
    threads do between two points of the life of the program, the window
    list only grows at its end, and every window of the list keeps its
    id, its handle, its name, its size, its position and its
    visibility. *)
Theorem listed_windows_stay (dflt : WindowData) (w w' : world)
    (es : list event) :
  reachable dflt w -> play dflt es w = Some w' ->
  windows (globals w) `prefix_of` windows (globals w') /\
  (forall p d, p ∈ windows (globals w) -> objects (globals w) !! p = Some d ->
     exists d', objects (globals w') !! p = Some d' /\ same_window d d').
Proof.
  revert w. induction es as [|e es IH]; intros w Hreach Hplay; cbn [play] in Hplay.
  - injection Hplay as <-. split; [done|]. intros p d _ Hd. exists d.
    split; [done | apply same_window_refl].
  - destruct (occur dflt e w) as [w1|] eqn:He; [|discriminate].
    destruct (occur_keeps_listed dflt e w w1 (WInv_reachable dflt w Hreach) He)
      as [Hw Ho].
    destruct (IH w1 (reachable_occur dflt e w w1 Hreach He) Hplay) as [IHw IHo].
    split; [by etrans|]. intros p d Hp Hd.
    destruct (Ho p d Hp Hd) as (d1 & Hd1 & Hs1).
    destruct (IHo p d1) as (d2 & Hd2 & Hs2); [|done|].
    { destruct Hw as [k ->]. apply elem_of_app. by left. }
    exists d2. split; [done|]. by eapply same_window_trans.
Qed.

Lemma listed_windows_stay_witness :
  reachable sample_dflt sample_world /\
  play sample_dflt [ThreadLine 0 sample_err 77; ThreadLine 0 sample_err 77]
    sample_world = Some sample_closing /\
  windows (globals sample_world) `prefix_of` windows (globals sample_closing).
Proof.
  assert (play sample_dflt
            [ThreadLine 0 sample_err 77; ThreadLine 0 sample_err 77]
            sample_world = Some sample_closing) as Hplay
    by (vm_compute; reflexivity).
  split; [exact sample_world_reachable|]. split; [exact Hplay|].
  pose proof (listed_windows_stay sample_dflt sample_world sample_closing
                [ThreadLine 0 sample_err 77; ThreadLine 0 sample_err 77]
                sample_world_reachable Hplay) as H.
  exact (proj1 H).
Defined.

(** X17.  The running flag only goes down, under every schedule.  No
    step of any thread raises [isRunning] again once it is down, and the
    only step that takes it down is a [WM_DESTROY] handed to the window
    procedure while [tsd::GetWindowCount] returns one, that is, while
    exactly one window is open. *)
Theorem running_flag_falls_with_the_last_window (dflt : WindowData)
    (w w' : world) (e : event) :
  reachable dflt w -> occur dflt e w = Some w' ->
  (isRunning (globals w) = false ->
     tsd_Running (globals w') = Normal false (globals w')) /\
  (isRunning (globals w) = true -> isRunning (globals w') = false ->
     tsd_GetWindowCount (globals w) = Normal 1 (globals w) /\
     open_count (threads w) = 1%nat /\
     exists p hWnd def wParam lParam,
       e = Message p hWnd def Win32.WM_DESTROY wParam lParam).
Proof.
  intros Hreach Hstep. pose proof (WInv_reachable dflt w Hreach) as HI.
  pose proof (terminated_false _ _ _ _ Hstep) as Hterm.
  unfold tsd_Running, tsd_GetWindowCount, bind, get, ret.
  assert (isRunning (globals w') = isRunning (globals w) ->
          (isRunning (globals w) = false ->
             Normal (isRunning (globals w')) (globals w') =
             Normal false (globals w')) /\
          (isRunning (globals w) = true -> isRunning (globals w') = false ->
             Normal (windowCount (globals w)) (globals w) =
               Normal 1 (globals w) /\
             open_count (threads w) = 1%nat /\
             exists p hWnd def wParam lParam,
               e = Message p hWnd def Win32.WM_DESTROY wParam lParam)) as Hsame.
  { intros ->. split; [by intros ->|]. intros H1 H2. congruence. }
  destruct e;
    try (destruct (occur_same dflt _ w w' Hstep I)
           as (_ & _ & _ & _ & _ & Hr & _); by apply Hsame).
  - unfold occur in Hstep. rewrite Hterm in Hstep.
    destruct (client_line_keeps dflt w w' Hstep) as (_ & _ & _ & Hr).
    by apply Hsame.
  - rewrite occur_ThreadLine in Hstep by done.
    assert (is_Some (objects (globals w) !! p)) as Hobj.
    { unfold thread_line in Hstep.
      destruct (threads w !! p) eqn:Hl; [|discriminate].
      apply lookup_lt_is_Some. rewrite <- (wi_length _ _ HI).
      by eapply lookup_lt_Some. }
    destruct (thread_line_effect _ _ _ _ _ Hstep Hobj)
      as (line & d & _ & _ & _ & _ & _ & _ & _ & _ & _ & _ & _ & _ & _ & _ &
          _ & Hr).
    by apply Hsame.
  - unfold occur in Hstep. rewrite Hterm in Hstep. unfold message in Hstep.
    destruct (threads w !! p) as [line|]; [|discriminate].
    destruct (receives line); [|discriminate].
    destruct (in_WindowProc def hWnd uMsg wParam lParam (globals w))
      as [r s'| | |] eqn:Hrun; try discriminate.
    injection Hstep as <-. cbn [globals threads].
    revert Hrun. unfold in_WindowProc, tsd_GetWindowCount, bind, os, modify, get, ret.
    destruct (uMsg =? Win32.WM_CLOSE) eqn:Hclose.
    { intros [= _ <-]. by apply Hsame. }
    destruct (uMsg =? Win32.WM_DESTROY) eqn:Hdestroy.
    2:{ intros [= _ <-]. by apply Hsame. }
    destruct (windowCount (globals w) =? 1) eqn:Hone.
    2:{ intros [= _ <-]. by apply Hsame. }
    intros [= _ <-]. cbn [isRunning set_isRunning globals].
    apply Z.eqb_eq in Hdestroy, Hone. subst uMsg.
    split; [done|]. intros _ _. rewrite Hone. split; [done|].
    split; [pose proof (wi_count _ _ HI); lia|]. by exists p, hWnd, def, wParam, lParam.
Qed.

Lemma running_flag_falls_with_the_last_window_witness :
  reachable sample_dflt sample_closing /\
  occur sample_dflt (Message 1 78 0 Win32.WM_DESTROY 0 0) sample_closing =
    Some sample_quit /\
  isRunning (globals sample_closing) = true /\
  isRunning (globals sample_quit) = false /\
  tsd_GetWindowCount (globals sample_closing) =
    Normal 1 (globals sample_closing) /\
  open_count (threads sample_closing) = 1%nat.
Proof.
  assert (occur sample_dflt (Message 1 78 0 Win32.WM_DESTROY 0 0)
            sample_closing = Some sample_quit) as Hstep
    by (vm_compute; reflexivity).
  split; [exact sample_closing_reachable|]. split; [exact Hstep|].
  split; [reflexivity|]. split; [reflexivity|].
  pose proof (running_flag_falls_with_the_last_window sample_dflt
                sample_closing sample_quit
                (Message 1 78 0 Win32.WM_DESTROY 0 0)
                sample_closing_reachable Hstep) as H.
  destruct H as (_ & Hfall).
  destruct (Hfall eq_refl eq_refl) as (Hcount & Hopen & _).
  split; [exact Hcount | exact Hopen].
Defined.
